(** * Barcode decoding and product matching of the pharmacy trackers

    A shallow embedding of the JavaScript sources

    - [src/unnamed/part_000]  the [PharmacyMatcher] class
      ([matchExact], [matchSeries], [matchByName], [smartMatch]),
    - [src/unnamed/part_002]  the "Backwall Tracker" script
      ([parseGS1], [parseExpiryDate], [buildMasterIndex], [matchProduct]),
    - [src/app.js]            the "Oasis Pharmacy" script
      ([parseGS1], [convertToParenthesized], [parseExpiryDate],
       [loadMasterData], [matchProduct]),

    followed by the properties the specification states about them.

    Conventions of the embedding.
    - A JavaScript string is a [string]; the string primitives are embedded
      as they act on ASCII text (white space is TAB, LF, VT, FF, CR and
      SPACE; case folding maps a-z to A-Z).
    - A JavaScript number that is used as an integer is a [Z]; [NaN] is the
      [None] of [option Z].
    - [Map]s keyed by strings are [gmap string _]; arrays are lists.
    - A property that may be missing on an object ([p.barcode], [p.name],
      [item.rms]) is an [option string].
    - A [throw] is the [inl] of a sum type. *)

From Stdlib Require Import ZArith Ascii String List Sorted Lia.
From stdpp Require Import base option list gmap strings pretty.

Local Open Scope string_scope.
Local Open Scope list_scope.
Local Open Scope Z_scope.

(** ** JavaScript primitives used by the sources *)
Module JS.

(** *** Character classes *)

(** [\d] *)
Definition isDigit (c : ascii) : bool :=
  let n := nat_of_ascii c in ((48 <=? n) && (n <=? 57))%nat.

(** [\s] and the characters removed by [trim], on ASCII. *)
Definition isSpace (c : ascii) : bool :=
  let n := nat_of_ascii c in (((9 <=? n) && (n <=? 13)) || (n =? 32))%nat.

Fixpoint allChars (f : ascii → bool) (s : string) : bool :=
  match s with
  | EmptyString => true
  | String c r => f c && allChars f r
  end.

Fixpoint filterChars (f : ascii → bool) (s : string) : string :=
  match s with
  | EmptyString => EmptyString
  | String c r => if f c then String c (filterChars f r) else filterChars f r
  end.

Fixpoint mapChars (f : ascii → ascii) (s : string) : string :=
  match s with
  | EmptyString => EmptyString
  | String c r => String (f c) (mapChars f r)
  end.

(** The longest prefix of [s] whose characters satisfy [f], and the rest. *)
Fixpoint takeWhile (f : ascii → bool) (s : string) : string :=
  match s with
  | EmptyString => EmptyString
  | String c r => if f c then String c (takeWhile f r) else EmptyString
  end.

Fixpoint dropWhile (f : ascii → bool) (s : string) : string :=
  match s with
  | EmptyString => EmptyString
  | String c r => if f c then dropWhile f r else s
  end.

Fixpoint takeS (n : nat) (s : string) : string :=
  match n, s with
  | S n', String c r => String c (takeS n' r)
  | _, _ => EmptyString
  end.

Fixpoint dropS (n : nat) (s : string) : string :=
  match n, s with
  | S n', String _ r => dropS n' r
  | _, _ => s
  end.

Fixpoint repeatChar (c : ascii) (n : nat) : string :=
  match n with
  | O => EmptyString
  | S n' => String c (repeatChar c n')
  end.

(** *** String.prototype methods *)

(** [s.trim()] *)
Definition trimStart (s : string) : string := dropWhile isSpace s.

Fixpoint trimEnd (s : string) : string :=
  match s with
  | EmptyString => EmptyString
  | String c r =>
      match trimEnd r with
      | EmptyString => if isSpace c then EmptyString else String c EmptyString
      | r' => String c r'
      end
  end.

Definition trim (s : string) : string := trimEnd (trimStart s).

(** [s.startsWith(p)] *)
Definition startsWith (s p : string) : bool := String.prefix p s.

(** [s.includes(p)] *)
Fixpoint includes (s p : string) : bool :=
  String.prefix p s ||
  match s with
  | EmptyString => false
  | String _ r => includes r p
  end.

(** [s.indexOf(p, from)]: [None] stands for [-1]. *)
Fixpoint indexOfFrom0 (s p : string) (i : nat) : option nat :=
  if String.prefix p s then Some i
  else match s with
       | EmptyString => None
       | String _ r => indexOfFrom0 r p (S i)
       end.

Definition indexOf (s p : string) (from : nat) : option nat :=
  let from' := Nat.min from (String.length s) in
  indexOfFrom0 (dropS from' s) p from'.

(** [s.substring(a, b)] for non-negative [a], [b]: the arguments are
    clamped to the length and swapped when [a > b]. *)
Definition substring (s : string) (a b : nat) : string :=
  let lo := Nat.min a b in
  let hi := Nat.max a b in
  takeS (hi - lo) (dropS lo s).

(** [s.substring(a)] and [s.slice(a)] for non-negative [a] *)
Definition substringFrom (s : string) (a : nat) : string := dropS a s.

(** [s.slice(-n)]: the last [n] characters (the whole string when it is
    shorter). *)
Definition sliceLast (s : string) (n : nat) : string :=
  dropS (String.length s - n) s.

(** [s.padStart(n, c)] for a one-character filler *)
Definition padStart (s : string) (n : nat) (c : ascii) : string :=
  repeatChar c (n - String.length s) +:+ s.

(** [s.toUpperCase()] *)
Definition upperChar (c : ascii) : ascii :=
  let n := nat_of_ascii c in
  if ((97 <=? n) && (n <=? 122))%nat then ascii_of_nat (n - 32) else c.

Definition toUpperCase (s : string) : string := mapChars upperChar s.

(** [s.replace(/\D/g, '')] *)
Definition stripNonDigits (s : string) : string := filterChars isDigit s.

(** [s.replace(/^0+/, '')] *)
Definition stripLeadingZeros (s : string) : string :=
  dropWhile (λ c, Ascii.eqb c "0") s.

(** [s.replace(/c/g, '')] and [s.replace(/c/g, d)] for single characters *)
Definition removeChar (c : ascii) (s : string) : string :=
  filterChars (λ x, negb (Ascii.eqb x c)) s.

Definition replaceChar (c d : ascii) (s : string) : string :=
  mapChars (λ x, if Ascii.eqb x c then d else x) s.

(** [s.split(/\s+/)]: the pieces between the maximal runs of white space.
    [cur] is the piece being read, [inRun] tells that the previous
    character was white space. *)
Fixpoint splitWsGo (s : string) (cur : string) (inRun : bool) : list string :=
  match s with
  | EmptyString => [cur]
  | String c r =>
      if isSpace c then
        if inRun then splitWsGo r cur true
        else cur :: splitWsGo r EmptyString true
      else splitWsGo r (cur +:+ String c EmptyString) false
  end.

Definition splitWs (s : string) : list string := splitWsGo s EmptyString false.

(** Truthiness of a string: [Boolean(s)], [!!s] *)
Definition truthy (s : string) : bool := negb (String.eqb s "").

(** [x || ''] for a possibly missing string property *)
Definition orEmpty (x : option string) : string := default "" x.

(** *** Regular expressions of the sources *)

(** [/^\d+$/.test(s)] *)
Definition isDigits1 (s : string) : bool := truthy s && allChars isDigit s.

(** [/^\d{lo,hi}$/.test(s)] *)
Definition isDigitsBetween (lo hi : nat) (s : string) : bool :=
  allChars isDigit s &&
  ((lo <=? String.length s) && (String.length s <=? hi))%nat.

(** [/^\d{n}/.test(s)] *)
Definition startsWithDigits (n : nat) (s : string) : bool :=
  (n <=? String.length (takeWhile isDigit s))%nat.

(** [s.match(/TAG(C{lo,hi})/)] where [TAG] is a literal and [C] a
    character class: the first capture group of the leftmost match, if
    any.  The quantifier is greedy and nothing follows the group, so the
    group takes the whole run of [C] characters, up to [hi] of them. *)
Definition captureHere (tag : string) (cls : ascii → bool) (lo : nat)
    (hi : option nat) (s : string) : option string :=
  if String.prefix tag s then
    let run := takeWhile cls (dropS (String.length tag) s) in
    if (lo <=? String.length run)%nat then
      Some (match hi with Some h => takeS h run | None => run end)
    else None
  else None.

Fixpoint captureAfter (tag : string) (cls : ascii → bool) (lo : nat)
    (hi : option nat) (s : string) : option string :=
  match captureHere tag cls lo hi s with
  | Some g => Some g
  | None =>
      match s with
      | EmptyString => None
      | String _ r => captureAfter tag cls lo hi r
      end
  end.

(** *** Numbers *)

(** The value of a character as a digit in radix up to 36. *)
Definition digitValue (c : ascii) : option Z :=
  let n := Z.of_nat (nat_of_ascii c) in
  if (48 <=? n) && (n <=? 57) then Some (n - 48)
  else if (97 <=? n) && (n <=? 122) then Some (n - 87)
  else if (65 <=? n) && (n <=? 90) then Some (n - 55)
  else None.

Definition isRadixDigit (R : Z) (c : ascii) : bool :=
  match digitValue c with
  | Some v => v <? R
  | None => false
  end.

Fixpoint digitsValue (R : Z) (s : string) (acc : Z) : Z :=
  match s with
  | EmptyString => acc
  | String c r => digitsValue R r (acc * R + default 0 (digitValue c))
  end.

(** [parseInt(s, radix)]; [radix = 0] stands for a missing radix.
    [None] is [NaN].  Integers are exact. *)
Definition parseInt (s : string) (radix : Z) : option Z :=
  let s1 := trimStart s in
  let neg := String.prefix "-" s1 in
  let s2 := if String.prefix "-" s1 || String.prefix "+" s1
            then dropS 1 s1 else s1 in
  if negb (radix =? 0) && ((radix <? 2) || (36 <? radix)) then None
  else
    let stripPrefix := (radix =? 0) || (radix =? 16) in
    let hex := stripPrefix && (String.prefix "0x" s2 || String.prefix "0X" s2) in
    let R := if hex then 16 else if radix =? 0 then 10 else radix in
    let s3 := if hex then dropS 2 s2 else s2 in
    let ds := takeWhile (isRadixDigit R) s3 in
    if truthy ds then
      let v := digitsValue R ds 0 in
      Some (if neg then - v else v)
    else None.

(** [String(n)] and template interpolation of a number *)
Definition numToString (n : option Z) : string :=
  match n with
  | Some z => pretty z
  | None => "NaN"
  end.

(** [n || 1] *)
Definition orOne (n : option Z) : Z :=
  match n with
  | Some 0 | None => 1
  | Some z => z
  end.

(** *** Arrays *)

(** [a.slice(0, n)] *)
Definition sliceTo {A} (a : list A) (n : Z) : list A :=
  if n <? 0 then take (length a - Z.to_nat (- n)) a
  else take (Z.to_nat n) a.

(** [a.sort((x, y) => key(y) - key(x))]: a stable sort by descending
    key. *)
Fixpoint insertDesc {A} (key : A → Z) (x : A) (l : list A) : list A :=
  match l with
  | [] => [x]
  | y :: l' => if key x <? key y then y :: insertDesc key x l' else x :: l
  end.

Definition sortDesc {A} (key : A → Z) (l : list A) : list A :=
  foldr (insertDesc key) [] l.

(** *** More string methods *)

(** [s.toLowerCase()] *)
Definition lowerChar (c : ascii) : ascii :=
  let n := nat_of_ascii c in
  if ((65 <=? n) && (n <=? 90))%nat then ascii_of_nat (n + 32) else c.

Definition toLowerCase (s : string) : string := mapChars lowerChar s.

(** [s.replace(/c/g, r)] for a character [c] and a string [r] *)
Fixpoint replaceCharBy (c : ascii) (r : string) (s : string) : string :=
  match s with
  | EmptyString => EmptyString
  | String x t =>
      if Ascii.eqb x c then r +:+ replaceCharBy c r t
      else String x (replaceCharBy c r t)
  end.

(** [s.split(c)] for a one-character separator; [cur] is the piece being
    read. *)
Fixpoint splitCharGo (c : ascii) (s : string) (cur : string) : list string :=
  match s with
  | EmptyString => [cur]
  | String x t =>
      if Ascii.eqb x c then cur :: splitCharGo c t EmptyString
      else splitCharGo c t (cur +:+ String x EmptyString)
  end.

Definition splitChar (c : ascii) (s : string) : list string :=
  splitCharGo c s EmptyString.

(** [s] without its last character when that is [c]. *)
Fixpoint dropLastIf (c : ascii) (s : string) : string :=
  match s with
  | EmptyString => EmptyString
  | String x EmptyString => if Ascii.eqb x c then EmptyString else s
  | String x t => String x (dropLastIf c t)
  end.

(** [s.split(/\r?\n/)]: a line ends at a line feed, and a carriage return
    right before it belongs to the separator. *)
Fixpoint splitLinesGo (s : string) (cur : string) : list string :=
  match s with
  | EmptyString => [cur]
  | String x t =>
      if Ascii.eqb x "010" then dropLastIf "013" cur :: splitLinesGo t EmptyString
      else splitLinesGo t (cur +:+ String x EmptyString)
  end.

Definition splitLines (s : string) : list string := splitLinesGo s EmptyString.

(** [s.replace(/^"|"$/g, '')]: a quote at the start and a quote at the end
    are removed. *)
Definition stripQuotes (s : string) : string :=
  dropLastIf "034" (if String.prefix (String "034" EmptyString) s then dropS 1 s else s).

(** [a.findIndex(f)]: [None] stands for [-1]. *)
Fixpoint findIndexFrom {A} (f : A → bool) (a : list A) (i : nat) : option nat :=
  match a with
  | [] => None
  | x :: a' => if f x then Some i else findIndexFrom f a' (S i)
  end.

Definition findIndex {A} (f : A → bool) (a : list A) : option nat :=
  findIndexFrom f a 0.

(** [/w1|w2|.../i.test(s)] for words in lower case *)
Definition testAnyWord (words : list string) (s : string) : bool :=
  existsb (includes (toLowerCase s)) words.

End JS.

(** ** The master store

    A product object of the [master] object store, as [DB.getAllMaster()]
    returns it: [{ barcode, name, rms }], each property possibly missing. *)
Record product := Product {
  barcode : option string;
  name : option string;
  rms : option string
}.

(** ** [PharmacyMatcher] (src/unnamed/part_000) *)
Module Matcher.
Import JS.

(** The fields of a [PharmacyMatcher] instance. *)
Record matcher := MatcherState {
  products : list product;
  _barcodeMap : gmap string product;
  _ready : bool
}.

(** [constructor()] *)
Definition new : matcher :=
  {| products := []; _barcodeMap := ∅; _ready := false |}.

Inductive error :=
| NotInitialised.   (* Error('PharmacyMatcher not initialised ...') *)

Definition result (A : Type) : Type := error + A.

Definition ret {A} (a : A) : result A := inr a.

Definition bind {A B} (m : result A) (k : A → result B) : result B :=
  match m with
  | inl e => inl e
  | inr a => k a
  end.

Notation "'let*' x := m 'in' k" := (bind m (λ x, k))
  (at level 10, x name, m at level 100, k at level 200).
Notation "'check' m 'in' k" := (bind m (λ _, k))
  (at level 10, m at level 100, k at level 200).

(** [if (p.barcode)] *)
Definition hasBarcode (p : product) : bool := truthy (orEmpty (barcode p)).

(** The body of the loop of [init]. *)
Definition indexProduct (m : gmap string product) (p : product)
    : gmap string product :=
  if hasBarcode p then <[trim (orEmpty (barcode p)) := p]> m else m.

(** [init()].  [db] is the outcome of [await DB.getAllMaster()]: [None]
    when the promise is rejected, in which case the error is caught and
    logged and the instance is left as it was. *)
Definition init (db : option (list product)) (m : matcher) : matcher :=
  match db with
  | Some ps =>
      {| products := ps;
         _barcodeMap := fold_left indexProduct ps ∅;
         _ready := true |}
  | None => m
  end.

Definition _checkReady (m : matcher) : result unit :=
  if _ready m then ret tt else inl NotInitialised.

(** [matchExact(code)]: [None] is [null]. *)
Definition matchExact (m : matcher) (code : string) : result (option product) :=
  check _checkReady m in
  ret (_barcodeMap m !! trim code).

(** The test of the loop of [matchSeries]. *)
Definition seriesHit (query : string) (p : product) : bool :=
  let bc := trim (orEmpty (barcode p)) in
  startsWith bc query || startsWith query bc.

(** The loop of [matchSeries], with its [break]. *)
Fixpoint seriesLoop (query : string) (limit : Z) (ps : list product)
    (results : list product) : list product :=
  match ps with
  | [] => results
  | p :: ps' =>
      if seriesHit query p then
        let results' := results ++ [p] in
        if Z.of_nat (length results') >=? limit then results'
        else seriesLoop query limit ps' results'
      else seriesLoop query limit ps' results
  end.

Definition matchSeries (m : matcher) (code : string) (limit : Z)
    : result (list product) :=
  check _checkReady m in
  let query := trim code in
  ret (seriesLoop query limit (products m) []).

(** [{ ...p, _score: score }] *)
Record scored := Scored { item : product; _score : Z }.

(** The score of one product in [matchByName]; [0] excludes it. *)
Definition nameScore (q : string) (words : list string) (p : product) : Z :=
  let name := toUpperCase (orEmpty (name p)) in
  if String.eqb name q then 3
  else if includes name q then 2
  else if forallb (λ w, includes name w) words then 1
  else 0.

Fixpoint nameLoop (q : string) (words : list string) (ps : list product)
    (results : list scored) : list scored :=
  match ps with
  | [] => results
  | p :: ps' =>
      let score := nameScore q words p in
      nameLoop q words ps'
        (if 0 <? score then results ++ [Scored p score] else results)
  end.

Definition matchByName (m : matcher) (query : string) (limit : Z)
    : result (list scored) :=
  check _checkReady m in
  let q := toUpperCase (trim query) in
  let words := List.filter truthy (splitWs q) in
  let results := nameLoop q words (products m) [] in
  ret (sliceTo (sortDesc _score results) limit).

Inductive matchType :=
| exact_barcode | series_barcode | by_name | no_match.

(** An element of [results]: a product, or a product with its score. *)
Inductive hit :=
| Plain (p : product)
| WithScore (s : scored).

Record smartResult := SmartResult { type : matchType; results : list hit }.

(** [smartMatch(query, limit)].  The two barcode tiers are tried only
    when [isBarcode]; a tier that succeeds returns at once. *)
Definition smartMatch (m : matcher) (query : string) (limit : Z)
    : result smartResult :=
  check _checkReady m in
  let q := trim query in
  let isBarcode := isDigits1 q in
  let byName :=
    let* byName := matchByName m q limit in
    if negb (Nat.eqb (length byName) 0)
    then ret (SmartResult by_name (WithScore <$> byName))
    else ret (SmartResult no_match [])
  in
  if isBarcode then
    let* exact := matchExact m q in
    match exact with
    | Some p => ret (SmartResult exact_barcode [Plain p])
    | None =>
        let* series := matchSeries m q limit in
        if negb (Nat.eqb (length series) 0)
        then ret (SmartResult series_barcode (Plain <$> series))
        else byName
    end
  else byName.

End Matcher.

(** ** The [Date] object

    Time values are milliseconds since the epoch, in UTC; [None] is an
    invalid date.  The local time zone is a fixed offset [tz], in minutes
    east of UTC (daylight saving changes are not modelled). *)
Module JSDate.
Import JS.

Definition msPerDay : Z := 86400000.

Definition isLeap (y : Z) : bool :=
  (y mod 4 =? 0) && (negb (y mod 100 =? 0) || (y mod 400 =? 0)).

(** [DayFromYear(y)]: the day number of the first day of year [y]. *)
Definition dayFromYear (y : Z) : Z :=
  365 * (y - 1970) + (y - 1969) / 4 - (y - 1901) / 100 + (y - 1601) / 400.

(** The number of days of the year before month [mn] (0 is January). *)
Definition daysBeforeMonth (leap : bool) (mn : Z) : Z :=
  let l := if leap then 1 else 0 in
  match mn with
  | 0 => 0 | 1 => 31 | 2 => 59 + l | 3 => 90 + l | 4 => 120 + l
  | 5 => 151 + l | 6 => 181 + l | 7 => 212 + l | 8 => 243 + l
  | 9 => 273 + l | 10 => 304 + l | _ => 334 + l
  end.

(** [MakeDay(year, month, date)]: months outside 0..11 and days outside
    the month carry over. *)
Definition MakeDay (year month date : Z) : Z :=
  let ym := year + month / 12 in
  let mn := month mod 12 in
  dayFromYear ym + daysBeforeMonth (isLeap ym) mn + date - 1.

(** The calendar date (year, month 1..12, day) of a day number. *)
Definition civilFromDays (day : Z) : Z * Z * Z :=
  let z := day + 719468 in
  let era := z / 146097 in
  let doe := z - era * 146097 in
  let yoe := (doe - doe / 1460 + doe / 36524 - doe / 146096) / 365 in
  let doy := doe - (365 * yoe + yoe / 4 - yoe / 100) in
  let mp := (5 * doy + 2) / 153 in
  let d := doy - (153 * mp + 2) / 5 + 1 in
  let m := if mp <? 10 then mp + 3 else mp - 9 in
  let y := yoe + era * 400 in
  (if m <=? 2 then y + 1 else y, m, d).

Definition TimeClip (t : Z) : option Z :=
  if Z.abs t <=? 8640000000000000 then Some t else None.

Definition pad2 (n : Z) : string := padStart (pretty n) 2 "0".
Definition pad3 (n : Z) : string := padStart (pretty n) 3 "0".

(** The year of [toISOString]: four digits, or a sign and six digits
    outside 0..9999. *)
Definition isoYear (y : Z) : string :=
  if (0 <=? y) && (y <=? 9999) then padStart (pretty y) 4 "0"
  else (if y <? 0 then "-" else "+") +:+ padStart (pretty (Z.abs y)) 6 "0".

Section Zone.
Variable tz : Z.

Definition LocalTZA : Z := tz * 60000.

(** [new Date(year, month, date)] *)
Definition newDate (year month date : option Z) : option Z :=
  y ← year; m ← month; d ← date;
  let yr := if (0 <=? y) && (y <=? 99) then 1900 + y else y in
  TimeClip (MakeDay yr m d * msPerDay - LocalTZA).

(** The local calendar date of a time value. *)
Definition localCivil (t : Z) : Z * Z * Z :=
  civilFromDays ((t + LocalTZA) / msPerDay).

(** [d.getDate()] *)
Definition getDate (d : option Z) : option Z :=
  t ← d; Some (localCivil t).2.

(** [d.setHours(0, 0, 0, 0)]: the local midnight of the day of [d]. *)
Definition setHours0 (d : option Z) : option Z :=
  t ← d; TimeClip ((t + LocalTZA) / msPerDay * msPerDay - LocalTZA).

End Zone.

(** [d.toISOString()] of a valid date *)
Definition toISOString (t : Z) : string :=
  let '(y, m, d) := civilFromDays (t / msPerDay) in
  let ms := t mod msPerDay in
  isoYear y +:+ "-" +:+ pad2 m +:+ "-" +:+ pad2 d +:+ "T" +:+
  pad2 (ms / 3600000) +:+ ":" +:+ pad2 (ms / 60000 mod 60) +:+ ":" +:+
  pad2 (ms / 1000 mod 60) +:+ "." +:+ pad3 (ms mod 1000) +:+ "Z".

End JSDate.

(** ** The Backwall Tracker (src/unnamed/part_002) *)
Module Tracker.
Import JS JSDate.

(** *** GS1 parser *)

Record parsed := Parsed {
  raw : string;
  gtin14 : string;
  gtin13 : string;
  expiryISO : string;
  expiryDDMMYY : string;
  expiryDisplay : string;
  batch : string;
  serial : string;
  qty : Z;
  isGS1 : bool
}.

Record expiryParts := ExpiryParts {
  iso : string;
  ddmmyy : string;
  display : string
}.

(** [gtin14.startsWith('0') ? gtin14.slice(1) : gtin14] *)
Definition stripOneZero (gtin14 : string) : string :=
  if startsWith gtin14 "0" then substringFrom gtin14 1 else gtin14.

Section Zone.
Variable tz : Z.

(** [parseExpiryDate(yymmdd)] *)
Definition parseExpiryDate (yymmdd : string) : expiryParts :=
  let yy := parseInt (substring yymmdd 0 2) 0 in
  let mm := parseInt (substring yymmdd 2 4) 0 in
  let dd := parseInt (substring yymmdd 4 6) 0 in
  let year := y ← yy; Some (2000 + y) in
  let dd := match dd with
            | Some 0 => getDate tz (newDate tz year mm (Some 0))
            | _ => dd
            end in
  let p2 n := padStart (numToString n) 2 "0" in
  {| iso := numToString year +:+ "-" +:+ p2 mm +:+ "-" +:+ p2 dd;
     ddmmyy := p2 dd +:+ p2 mm +:+ p2 yy;
     display := p2 dd +:+ "/" +:+ p2 mm +:+ "/" +:+ numToString year |}.

(** The end of the batch field in the raw format: the first of the
    tags 21, 30, 37 found from [batchStart] on, if any. *)
Definition batchEndUpdate (remaining : string) (batchStart : nat)
    (batchEnd : nat) (ai : string) : nat :=
  match indexOf remaining ai batchStart with
  | Some idx => if (idx <? batchEnd)%nat then idx else batchEnd
  | None => batchEnd
  end.

Definition notParen (c : ascii) : bool := negb (Ascii.eqb c "(").

Definition withExpiry (r : parsed) (e : expiryParts) : parsed :=
  {| raw := raw r; gtin14 := gtin14 r; gtin13 := gtin13 r;
     expiryISO := iso e; expiryDDMMYY := ddmmyy e;
     expiryDisplay := display e;
     batch := batch r; serial := serial r; qty := qty r;
     isGS1 := isGS1 r |}.

(** [parseGS1(code)] *)
Definition parseGS1 (code0 : string) : parsed :=
  let result :=
    {| raw := code0; gtin14 := ""; gtin13 := ""; expiryISO := "";
       expiryDDMMYY := ""; expiryDisplay := ""; batch := "";
       serial := ""; qty := 1; isGS1 := false |} in
  if negb (truthy code0) then result
  else
    let code := filterChars
                  (λ c, negb (Ascii.eqb c "013" || Ascii.eqb c "010"))
                  (trim code0) in
    if includes code "(" then
      (* Parentheses format *)
      let g14 := default "" (captureAfter "(01)" isDigit 14 (Some 14%nat) code) in
      let r1 :=
        {| raw := code0; gtin14 := g14;
           gtin13 := match captureAfter "(01)" isDigit 14 (Some 14%nat) code with
                     | Some g => stripOneZero g
                     | None => ""
                     end;
           expiryISO := ""; expiryDDMMYY := ""; expiryDisplay := "";
           batch := match captureAfter "(10)" notParen 1 None code with
                    | Some b => trim b
                    | None => ""
                    end;
           serial := match captureAfter "(21)" notParen 1 None code with
                     | Some b => trim b
                     | None => ""
                     end;
           qty := match captureAfter "(30)" isDigit 1 None code with
                  | Some q => orOne (parseInt q 0)
                  | None => 1
                  end;
           isGS1 := true |} in
      match captureAfter "(17)" isDigit 6 (Some 6%nat) code with
      | Some e => withExpiry r1 (parseExpiryDate e)
      | None => r1
      end
    else if String.prefix "01" code && startsWithDigits 14 (dropS 2 code) then
      (* Raw GS1 format *)
      let g14 := substring code 2 16 in
      let remaining := substringFrom code 16 in
      (* Expiry (17) *)
      let '(expiry, remaining) :=
        match indexOf remaining "17" 0 with
        | Some exp17Idx =>
            if (exp17Idx + 8 <=? String.length remaining)%nat then
              let yymmdd := substring remaining (exp17Idx + 2) (exp17Idx + 8) in
              if isDigitsBetween 6 6 yymmdd then
                (Some (parseExpiryDate yymmdd),
                 substring remaining 0 exp17Idx +:+
                 substringFrom remaining (exp17Idx + 8))
              else (None, remaining)
            else (None, remaining)
        | None => (None, remaining)
        end in
      (* Batch (10) *)
      let batch :=
        match indexOf remaining "10" 0 with
        | Some batch10Idx =>
            let batchStart := (batch10Idx + 2)%nat in
            let batchEnd :=
              fold_left (batchEndUpdate remaining batchStart)
                ["21"; "30"; "37"] (String.length remaining) in
            trim (substring remaining batchStart batchEnd)
        | None => ""
        end in
      let r1 :=
        {| raw := code0; gtin14 := g14; gtin13 := stripOneZero g14;
           expiryISO := ""; expiryDDMMYY := ""; expiryDisplay := "";
           batch := batch; serial := ""; qty := 1; isGS1 := true |} in
      match expiry with
      | Some e => withExpiry r1 e
      | None => r1
      end
    else
      (* Plain barcode *)
      let digits := stripNonDigits code in
      let n := String.length digits in
      if ((8 <=? n) && (n <=? 14))%nat then
        let g14 := padStart digits 14 "0" in
        {| raw := code0; gtin14 := g14; gtin13 := stripOneZero g14;
           expiryISO := ""; expiryDDMMYY := ""; expiryDisplay := "";
           batch := ""; serial := ""; qty := 1; isGS1 := false |}
      else if (5 <=? n)%nat then
        {| raw := code0; gtin14 := padStart digits 14 "0"; gtin13 := digits;
           expiryISO := ""; expiryDDMMYY := ""; expiryDisplay := "";
           batch := ""; serial := ""; qty := 1; isGS1 := false |}
      else result.

End Zone.

(** *** Product matching *)

(** [{ barcode, name }], an element of a [last8] bucket *)
Record candidate := Candidate { c_barcode : string; c_name : string }.

(** [{ barcode, name, rms }], an element of [idx.all] *)
Record entry := Entry { e_barcode : string; e_name : string; e_rms : string }.

(** [{ exact, last8, rms, all }] *)
Record index := Index {
  exact : gmap string string;
  last8 : gmap string (list candidate);
  rmsMap : gmap string string;
  all : list entry
}.

Definition emptyIndex : index :=
  {| exact := ∅; last8 := ∅; rmsMap := ∅; all := [] |}.

(** The normalised fields of a master item. *)
Definition itemBarcode (item : product) : string :=
  trim (stripNonDigits (orEmpty (barcode item))).
Definition itemName (item : product) : string := orEmpty (name item).
Definition itemRms (item : product) : string := trim (orEmpty (rms item)).

(** [if (c) m.set(k, v)] *)
Definition setIf {V} (c : bool) (k : string) (v : V) (m : gmap string V)
    : gmap string V :=
  if c then <[k := v]> m else m.

(** The keys of [idx.exact] are written in the order of the source. *)
Definition storeBarcode (barcode name : string) (idx : index) : index :=
  let gtin14 := padStart barcode 14 "0" in
  let noZeros := stripLeadingZeros barcode in
  let last8k := sliceLast barcode 8 in
  {| exact :=
       setIf (5 <=? String.length noZeros)%nat noZeros name
         (setIf (startsWith gtin14 "0") (substringFrom gtin14 1) name
            (<[gtin14 := name]> (<[barcode := name]> (exact idx))));
     last8 :=
       if (8 <=? String.length barcode)%nat then
         <[last8k := default [] (last8 idx !! last8k) ++ [Candidate barcode name]]>
           (last8 idx)
       else last8 idx;
     rmsMap := rmsMap idx;
     all := all idx |}.

Definition storeRms (rms name : string) (idx : index) : index :=
  {| exact := <[rms := name]> (exact idx);
     last8 := last8 idx;
     rmsMap := <[rms := name]> (rmsMap idx);
     all := all idx |}.

Definition pushAll (e : entry) (idx : index) : index :=
  {| exact := exact idx; last8 := last8 idx; rmsMap := rmsMap idx;
     all := all idx ++ [e] |}.

(** The body of the loop of [buildMasterIndex]. *)
Definition indexItem (idx : index) (item : product) : index :=
  let barcode := itemBarcode item in
  let name := itemName item in
  let rms := itemRms item in
  if negb (truthy barcode) && negb (truthy rms) then idx
  else if negb (truthy name) then idx
  else
    let idx1 := if truthy barcode then storeBarcode barcode name idx else idx in
    let idx2 := if truthy rms then storeRms rms name idx1 else idx1 in
    pushAll (Entry barcode name rms) idx2.

(** [buildMasterIndex(masterData)] *)
Definition buildMasterIndex (masterData : list product) : index :=
  fold_left indexItem masterData emptyIndex.

(** [State]: of its fields only [masterIndex] takes part in matching. *)
Record state := State { masterIndex : index }.

(** [refreshMasterStats()], [master] being the content of the store. *)
Definition refreshMasterStats (master : list product) (st : state) : state :=
  {| masterIndex := buildMasterIndex master |}.

Inductive matchKind := EXACT | RMS | LAST8 | NONE.

Record matched := Matched { m_name : string; m_type : matchKind }.

(** The loop over [tryExact]: the first code that hits [idx.exact], as it
    is or without its leading zeros (when five digits or more remain). *)
Fixpoint tryExactLoop (idx : index) (codes : list string) : option matched :=
  match codes with
  | [] => None
  | code :: rest =>
      match exact idx !! code with
      | Some n => Some (Matched n EXACT)
      | None =>
          let noZeros := stripLeadingZeros code in
          match (if (5 <=? String.length noZeros)%nat
                 then exact idx !! noZeros else None) with
          | Some n => Some (Matched n EXACT)
          | None => tryExactLoop idx rest
          end
      end
  end.

(** [[gtin14, gtin13, rawCode, rawCode?.replace(/\D/g, '')].filter(Boolean)] *)
Definition tryExact (gtin14 gtin13 : string) (rawCode : option string)
    : list string :=
  List.filter truthy
    [gtin14; gtin13; orEmpty rawCode; orEmpty (stripNonDigits <$> rawCode)].

(** The [last8] tier. *)
Definition tryLast8 (idx : index) (gtin14 : string) : option matched :=
  if truthy gtin14 then
    match last8 idx !! sliceLast gtin14 8 with
    | Some matches =>
        match matches with
        | [c] => Some (Matched (c_name c) LAST8)
        | _ => None
        end
    | None => None
    end
  else None.

(** The [rms] tier. *)
Definition tryRms (idx : index) (rawCode : option string) : option matched :=
  match rawCode with
  | Some r => if truthy r then (λ n, Matched n RMS) <$> rmsMap idx !! r else None
  | None => None
  end.

(** [matchProduct(gtin14, gtin13, rawCode)] on [State.masterIndex] *)
Definition matchProduct (st : state) (gtin14 gtin13 : string)
    (rawCode : option string) : matched :=
  let idx := masterIndex st in
  match tryExactLoop idx (tryExact gtin14 gtin13 rawCode) with
  | Some r => r
  | None =>
      match tryRms idx rawCode with
      | Some r => r
      | None =>
          match tryLast8 idx gtin14 with
          | Some r => r
          | None => Matched "" NONE
          end
      end
  end.

(** *** Rendering *)

(** [escapeHtml(s)]: the quotes are left as they are. *)
Definition escapeHtml (s : string) : string :=
  replaceCharBy ">" "&gt;" (replaceCharBy "<" "&lt;" (replaceCharBy "&" "&amp;" s)).

End Tracker.

(** ** The Oasis Pharmacy tracker (src/app.js) *)
Module Oasis.
Import JS JSDate.

Inductive error :=
| RangeError.   (* [toISOString] of an invalid date *)

Definition result (A : Type) : Type := error + A.

(** ['missing'], ['expired'], ['expiring'], ['ok'] *)
Inductive expiryState := missing | expired | expiring | ok.

Record parsed := Parsed {
  valid : bool;
  raw : string;
  gtin14 : string;
  gtin13 : string;
  expiry : option string;
  expiryFormatted : string;
  expiryStatus : expiryState;
  batch : string;
  serial : string;
  qty : Z
}.

(** [{ date, iso, formatted }]; [date] is the time value of the [Date]. *)
Record expiryParts := ExpiryParts {
  date : Z;
  iso : string;
  formatted : string
}.

(** [CONFIG.EXPIRY_SOON_DAYS] *)
Definition EXPIRY_SOON_DAYS : Z := 90.

(** [aiLengths], in the order [Object.entries] lists its keys (the
    integer-like keys in ascending order, then the others); [None] is
    the variable length ['v']. *)
Definition aiLengths : list (string * option nat) :=
  [("10", None); ("11", Some 6%nat); ("13", Some 6%nat); ("15", Some 6%nat);
   ("17", Some 6%nat); ("20", Some 2%nat); ("21", None); ("30", None);
   ("37", None); ("01", Some 14%nat); ("02", Some 14%nat)].

Definition tagged (result ai value : string) : string :=
  result +:+ "(" +:+ ai +:+ ")" +:+ value.

(** The [while] loop of [convertToParenthesized]; every iteration
    advances [pos], so [fuel] bounds the iterations that remain. *)
Fixpoint convertLoop (code : string) (fuel : nat) (pos : nat)
    (result : string) : string :=
  match fuel with
  | O => result
  | S fuel' =>
      if (pos <? String.length code)%nat then
        match List.find (λ e, startsWith (substringFrom code pos) (fst e))
                aiLengths with
        | Some (ai, len) =>
            let pos := (pos + String.length ai)%nat in
            match len with
            | None =>
                match indexOf code "|" pos with
                | Some sep =>
                    convertLoop code fuel' (sep + 1)
                      (tagged result ai (substring code pos sep))
                | None =>
                    convertLoop code fuel' (String.length code)
                      (tagged result ai (substringFrom code pos))
                end
            | Some n =>
                convertLoop code fuel' (pos + n)
                  (tagged result ai (substring code pos (pos + n)))
            end
        | None => convertLoop code fuel' (pos + 1) result
        end
      else result
  end.

(** [convertToParenthesized(code)] *)
Definition convertToParenthesized (code : string) : string :=
  let result := convertLoop code (String.length code) 0 "" in
  if truthy result then result else code.

(** [Math.ceil(a / b)] for a positive [b] *)
Definition ceilDiv (a b : Z) : Z := - ((- a) / b).

Section Env.
(** The zone offset and the current time, [new Date()]. *)
Variable tz : Z.
Variable now : Z.

(** [parseExpiryDate(yymmdd)] *)
Definition parseExpiryDate (yymmdd : string) : result expiryParts :=
  let yy := parseInt (substring yymmdd 0 2) 10 in
  let mm := parseInt (substring yymmdd 2 4) 10 in
  let dd := parseInt (substring yymmdd 4 6) 10 in
  let year := y ← yy; Some (if 50 <=? y then 1900 + y else 2000 + y) in
  let dd := match dd with
            | Some 0 => getDate tz (newDate tz year mm (Some 0))
            | _ => dd
            end in
  let date := newDate tz year (m ← mm; Some (m - 1)) dd in
  match date with
  | Some t =>
      inr {| date := t;
             iso := takeWhile (λ c, negb (Ascii.eqb c "T")) (toISOString t);
             formatted := padStart (numToString dd) 2 "0" +:+ "/" +:+
                          padStart (numToString mm) 2 "0" +:+ "/" +:+
                          numToString year |}
  | None => inl RangeError
  end.

(** [getExpiryStatus(date)] for a [Date] object *)
Definition getExpiryStatus (date : Z) : expiryState :=
  let now := setHours0 tz (Some now) in
  let exp := setHours0 tz (Some date) in
  match (e ← exp; n ← now; Some (ceilDiv (e - n) 86400000)) with
  | Some diff =>
      if diff <? 0 then expired
      else if diff <=? EXPIRY_SOON_DAYS then expiring
      else ok
  | None => ok
  end.

(** [[^\(|\x1d]] *)
Definition fieldChar (c : ascii) : bool :=
  negb (Ascii.eqb c "(" || Ascii.eqb c "|" || Ascii.eqb c "029").

(** [m[1].replace(/\|/g, '').trim()] *)
Definition cleanField (s : string) : string := trim (removeChar "|" s).

Definition stripOneZero (gtin14 : string) : string :=
  if startsWith gtin14 "0" then substringFrom gtin14 1 else gtin14.

(** [parseGS1(raw)] *)
Definition parseGS1 (raw0 : string) : result parsed :=
  let result :=
    {| valid := false; raw := raw0; gtin14 := ""; gtin13 := "";
       expiry := None; expiryFormatted := ""; expiryStatus := missing;
       batch := ""; serial := ""; qty := 1 |} in
  if negb (truthy raw0) then inr result
  else
    let code := replaceChar "029" "|" (trim raw0) in
    if isDigitsBetween 8 14 code && negb (includes code "(") then
      let g14 := padStart code 14 "0" in
      inr {| valid := true; raw := raw0; gtin14 := g14;
             gtin13 := stripOneZero g14;
             expiry := None; expiryFormatted := "";
             expiryStatus := missing;
             batch := ""; serial := ""; qty := 1 |}
    else
      let code := if negb (includes code "(") && startsWithDigits 2 code
                  then convertToParenthesized code else code in
      let gtinMatch := captureAfter "(01)" isDigit 12 (Some 14%nat) code in
      let g14 := match gtinMatch with
                 | Some g => padStart g 14 "0"
                 | None => ""
                 end in
      let finish (e : option expiryParts) : parsed :=
        {| valid := bool_decide (is_Some gtinMatch);
           raw := raw0; gtin14 := g14;
           gtin13 := match gtinMatch with
                     | Some _ => stripOneZero g14
                     | None => ""
                     end;
           expiry := iso <$> e;
           expiryFormatted := default "" (formatted <$> e);
           expiryStatus := default missing (getExpiryStatus <$> (date <$> e));
           batch := default "" (cleanField <$> captureAfter "(10)" fieldChar 1 None code);
           serial := default "" (cleanField <$> captureAfter "(21)" fieldChar 1 None code);
           qty := match captureAfter "(30)" isDigit 1 None code with
                  | Some q => orOne (parseInt q 10)
                  | None => 1
                  end |} in
      match captureAfter "(17)" isDigit 6 (Some 6%nat) code with
      | Some e =>
          match parseExpiryDate e with
          | inr p => inr (finish (Some p))
          | inl err => inl err
          end
      | None => inr (finish None)
      end.

End Env.

(** *** Master data *)

(** A record of the [master] store: [{ gtin, name }]. *)
Record item := Item { gtin : string; name : string }.

(** [State.masterIndex]: [{ exact, last8 }] *)
Record index := Index {
  exact : gmap string item;
  last8 : gmap string (list item)
}.

(** [State]: the fields that take part in matching. *)
Record state := State {
  masterData : gmap string item;
  masterIndex : index
}.

(** [m.clear()] *)
Definition clear {V} (m : gmap string V) : gmap string V := ∅.

(** The callback of [data.forEach] in [loadMasterData]. *)
Definition addItem (st : state) (it : item) : state :=
  let g14 := padStart (gtin it) 14 "0" in
  let l8 := sliceLast g14 8 in
  {| masterData := <[gtin it := it]> (masterData st);
     masterIndex :=
       {| exact := <[g14 := it]> (exact (masterIndex st));
          last8 := <[l8 := default [] (last8 (masterIndex st) !! l8) ++ [it]]>
                     (last8 (masterIndex st)) |} |}.

(** [loadMasterData()].  [db] is the outcome of [await DB.getAll('master')]:
    [None] when it is rejected, which is caught before anything is
    cleared. *)
Definition loadMasterData (db : option (list item)) (st : state) : state :=
  match db with
  | Some data =>
      fold_left addItem data
        {| masterData := clear (masterData st);
           masterIndex := {| exact := clear (exact (masterIndex st));
                             last8 := clear (last8 (masterIndex st)) |} |}
  | None => st
  end.

Inductive matchKind := Exact | Last8 | NoMatch.   (* 'exact', 'last8', 'none' *)

Record matched := Matched { product : option item; matchType : matchKind }.

(** [matchProduct(gtin14)] *)
Definition matchProduct (st : state) (gtin14 : string) : matched :=
  match exact (masterIndex st) !! gtin14 with
  | Some it => Matched (Some it) Exact
  | None =>
      match last8 (masterIndex st) !! sliceLast gtin14 8 with
      | Some [it] => Matched (Some it) Last8
      | _ => Matched None NoMatch
      end
  end.

(** *** Import of master data *)

(** [parseMasterCSV(text)]: the records, and the message of the toast it
    shows, if any. *)
Definition parseMasterRow (delim : ascii) (gtinCol nameCol : nat)
    (line : string) : option item :=
  let vals := map (λ v, stripQuotes (trim v)) (splitChar delim line) in
  let g := default "" (vals !! gtinCol) in
  let n := default "" (vals !! nameCol) in
  if truthy g && truthy n
  then Some {| gtin := padStart (stripNonDigits g) 14 "0"; name := n |}
  else None.

Definition parseMasterCSV (text : string) : list item * option string :=
  let lines := List.filter (λ l, truthy (trim l)) (splitLines text) in
  if (length lines <? 2)%nat then ([], None)
  else
    let delim := if includes text (String "009" EmptyString)
                 then "009"%char else ","%char in
    let headers :=
      map (λ h, removeChar "034" (trim h))
        (splitChar delim (toLowerCase (hd EmptyString lines))) in
    match findIndex (testAnyWord ["gtin"; "ean"; "barcode"; "code"; "upc"]) headers,
          findIndex (testAnyWord ["name"; "product"; "description"; "item"]) headers with
    | Some gtinCol, Some nameCol =>
        (omap (parseMasterRow delim gtinCol nameCol) (tl lines), None)
    | _, _ => ([], Some "Need GTIN and Name columns")
    end.

(** *** Rendering *)

(** [escapeHtml(str)] *)
Definition escapeHtml (str : string) : string :=
  if negb (truthy str) then EmptyString
  else replaceCharBy "034" "&quot;"
         (replaceCharBy ">" "&gt;"
            (replaceCharBy "<" "&lt;" (replaceCharBy "&" "&amp;" str))).

End Oasis.

(** ** Auxiliary definitions used in the statements *)
Module Aux.
Import JS JSDate Matcher.

(** What [smartMatch] returns from the outcomes of the three searches. *)
Definition dispatch (isBarcode : bool) (exact : option product)
    (series : list product) (byName : list scored) : smartResult :=
  let nameTier :=
    match byName with
    | [] => SmartResult no_match []
    | _ => SmartResult by_name (WithScore <$> byName)
    end in
  if isBarcode then
    match exact, series with
    | Some p, _ => SmartResult exact_barcode [Plain p]
    | None, [] => nameTier
    | None, _ => SmartResult series_barcode (Plain <$> series)
    end
  else nameTier.

(** The loop of [matchByName] keeps, in catalog order, the products with
    a positive score. *)
Definition scoreOf (q : string) (words : list string) (p : product)
    : option scored :=
  let s := nameScore q words p in
  if 0 <? s then Some (Scored p s) else None.

(** The number of products [matchSeries] returns at most: the loop stops
    after a push that reaches [limit], so one product is pushed even when
    [limit] is below one. *)
Definition seriesCap (limit : Z) : nat := Z.to_nat (Z.max 1 limit).

(** The catalog of the name search example. *)
Definition panadolBaby (b r : option string) : product :=
  Product b (Some "PANADOL BABY") r.
Definition panadolExtra (b r : option string) : product :=
  Product b (Some "PANADOL EXTRA") r.

(** The length of a month of the Gregorian calendar ([month] is 1..12). *)
Definition daysInMonth (year month : Z) : Z :=
  match month with
  | 2 => if isLeap year then 29 else 28
  | 4 | 6 | 9 | 11 => 30
  | _ => 31
  end.

(** The six digits [yymmdd] of an expiry field. *)
Definition expiryField (yy mm dd : Z) : string :=
  pad2 yy +:+ pad2 mm +:+ pad2 dd.

(** The year the Oasis tracker gives to [yy]. *)
Definition oasisYear (yy : Z) : Z := if 50 <=? yy then 1900 + yy else 2000 + yy.

(** The year the Backwall Tracker gives to [yy]. *)
Definition trackerYear (yy : Z) : Z := 2000 + yy.

(** What the proofs about a field with day [00] need of its numbers, as
    a test that can be run on every year and month. *)
Definition dayZeroChecks (radix : Z) (yearOf : Z → Z) (yy mm : Z) : bool :=
  let s := expiryField yy mm 0 in
  let year := yearOf yy in
  let dim := daysInMonth year mm in
  bool_decide (parseInt (substring s 0 2) radix = Some yy) &&
  bool_decide (parseInt (substring s 2 4) radix = Some mm) &&
  bool_decide (parseInt (substring s 4 6) radix = Some 0) &&
  (100 <=? year) &&
  (Z.abs (MakeDay year mm 0) <=? 100000) &&
  (Z.abs (MakeDay year (mm - 1) dim) <=? 100000) &&
  bool_decide ((civilFromDays (MakeDay year mm 0)).2 = dim) &&
  bool_decide (civilFromDays (MakeDay year (mm - 1) dim) = (year, mm, dim)).

Definition allDayZeroChecks (radix : Z) (yearOf : Z → Z) : bool :=
  forallb (λ yy, forallb (dayZeroChecks radix yearOf yy) (seqZ 1 12))
    (seqZ 0 100).

(** [c !== 'T'] *)
Definition notT (c : ascii) : bool := negb (Ascii.eqb c "T").

(** The catalog of the usage examples of the matcher. *)
Definition panadol : product :=
  Product (Some "06291109120100") (Some "Panadol Baby & Infant 100ml")
    (Some "220219715").
Definition telfast : product :=
  Product (Some "6291100080045") (Some "Telfast 120mg") None.
Definition exampleMatcher : matcher := init (Some [panadol; telfast]) new.

(** The date [c] is the one that [MakeDay] maps to the day number [day],
    as a test. *)
Definition dateOfDay (day : Z) (c : Z * Z * Z) : bool :=
  let '(y, m, d) := c in
  (MakeDay y (m - 1) d =? day) && (1 <=? m) && (m <=? 12) &&
  (1 <=? d) && (d <=? daysInMonth y m).

(** [f] holds of the [n] integers from [start] on. *)
Fixpoint forallFrom (f : Z → bool) (start : Z) (n : nat) : bool :=
  match n with
  | O => true
  | S n' => f start && forallFrom f (start + 1) n'
  end.

(** The number of days from 1 January 1950 (day -7305) to 31 December
    2059. *)
Definition civilRange : nat := Z.to_nat 40177.

(** The product has the barcode [k], once trimmed. *)
Definition hasCode (k : string) (p : product) : bool :=
  hasBarcode p && String.eqb (trim (orEmpty (barcode p))) k.

(** The descending order of the scores. *)
Definition byScore (a b : scored) : Prop := _score b ≤ _score a.

(** The test of a score, for the stability of the sort. *)
Definition scoreIs (k : Z) (s : scored) : bool := _score s =? k.

Definition isPlain (h : hit) : bool :=
  match h with Plain _ => true | WithScore _ => false end.

(** [buildMasterIndex] takes the record into the index: it has a barcode
    or an rms code, and a name. *)
Definition indexed (item : product) : bool :=
  (truthy (Tracker.itemBarcode item) || truthy (Tracker.itemRms item)) &&
  truthy (Tracker.itemName item).

(** [k] is one of the keys under which [buildMasterIndex] writes the
    record into [exact]: its barcode, the barcode padded to 14 digits, that
    form without its leading zero, the barcode without its leading zeros
    (when five digits or more remain), and its rms code. *)
Definition isAlias (k : string) (item : product) : bool :=
  let b := Tracker.itemBarcode item in
  let g14 := padStart b 14 "0" in
  let nz := stripLeadingZeros b in
  indexed item &&
  ((truthy b &&
    (String.eqb b k || String.eqb g14 k ||
     (startsWith g14 "0" && String.eqb (substringFrom g14 1) k) ||
     ((5 <=? String.length nz)%nat && String.eqb nz k))) ||
   (truthy (Tracker.itemRms item) && String.eqb (Tracker.itemRms item) k)).

(** The candidate the record adds to the bucket [s] of [last8], if any. *)
Definition last8Candidate (s : string) (item : product)
    : option Tracker.candidate :=
  let b := Tracker.itemBarcode item in
  if indexed item && (8 <=? String.length b)%nat && String.eqb (sliceLast b 8) s
  then Some (Tracker.Candidate b (Tracker.itemName item)) else None.

(** The key of a record of the Oasis store in [exact] is [k]. *)
Definition hasPadded (k : string) (it : Oasis.item) : bool :=
  String.eqb (padStart (Oasis.gtin it) 14 "0") k.

(** The padded code of a record of the Oasis store ends in [s]. *)
Definition endsIn (s : string) (it : Oasis.item) : bool :=
  String.eqb (sliceLast (padStart (Oasis.gtin it) 14 "0") 8) s.

Definition hasGtin (g : string) (it : Oasis.item) : bool :=
  String.eqb (Oasis.gtin it) g.

(** The bounds that let [parseExpiryDate] of the Oasis tracker build its
    dates: on the year, on the day numbers [d0] and [d1] of the days before
    the months [mm + 1] and [mm], and on the length [dim] of the month. *)
Definition expiryBounds (year d0 d1 dim : Z) : bool :=
  (100 <=? year) && (Z.abs d0 <=? 90000) && (Z.abs d1 <=? 90000) &&
  (1 <=? dim) && (dim <=? 31).

(** The bounds at the year [yy] and the month [mm] of two digits. *)
Definition expiryBoundsAt (yy mm : Z) : bool :=
  expiryBounds (oasisYear yy) (MakeDay (oasisYear yy) mm 0)
    (MakeDay (oasisYear yy) (mm - 1) 0)
    (civilFromDays (MakeDay (oasisYear yy) mm 0)).2.

(** The ten digits. *)
Definition digitChars : list ascii :=
  ["0"; "1"; "2"; "3"; "4"; "5"; "6"; "7"; "8"; "9"]%char.

(** Two digits parse to a number below 100 that prints back to them. *)
Definition twoDigitsCheck (radix : Z) (c1 c2 : ascii) : bool :=
  let s := String c1 (String c2 EmptyString) in
  match parseInt s radix with
  | Some v => (0 <=? v) && (v <=? 99) && String.eqb (pad2 v) s
  | None => false
  end.

Definition allTwoDigits (radix : Z) : bool :=
  forallb (λ c1, forallb (twoDigitsCheck radix c1) digitChars) digitChars.


(** The text that stands for one character after escaping: the entity of
    an ampersand or an angle bracket, and of a double quote when [quot] is
    set; any other character itself. *)
Definition entity (quot : bool) (c : ascii) : string :=
  if Ascii.eqb c "&" then "&amp;"
  else if Ascii.eqb c "<" then "&lt;"
  else if Ascii.eqb c ">" then "&gt;"
  else if quot && Ascii.eqb c "034" then "&quot;"
  else String c EmptyString.

(** Every character replaced by its [entity], in one pass. *)
Fixpoint escapeEach (quot : bool) (s : string) : string :=
  match s with
  | EmptyString => EmptyString
  | String c t => entity quot c +:+ escapeEach quot t
  end.

(** A character that has to be escaped. *)
Definition isMarkup (quot : bool) (c : ascii) : bool :=
  Ascii.eqb c "<" || Ascii.eqb c ">" || (quot && Ascii.eqb c "034").


(** A day number that stays before 1 January 2008 when 99 days are added. *)
Definition pivotBound (d1 : Z) : bool := d1 + 99 <? 13879.

(** The bound at the year [yy] of the last century and the month [mm]. *)
Definition pivotBoundAt (yy mm : Z) : bool :=
  pivotBound (MakeDay (1900 + yy) (mm - 1) 0).


(** What the proofs about the [iso] string of a field with day [00] need
    of the numbers of the Oasis tracker, as a test that can be run on every
    year and month: the day before the last day of the month, the year as
    [toISOString] prints it, and the two date strings. *)
Definition isoChecks (yy mm : Z) : bool :=
  let year := oasisYear yy in
  let dim := daysInMonth year mm in
  bool_decide (civilFromDays (MakeDay year (mm - 1) dim - 1) = (year, mm, dim - 1)) &&
  String.eqb (isoYear year) (pretty year) &&
  allChars notT (pretty year +:+ "-" +:+ pad2 mm +:+ "-" +:+ pad2 dim) &&
  allChars notT (pretty year +:+ "-" +:+ pad2 mm +:+ "-" +:+ pad2 (dim - 1)).

End Aux.

(** * Properties *)

(** ** The usage examples of the sources *)
Section Examples.
Import JS Matcher Aux.

Example smartMatch_exact :
  smartMatch exampleMatcher "06291109120100" 10 =
    inr (SmartResult exact_barcode [Plain panadol]).
Proof. reflexivity. Qed.

Example smartMatch_series :
  smartMatch exampleMatcher "062911091201" 10 =
    inr (SmartResult series_barcode [Plain panadol]).
Proof. reflexivity. Qed.

Example smartMatch_name :
  smartMatch exampleMatcher "panadol" 10 =
    inr (SmartResult by_name [WithScore (Scored panadol 2)]).
Proof. reflexivity. Qed.

Example smartMatch_no_match :
  smartMatch exampleMatcher "xyz999" 10 = inr (SmartResult no_match []).
Proof. reflexivity. Qed.

Example smartMatch_before_init :
  smartMatch new "06291109120100" 10 = inl NotInitialised.
Proof. reflexivity. Qed.

(** A limit below one still lets the first hit through. *)
Example matchSeries_limit_zero :
  matchSeries exampleMatcher "0" 0 = inr [panadol].
Proof. reflexivity. Qed.

Example matchByName_words :
  matchByName exampleMatcher "  infant PANADOL " 10 = inr [Scored panadol 1].
Proof. reflexivity. Qed.

Example parseGS1_parenthesized :
  Tracker.parseGS1 0 "(01)06291109120100(17)250200(10)AB12(21)XYZ(30)5" =
    {| Tracker.raw := "(01)06291109120100(17)250200(10)AB12(21)XYZ(30)5";
       Tracker.gtin14 := "06291109120100"; Tracker.gtin13 := "6291109120100";
       Tracker.expiryISO := "2025-02-28"; Tracker.expiryDDMMYY := "280225";
       Tracker.expiryDisplay := "28/02/2025"; Tracker.batch := "AB12";
       Tracker.serial := "XYZ"; Tracker.qty := 5; Tracker.isGS1 := true |}.
Proof. reflexivity. Qed.

Example parseGS1_raw :
  Tracker.parseGS1 0 "01062911091201001725013110AB1221XYZ" =
    {| Tracker.raw := "01062911091201001725013110AB1221XYZ";
       Tracker.gtin14 := "06291109120100"; Tracker.gtin13 := "6291109120100";
       Tracker.expiryISO := "2025-01-31"; Tracker.expiryDDMMYY := "310125";
       Tracker.expiryDisplay := "31/01/2025"; Tracker.batch := "AB12";
       Tracker.serial := ""; Tracker.qty := 1; Tracker.isGS1 := true |}.
Proof. reflexivity. Qed.

Example convertToParenthesized_example :
  Oasis.convertToParenthesized "01062911091201001725020010AB12|21XYZ" =
    "(01)06291109120100(17)250200(10)AB12(21)XYZ".
Proof. reflexivity. Qed.

Example sortDesc_example :
  sortDesc fst [(1, "a"); (3, "b"); (1, "c"); (2, "d"); (3, "e")] =
    [(3, "b"); (3, "e"); (2, "d"); (1, "a"); (1, "c")].
Proof. reflexivity. Qed.

Example split_example : splitWs " a  b " = [""; "a"; "b"; ""].
Proof. reflexivity. Qed.

Example parseInt_examples :
  parseInt " -12px" 0 = Some (-12) ∧ parseInt "0x1f" 0 = Some 31 ∧
  parseInt "0x1f" 10 = Some 0 ∧ parseInt "ab" 10 = None.
Proof. repeat split. Qed.

Example date_examples :
  JSDate.MakeDay 1970 0 1 = 0 ∧ JSDate.MakeDay 2025 0 31 = 20119 ∧
  JSDate.civilFromDays 20119 = (2025, 1, 31) ∧
  JSDate.toISOString 1762153200123 = "2025-11-03T07:00:00.123Z".
Proof. repeat split. Qed.

End Examples.

(** ** Facts about the string primitives *)
Section StringFacts.
Import JS.

Lemma digit_not_space c : isDigit c = true → isSpace c = false.
Proof.
  unfold isDigit, isSpace. intros H.
  apply andb_true_iff in H as [H1 H2].
  apply Nat.leb_le in H1. apply Nat.leb_le in H2.
  apply orb_false_iff. split.
  - apply andb_false_iff. right. apply Nat.leb_gt. lia.
  - apply Nat.eqb_neq. lia.
Qed.

Lemma digit_code c : isDigit c = true → (48 ≤ nat_of_ascii c ≤ 57)%nat.
Proof.
  unfold isDigit. intros H. apply andb_true_iff in H as [H1 H2].
  apply Nat.leb_le in H1. apply Nat.leb_le in H2. lia.
Qed.

Lemma digit_neq c (d : ascii) :
  isDigit c = true → isDigit d = false → Ascii.eqb c d = false.
Proof.
  intros Hc Hd. apply Ascii.eqb_neq. intros ->. congruence.
Qed.

Lemma length_append (s t : string) :
  String.length (s +:+ t) = (String.length s + String.length t)%nat.
Proof. induction s as [|c s IH]; simpl; [done | by rewrite IH]. Qed.

Lemma length_repeatChar c n : String.length (repeatChar c n) = n.
Proof. induction n as [|n IH]; simpl; [done | by rewrite IH]. Qed.

Lemma length_padStart s n c :
  (String.length s ≤ n)%nat → String.length (padStart s n c) = n.
Proof.
  intros H. unfold padStart. rewrite length_append, length_repeatChar. lia.
Qed.

Lemma padStart_long s n c :
  (n ≤ String.length s)%nat → padStart s n c = s.
Proof.
  intros H. unfold padStart.
  replace (n - String.length s)%nat with 0%nat by lia. done.
Qed.

Lemma length_takeWhile f s :
  (String.length (takeWhile f s) ≤ String.length s)%nat.
Proof.
  induction s as [|c s IH]; simpl; [done |].
  destruct (f c); simpl; lia.
Qed.

Lemma length_dropS n s :
  String.length (dropS n s) = (String.length s - n)%nat.
Proof.
  revert s. induction n as [|n IH]; intros [|c s]; simpl; auto with lia.
Qed.

Lemma length_takeS n s :
  String.length (takeS n s) = Nat.min n (String.length s).
Proof.
  revert s. induction n as [|n IH]; intros [|c s]; simpl; auto with lia.
Qed.

Lemma takeWhile_all f s : allChars f s = true → takeWhile f s = s.
Proof.
  induction s as [|c s IH]; simpl; [done |].
  intros H. apply andb_true_iff in H as [-> H]. by rewrite IH.
Qed.

Lemma filterChars_all f s : allChars f s = true → filterChars f s = s.
Proof.
  induction s as [|c s IH]; simpl; [done |].
  intros H. apply andb_true_iff in H as [-> H]. by rewrite IH.
Qed.

Lemma allChars_impl (f g : ascii → bool) s :
  (∀ c, f c = true → g c = true) →
  allChars f s = true → allChars g s = true.
Proof.
  intros Hfg. induction s as [|c s IH]; simpl; [done |].
  intros H. apply andb_true_iff in H as [Hc H].
  by rewrite (Hfg _ Hc), IH.
Qed.

Lemma mapChars_id (f : ascii → ascii) (p : ascii → bool) s :
  (∀ c, p c = true → f c = c) →
  allChars p s = true → mapChars f s = s.
Proof.
  intros Hf. induction s as [|c s IH]; simpl; [done |].
  intros H. apply andb_true_iff in H as [Hc H].
  by rewrite (Hf _ Hc), IH.
Qed.

Lemma trimStart_digits s : allChars isDigit s = true → trimStart s = s.
Proof.
  destruct s as [|c s]; simpl; [done |].
  intros H. apply andb_true_iff in H as [Hc _].
  unfold trimStart. simpl. by rewrite (digit_not_space _ Hc).
Qed.

Lemma trimEnd_digits s : allChars isDigit s = true → trimEnd s = s.
Proof.
  induction s as [|c s IH]; simpl; [done |].
  intros H. apply andb_true_iff in H as [Hc H].
  rewrite (IH H), (digit_not_space _ Hc). by destruct s.
Qed.

Lemma trim_digits s : allChars isDigit s = true → trim s = s.
Proof.
  intros H. unfold trim. rewrite (trimStart_digits _ H).
  by apply trimEnd_digits.
Qed.

Lemma stripNonDigits_digits s :
  allChars isDigit s = true → stripNonDigits s = s.
Proof. apply filterChars_all. Qed.

Lemma allChars_stripNonDigits s : allChars isDigit (stripNonDigits s) = true.
Proof.
  unfold stripNonDigits.
  induction s as [|c s IH]; cbn [filterChars allChars]; [done |].
  destruct (isDigit c) eqn:E; cbn [allChars]; [by rewrite E |]; done.
Qed.

(** A string of digits contains no character that is not a digit. *)
Lemma includes_digits s (c : ascii) :
  allChars isDigit s = true → isDigit c = false →
  includes s (String c EmptyString) = false.
Proof.
  intros Hs Hc. induction s as [|d s IH]; simpl; [done |].
  simpl in Hs. apply andb_true_iff in Hs as [Hd Hs].
  rewrite (IH Hs), orb_false_r.
  destruct (ascii_dec c d) as [->|Hne]; [congruence |].
  destruct s; done.
Qed.

End StringFacts.

(** ** The barcode decoder on plain numeric codes *)
Section PlainCodes.
Import JS.

Lemma truthy_length s : (0 < String.length s)%nat → truthy s = true.
Proof. destruct s; simpl; [lia | done]. Qed.

Lemma replace_gs_digits s :
  allChars isDigit s = true → replaceChar "029" "|" s = s.
Proof.
  apply mapChars_id. intros c Hc.
  by rewrite (digit_neq c "029" Hc).
Qed.

Lemma remove_newlines_digits s :
  allChars isDigit s = true →
  filterChars (λ c, negb (Ascii.eqb c "013" || Ascii.eqb c "010")) s = s.
Proof.
  intros H. apply filterChars_all. revert H. apply allChars_impl.
  intros c Hc.
  by rewrite (digit_neq c "013" Hc), (digit_neq c "010" Hc).
Qed.

Lemma not_raw_gs1_short s :
  (String.length s ≤ 14)%nat →
  String.prefix "01" s && startsWithDigits 14 (dropS 2 s) = false.
Proof.
  intros H. apply andb_false_iff. right. unfold startsWithDigits.
  apply Nat.leb_gt.
  pose proof (length_takeWhile isDigit (dropS 2 s)) as Hle.
  rewrite length_dropS in Hle. lia.
Qed.

(** The plain branch of the Backwall Tracker's [parseGS1]. *)
Lemma Tracker_parseGS1_plain tz d :
  allChars isDigit d = true → (8 ≤ String.length d ≤ 14)%nat →
  Tracker.parseGS1 tz d =
    {| Tracker.raw := d;
       Tracker.gtin14 := padStart d 14 "0";
       Tracker.gtin13 := Tracker.stripOneZero (padStart d 14 "0");
       Tracker.expiryISO := ""; Tracker.expiryDDMMYY := "";
       Tracker.expiryDisplay := ""; Tracker.batch := "";
       Tracker.serial := ""; Tracker.qty := 1; Tracker.isGS1 := false |}.
Proof.
  intros Hd [Hlo Hhi]. unfold Tracker.parseGS1.
  rewrite truthy_length by lia. cbn [negb].
  rewrite (trim_digits _ Hd), (remove_newlines_digits _ Hd).
  rewrite (includes_digits d "(" Hd) by done.
  rewrite (not_raw_gs1_short d) by lia.
  rewrite (stripNonDigits_digits _ Hd).
  replace ((8 <=? String.length d)%nat) with true
    by (symmetry; apply Nat.leb_le; lia).
  replace ((String.length d <=? 14)%nat) with true
    by (symmetry; apply Nat.leb_le; lia).
  done.
Qed.

(** The numeric shortcut of the Oasis tracker's [parseGS1]. *)
Lemma Oasis_parseGS1_plain tz now d :
  allChars isDigit d = true → (8 ≤ String.length d ≤ 14)%nat →
  Oasis.parseGS1 tz now d =
    inr {| Oasis.valid := true; Oasis.raw := d;
           Oasis.gtin14 := padStart d 14 "0";
           Oasis.gtin13 := Oasis.stripOneZero (padStart d 14 "0");
           Oasis.expiry := None; Oasis.expiryFormatted := "";
           Oasis.expiryStatus := Oasis.missing;
           Oasis.batch := ""; Oasis.serial := ""; Oasis.qty := 1 |}.
Proof.
  intros Hd [Hlo Hhi]. unfold Oasis.parseGS1.
  rewrite truthy_length by lia. cbn [negb].
  rewrite (trim_digits _ Hd), (replace_gs_digits _ Hd).
  rewrite (includes_digits d "(" Hd) by done.
  unfold isDigitsBetween. rewrite Hd.
  replace ((8 <=? String.length d)%nat) with true
    by (symmetry; apply Nat.leb_le; lia).
  replace ((String.length d <=? 14)%nat) with true
    by (symmetry; apply Nat.leb_le; lia).
  done.
Qed.

End PlainCodes.

(** C1.  For every string [d] of 8 to 14 digits, both decoders produce a
    [gtin14] that is [d] with zeros put in front up to exactly 14
    characters, and a [gtin13] that is [gtin14] without its first character
    when that is a zero, and [gtin14] itself otherwise. *)
Theorem C1_plain_numeric_code (tz now : Z) (d : string) :
  JS.allChars JS.isDigit d = true →
  (8 ≤ String.length d ≤ 14)%nat →
  let g14 := JS.repeatChar "0" (14 - String.length d) +:+ d in
  let g13 := if JS.startsWith g14 "0" then JS.substringFrom g14 1 else g14 in
  String.length g14 = 14%nat ∧
  (Tracker.gtin14 (Tracker.parseGS1 tz d) = g14 ∧
   Tracker.gtin13 (Tracker.parseGS1 tz d) = g13) ∧
  (∃ r, Oasis.parseGS1 tz now d = inr r ∧
        Oasis.gtin14 r = g14 ∧ Oasis.gtin13 r = g13).
Proof.
  intros Hd Hlen g14 g13. split; [| split].
  - apply (length_padStart d 14 "0"). lia.
  - by rewrite (Tracker_parseGS1_plain tz d Hd Hlen).
  - eexists. split; [apply (Oasis_parseGS1_plain tz now d Hd Hlen) |]. done.
Qed.

Lemma C1_plain_numeric_code_witness :
  Tracker.gtin14 (Tracker.parseGS1 0 "6291109120100") = "06291109120100" ∧
  Tracker.gtin13 (Tracker.parseGS1 0 "6291109120100") = "6291109120100".
Proof.
  pose proof (C1_plain_numeric_code 0 0 "6291109120100") as H.
  simpl in H. apply H; [reflexivity | lia].
Defined.

(** ** The matcher *)
Section TrimFacts.
Import JS.

Lemma trimEnd_cons c s :
  trimEnd (String c s) =
    match trimEnd s with
    | EmptyString => if isSpace c then EmptyString else String c EmptyString
    | r => String c r
    end.
Proof. done. Qed.

Lemma trimEnd_idem s : trimEnd (trimEnd s) = trimEnd s.
Proof.
  induction s as [|c s IH]; [done |].
  rewrite trimEnd_cons. destruct (trimEnd s) as [|d r] eqn:E.
  - destruct (isSpace c) eqn:Hc; [done |].
    rewrite trimEnd_cons. cbn [trimEnd]. by rewrite Hc.
  - rewrite trimEnd_cons. by rewrite IH.
Qed.

Lemma trimEnd_head c s :
  isSpace c = false → ∃ r, trimEnd (String c s) = String c r.
Proof.
  intros Hc. cbn [trimEnd]. destruct (trimEnd s) as [|d r].
  - rewrite Hc. by eexists.
  - by eexists.
Qed.

Lemma trimStart_head s :
  trimStart s = "" ∨ ∃ c r, trimStart s = String c r ∧ isSpace c = false.
Proof.
  unfold trimStart. induction s as [|c s IH]; [by left |].
  cbn [dropWhile]. destruct (isSpace c) eqn:Hc; [done |].
  right. by exists c, s.
Qed.

Lemma trim_idem s : trim (trim s) = trim s.
Proof.
  unfold trim. destruct (trimStart_head s) as [-> | (c & r & -> & Hc)];
    [done |].
  destruct (trimEnd_head c r Hc) as [r' Hr]. rewrite Hr.
  unfold trimStart at 1. cbn [dropWhile]. rewrite Hc, <- Hr.
  apply trimEnd_idem.
Qed.

End TrimFacts.

Section MatcherFacts.
Import JS Matcher Aux.

Lemma ready_init ps m : _ready (init (Some ps) m) = true.
Proof. done. Qed.

Lemma products_init ps m : products (init (Some ps) m) = ps.
Proof. done. Qed.

(** Before [init], and after an [init] that failed, nothing is ready. *)
Lemma not_ready_new : _ready new = false ∧ _ready (init None new) = false.
Proof. done. Qed.

Lemma not_ready_fails m q limit :
  _ready m = false →
  matchExact m q = inl NotInitialised ∧
  matchSeries m q limit = inl NotInitialised ∧
  matchByName m q limit = inl NotInitialised ∧
  smartMatch m q limit = inl NotInitialised.
Proof.
  intros H. unfold matchExact, matchSeries, matchByName, smartMatch,
    _checkReady. by rewrite H.
Qed.

Lemma ready_matchExact m q :
  _ready m = true → matchExact m q = inr (_barcodeMap m !! trim q).
Proof. intros H. unfold matchExact, _checkReady. by rewrite H. Qed.

Lemma ready_matchSeries m q limit :
  _ready m = true →
  matchSeries m q limit = inr (seriesLoop (trim q) limit (products m) []).
Proof. intros H. unfold matchSeries, _checkReady. by rewrite H. Qed.

Lemma ready_matchByName m q limit :
  _ready m = true →
  matchByName m q limit =
    inr (sliceTo
           (sortDesc _score
              (nameLoop (toUpperCase (trim q))
                 (List.filter truthy (splitWs (toUpperCase (trim q))))
                 (products m) []))
           limit).
Proof. intros H. unfold matchByName, _checkReady. by rewrite H. Qed.

Lemma ready_smartMatch m query limit exact series byName :
  matchExact m query = inr exact →
  matchSeries m query limit = inr series →
  matchByName m query limit = inr byName →
  smartMatch m query limit =
    inr (dispatch (isDigits1 (trim query)) exact series byName).
Proof.
  unfold smartMatch, matchExact, matchSeries, matchByName, _checkReady.
  destruct (_ready m); cbn [bind ret]; [| done].
  rewrite !trim_idem. intros [= <-] [= <-] [= <-].
  unfold dispatch.
  destruct (isDigits1 (trim query)).
  - destruct (_barcodeMap m !! trim query); [done |].
    destruct (seriesLoop _ _ _ _); [| done].
    by destruct (sliceTo _ _).
  - by destruct (sliceTo _ _).
Qed.

Lemma nameLoop_omap q words ps acc :
  nameLoop q words ps acc = acc ++ omap (scoreOf q words) ps.
Proof.
  revert acc. induction ps as [|p ps IH]; intros acc; cbn [nameLoop omap].
  - by rewrite app_nil_r.
  - rewrite IH. unfold scoreOf at 2. cbn [list_omap].
    destruct (0 <? nameScore q words p); [| done].
    by rewrite <- app_assoc.
Qed.

Lemma nameLoop_nil q words ps :
  Forall (λ p, nameScore q words p = 0) ps → nameLoop q words ps [] = [].
Proof.
  intros H. rewrite nameLoop_omap. cbn [app].
  induction H as [|p ps Hp _ IH]; [done |].
  cbn [omap list_omap]. unfold scoreOf at 1. by rewrite Hp.
Qed.

Lemma sliceTo_nil {A} n : sliceTo (@nil A) n = [].
Proof. unfold sliceTo. destruct (n <? 0); by rewrite take_nil. Qed.

(** Ties keep the order of the input. *)
Lemma sortDesc_ties {A} (key : A → Z) k l :
  Forall (λ x, key x = k) l → sortDesc key l = l.
Proof.
  induction 1 as [|x l Hx Hl IH]; [done |].
  unfold sortDesc in *. cbn [foldr]. rewrite IH.
  destruct Hl as [|y l Hy _]; [done |].
  cbn [insertDesc]. rewrite Hx, Hy, Z.ltb_irrefl. done.
Qed.

End MatcherFacts.

Section SeriesFacts.
Import JS Matcher Aux.

(** The loop of [matchSeries] returns the first [seriesCap limit] products
    that pass its test. *)
Lemma seriesLoop_take query limit ps acc :
  (length acc < seriesCap limit)%nat →
  seriesLoop query limit ps acc =
    take (seriesCap limit) (acc ++ List.filter (seriesHit query) ps).
Proof.
  unfold seriesCap. revert acc.
  induction ps as [|p ps IH]; intros acc Hacc; cbn [seriesLoop List.filter].
  - rewrite app_nil_r, take_ge; [done | lia].
  - destruct (seriesHit query p).
    + destruct (Z.of_nat (length (acc ++ [p])) >=? limit) eqn:E.
      * rewrite Z.geb_leb in E. apply Z.leb_le in E.
        rewrite length_app in E. cbn [length] in E.
        replace (acc ++ p :: List.filter (seriesHit query) ps)
          with ((acc ++ [p]) ++ List.filter (seriesHit query) ps)
          by (by rewrite <- app_assoc).
        rewrite take_app_le by (rewrite length_app; cbn [length]; lia).
        rewrite take_ge; [done |]. rewrite length_app. cbn [length]. lia.
      * rewrite Z.geb_leb in E. apply Z.leb_gt in E.
        rewrite length_app in E. cbn [length] in E.
        rewrite IH by (rewrite length_app; cbn [length]; lia).
        by rewrite <- app_assoc.
    + by apply IH.
Qed.

Lemma seriesCap_pos limit : (0 < seriesCap limit)%nat.
Proof. unfold seriesCap. lia. Qed.

(** A product without a barcode passes the test for every query. *)
Lemma seriesHit_no_barcode query p :
  hasBarcode p = false → seriesHit query p = true.
Proof.
  unfold hasBarcode, seriesHit, truthy. intros H.
  apply negb_false_iff, String.eqb_eq in H. rewrite H.
  cbn. destruct query; apply orb_true_r.
Qed.

Lemma elem_of_filter_bool {A} (f : A → bool) (x : A) (l : list A) :
  x ∈ List.filter f l ↔ x ∈ l ∧ f x = true.
Proof. rewrite !list_elem_of_In. apply filter_In. Qed.

End SeriesFacts.

(** C9.  On a matcher whose index has not been built (a new one, or one
    whose [init] failed) each of [matchExact], [matchSeries], [matchByName]
    and [smartMatch] throws the not-initialised error, for every query and
    limit; after a successful [init] each of them returns a value. *)
Theorem C9_ready_gate (ps : list product) (m0 : Matcher.matcher)
    (q : string) (limit : Z) :
  let fails m :=
    Matcher.matchExact m q = inl Matcher.NotInitialised ∧
    Matcher.matchSeries m q limit = inl Matcher.NotInitialised ∧
    Matcher.matchByName m q limit = inl Matcher.NotInitialised ∧
    Matcher.smartMatch m q limit = inl Matcher.NotInitialised in
  let m := Matcher.init (Some ps) m0 in
  fails Matcher.new ∧
  fails (Matcher.init None Matcher.new) ∧
  (∃ r, Matcher.matchExact m q = inr r) ∧
  (∃ r, Matcher.matchSeries m q limit = inr r) ∧
  (∃ r, Matcher.matchByName m q limit = inr r) ∧
  (∃ r, Matcher.smartMatch m q limit = inr r).
Proof.
  intros fails m.
  pose proof (ready_init ps m0) as Hr. fold m in Hr.
  split; [by apply not_ready_fails |].
  split; [by apply not_ready_fails |].
  split; [rewrite (ready_matchExact m q Hr); by eexists |].
  split; [rewrite (ready_matchSeries m q limit Hr); by eexists |].
  split; [rewrite (ready_matchByName m q limit Hr); by eexists |].
  erewrite ready_smartMatch;
    [by eexists | by apply ready_matchExact | by apply ready_matchSeries
    | by apply ready_matchByName].
Qed.

(** C10.  On an initialised matcher, a product of the catalog whose
    barcode is empty or missing passes the test of [matchSeries] for every
    query; [matchSeries] returns the first products that pass the test, up
    to the limit, so its result is never empty in such a catalog and holds
    the product whenever the limit is not reached before it. *)
Theorem C10_series_returns_barcodeless (m : Matcher.matcher) (q : string)
    (limit : Z) (p : product) :
  Matcher._ready m = true →
  p ∈ Matcher.products m →
  Matcher.hasBarcode p = false →
  let hits := List.filter (Matcher.seriesHit (JS.trim q)) (Matcher.products m) in
  p ∈ hits ∧
  Matcher.matchSeries m q limit = inr (take (Aux.seriesCap limit) hits) ∧
  take (Aux.seriesCap limit) hits ≠ [] ∧
  ((length hits ≤ Aux.seriesCap limit)%nat → p ∈ take (Aux.seriesCap limit) hits).
Proof.
  intros Hr Hp Hb hits.
  assert (p ∈ hits) as Hin.
  { apply elem_of_filter_bool. split; [done |]. by apply seriesHit_no_barcode. }
  split; [done |]. split; [| split].
  - rewrite (ready_matchSeries m q limit Hr).
    by rewrite seriesLoop_take by apply seriesCap_pos.
  - pose proof (seriesCap_pos limit).
    destruct hits as [|h hits']; [by apply elem_of_nil in Hin |].
    destruct (Aux.seriesCap limit); [lia | done].
  - intros Hle. by rewrite take_ge.
Qed.

Lemma C10_series_returns_barcodeless_witness :
  let p := Product None (Some "SALINE") None in
  let m := Matcher.init (Some [Product (Some "06291109120100") (Some "PANADOL") None; p])
             Matcher.new in
  Matcher.matchSeries m "4006381333931" 10 = inr [p].
Proof.
  intros p m.
  destruct (C10_series_returns_barcodeless m "4006381333931" 10 p)
    as (_ & H & _); [reflexivity | | reflexivity | exact H].
  apply list_elem_of_In. simpl. auto.
Defined.

(** ** The sort of [matchByName] *)
Section SortFacts.
Import JS.
Context {A : Type} (key : A → Z).

Lemma insertDesc_Permutation x l : insertDesc key x l ≡ₚ x :: l.
Proof.
  induction l as [|y l IH]; cbn [insertDesc]; [done |].
  destruct (key x <? key y); [| done].
  rewrite IH. apply Permutation_swap.
Qed.

Lemma sortDesc_Permutation l : sortDesc key l ≡ₚ l.
Proof.
  induction l as [|x l IH]; [done |].
  unfold sortDesc in *. cbn [foldr].
  by rewrite insertDesc_Permutation, IH.
Qed.

Lemma insertDesc_sorted x l :
  StronglySorted (λ a b, key b ≤ key a) l →
  StronglySorted (λ a b, key b ≤ key a) (insertDesc key x l).
Proof.
  induction 1 as [|y l Hl IH Hy]; cbn [insertDesc].
  - repeat constructor.
  - destruct (key x <? key y) eqn:E.
    + apply Z.ltb_lt in E. constructor; [done |].
      rewrite insertDesc_Permutation. constructor; [lia | done].
    + apply Z.ltb_ge in E. constructor; [by constructor |].
      constructor; [done |].
      eapply Forall_impl; [exact Hy |]. cbv beta. intros z Hz. lia.
Qed.

Lemma sortDesc_sorted l : StronglySorted (λ a b, key b ≤ key a) (sortDesc key l).
Proof.
  induction l as [|x l IH]; [constructor |].
  unfold sortDesc in *. cbn [foldr]. by apply insertDesc_sorted.
Qed.

(** The sort is stable: the elements of one key keep their order. *)
Lemma insertDesc_stable k x l :
  List.filter (λ a, key a =? k) (insertDesc key x l) =
  List.filter (λ a, key a =? k) (x :: l).
Proof.
  induction l as [|y l IH]; cbn [insertDesc]; [done |].
  destruct (key x <? key y) eqn:E; [| done].
  apply Z.ltb_lt in E.
  cbn [List.filter] in *. rewrite IH.
  destruct (key y =? k) eqn:Ey, (key x =? k) eqn:Ex; try done.
  apply Z.eqb_eq in Ey, Ex. lia.
Qed.

Lemma sortDesc_stable k l :
  List.filter (λ a, key a =? k) (sortDesc key l) =
  List.filter (λ a, key a =? k) l.
Proof.
  induction l as [|x l IH]; [done |].
  unfold sortDesc in *. cbn [foldr].
  rewrite insertDesc_stable. cbn [List.filter]. by rewrite IH.
Qed.

End SortFacts.

Section NameFacts.
Import JS Matcher Aux.

Lemma prefix_refl s : String.prefix s s = true.
Proof.
  induction s as [|c s IH]; [done |].
  cbn [String.prefix]. by destruct (ascii_dec c c).
Qed.

Lemma includes_refl s : includes s s = true.
Proof. destruct s; cbn [includes]; by rewrite prefix_refl. Qed.

(** A name that does not contain the one-word query scores nothing. *)
Lemma nameScore_excluded q p :
  includes (toUpperCase (orEmpty (name p))) q = false →
  nameScore q [q] p = 0.
Proof.
  intros H. unfold nameScore. rewrite H. cbn [forallb]. rewrite H.
  destruct (String.eqb_spec (toUpperCase (orEmpty (name p))) q) as [E|_];
    [| done].
  rewrite E, includes_refl in H. done.
Qed.

Lemma isDigits1_spec s :
  isDigits1 s = true ↔ s ≠ "" ∧ allChars isDigit s = true.
Proof.
  unfold isDigits1, truthy. rewrite andb_true_iff, negb_true_iff.
  by rewrite String.eqb_neq.
Qed.

End NameFacts.

(** C3.  [smartMatch] takes the trimmed query for a barcode iff it is a
    non-empty string of digits.  For a barcode it answers [exact_barcode]
    with the product [matchExact] finds, else [series_barcode] with the
    products [matchSeries] finds when there are some.  When both find
    nothing, or the query is not a barcode, it answers [name] with the
    results of [matchByName] when there are some, and [no_match] with no
    results otherwise; so does "xyz999" when no name contains it. *)
Theorem C3_smartMatch_dispatch (m : Matcher.matcher) (query : string)
    (limit : Z) (exact : option product) (series : list product)
    (byName : list Matcher.scored) :
  Matcher.matchExact m query = inr exact →
  Matcher.matchSeries m query limit = inr series →
  Matcher.matchByName m query limit = inr byName →
  let q := JS.trim query in
  let isBarcode := JS.isDigits1 q in
  let answer t rs := Matcher.smartMatch m query limit = inr (Matcher.SmartResult t rs) in
  (isBarcode = true ↔ q ≠ "" ∧ JS.allChars JS.isDigit q = true) ∧
  (isBarcode = true → ∀ p, exact = Some p →
     answer Matcher.exact_barcode [Matcher.Plain p]) ∧
  (isBarcode = true → exact = None → series ≠ [] →
     answer Matcher.series_barcode (Matcher.Plain <$> series)) ∧
  (isBarcode = false ∨ (exact = None ∧ series = []) → byName ≠ [] →
     answer Matcher.by_name (Matcher.WithScore <$> byName)) ∧
  (isBarcode = false ∨ (exact = None ∧ series = []) → byName = [] →
     answer Matcher.no_match []) ∧
  (query = "xyz999" →
   Forall (λ p, JS.includes (JS.toUpperCase (JS.orEmpty (name p))) "XYZ999" = false)
     (Matcher.products m) →
   answer Matcher.no_match []).
Proof.
  intros He Hs Hn q isBarcode answer.
  pose proof (ready_smartMatch m query limit exact series byName He Hs Hn)
    as H. fold q isBarcode in H. unfold answer. rewrite H. clear H.
  split; [apply isDigits1_spec |].
  split; [by intros -> p -> |].
  split; [intros -> -> Hne; by destruct series |].
  split; [| split].
  - intros Hc Hne. unfold Aux.dispatch.
    destruct Hc as [-> | [-> ->]]; [by destruct byName |].
    destruct isBarcode; by destruct byName.
  - intros Hc ->. unfold Aux.dispatch.
    destruct Hc as [-> | [-> ->]]; [done |]. by destruct isBarcode.
  - intros -> Hall.
    assert (Matcher._ready m = true) as Hr.
    { unfold Matcher.matchExact, Matcher._checkReady in He.
      by destruct (Matcher._ready m). }
    rewrite (ready_matchByName m "xyz999" limit Hr) in Hn.
    injection Hn as <-.
    change (JS.toUpperCase (JS.trim "xyz999")) with "XYZ999".
    change (List.filter JS.truthy (JS.splitWs "XYZ999")) with ["XYZ999"].
    rewrite nameLoop_nil.
    + unfold JS.sortDesc. cbn [foldr]. by rewrite sliceTo_nil.
    + eapply Forall_impl; [exact Hall |]. intros p. apply nameScore_excluded.
Qed.

Lemma C3_smartMatch_dispatch_witness :
  let m := Matcher.init
             (Some [Product (Some "06291109120100") (Some "Panadol") None])
             Matcher.new in
  Matcher.smartMatch m "xyz999" 10 = inr (Matcher.SmartResult Matcher.no_match []) ∧
  Matcher.smartMatch m " 06291109120100 " 10 =
    inr (Matcher.SmartResult Matcher.exact_barcode
           [Matcher.Plain (Product (Some "06291109120100") (Some "Panadol") None)]).
Proof.
  intros m. split.
  - apply (C3_smartMatch_dispatch m "xyz999" 10 None [] []);
      [reflexivity | reflexivity | reflexivity | reflexivity |].
    repeat constructor.
  - apply (C3_smartMatch_dispatch m " 06291109120100 " 10
             (Some (Product (Some "06291109120100") (Some "Panadol") None))
             [Product (Some "06291109120100") (Some "Panadol") None] []);
      reflexivity.
Defined.

(** C4.  Over a catalog with exactly the names "PANADOL BABY" and
    "PANADOL EXTRA", [matchByName("panadol")] returns both products in
    catalog order, each with score 2: either name contains the whole
    query and differs from it. *)
Theorem C4_panadol_scores (b1 r1 b2 r2 : option string)
    (m0 : Matcher.matcher) (limit : Z) :
  2 ≤ limit →
  let p1 := Aux.panadolBaby b1 r1 in
  let p2 := Aux.panadolExtra b2 r2 in
  Matcher.matchByName (Matcher.init (Some [p1; p2]) m0) "panadol" limit =
    inr [Matcher.Scored p1 2; Matcher.Scored p2 2].
Proof.
  intros Hl p1 p2.
  rewrite (ready_matchByName _ _ _ (ready_init _ _)), products_init.
  change (JS.toUpperCase (JS.trim "panadol")) with "PANADOL".
  change (List.filter JS.truthy (JS.splitWs "PANADOL")) with ["PANADOL"].
  change (Matcher.nameLoop "PANADOL" ["PANADOL"] [p1; p2] [])
    with [Matcher.Scored p1 2; Matcher.Scored p2 2].
  rewrite (sortDesc_ties Matcher._score 2) by (repeat constructor).
  unfold JS.sliceTo. replace (limit <? 0) with false by lia.
  apply f_equal, take_ge. cbn [length]. lia.
Qed.

Lemma C4_panadol_scores_witness :
  Matcher.matchByName
    (Matcher.init (Some [Aux.panadolBaby None None; Aux.panadolExtra None None])
       Matcher.new)
    "panadol" 10 =
  inr [Matcher.Scored (Aux.panadolBaby None None) 2;
       Matcher.Scored (Aux.panadolExtra None None) 2].
Proof. apply (C4_panadol_scores None None None None Matcher.new 10). lia. Defined.

(** The scores of the example are not 1. *)
Lemma C4_score_one_counterexample :
  ¬ ∃ out,
      Matcher.matchByName
        (Matcher.init (Some [Aux.panadolBaby None None; Aux.panadolExtra None None])
           Matcher.new)
        "panadol" 10 = inr out ∧
      length out = 2%nat ∧
      Forall (λ s, Matcher._score s = 1) out.
Proof.
  intros (out & H & _ & Hall).
  vm_compute in H. injection H as <-.
  apply Forall_cons in Hall as [H1 _]. discriminate H1.
Qed.

(** ** The master index of the Backwall Tracker *)
Section TrackerIndexFacts.
Import JS Tracker.

Lemma truthy_ne s : truthy s = true ↔ s ≠ "".
Proof. unfold truthy. by rewrite negb_true_iff, String.eqb_neq. Qed.

Lemma truthy_false s : truthy s = false ↔ s = "".
Proof. unfold truthy. by rewrite negb_false_iff, String.eqb_eq. Qed.















End TrackerIndexFacts.




Section TrackerLast8Facts.
Import JS Tracker.

Lemma last8_storeBarcode_mono b n idx s c :
  (∃ bk, last8 idx !! s = Some bk ∧ c ∈ bk) →
  ∃ bk, last8 (storeBarcode b n idx) !! s = Some bk ∧ c ∈ bk.
Proof.
  intros (bk & Hbk & Hc). cbn [storeBarcode last8].
  destruct (8 <=? String.length b)%nat; [| by exists bk].
  destruct (decide (sliceLast b 8 = s)) as [->|Hne].
  - rewrite lookup_insert_eq, Hbk. eexists. split; [done |].
    cbn [default]. apply elem_of_app. by left.
  - rewrite lookup_insert_ne by done. by exists bk.
Qed.

Lemma last8_storeBarcode_new b n idx :
  (8 ≤ String.length b)%nat →
  ∃ bk, last8 (storeBarcode b n idx) !! sliceLast b 8 = Some bk ∧
        Candidate b n ∈ bk.
Proof.
  intros H. cbn [storeBarcode last8].
  replace (8 <=? String.length b)%nat with true
    by (symmetry; by apply Nat.leb_le).
  rewrite lookup_insert_eq. eexists. split; [done |].
  apply elem_of_app. right. by apply list_elem_of_singleton.
Qed.

Lemma last8_indexItem idx item :
  last8 (indexItem idx item) =
    if (negb (truthy (itemBarcode item)) && negb (truthy (itemRms item)))
       || negb (truthy (itemName item)) || negb (truthy (itemBarcode item))
    then last8 idx
    else last8 (storeBarcode (itemBarcode item) (itemName item) idx).
Proof.
  unfold indexItem.
  destruct (truthy (itemBarcode item)), (truthy (itemRms item)),
    (truthy (itemName item)); done.
Qed.

Lemma last8_indexItem_mono idx item s c :
  (∃ bk, last8 idx !! s = Some bk ∧ c ∈ bk) →
  ∃ bk, last8 (indexItem idx item) !! s = Some bk ∧ c ∈ bk.
Proof.
  intros H. rewrite last8_indexItem.
  destruct (_ || _); [done | by apply last8_storeBarcode_mono].
Qed.

Lemma last8_fold_mono md idx s c :
  (∃ bk, last8 idx !! s = Some bk ∧ c ∈ bk) →
  ∃ bk, last8 (fold_left indexItem md idx) !! s = Some bk ∧ c ∈ bk.
Proof.
  revert idx. induction md as [|x md IH]; intros idx H; [done |].
  cbn [fold_left]. by apply IH, last8_indexItem_mono.
Qed.

Lemma length_truthy s : (8 ≤ String.length s)%nat → truthy s = true.
Proof. intros H. apply truthy_length. lia. Qed.

(** A named record with eight digits or more is a candidate of the bucket
    of its last eight digits. *)
(** Two different codes with the same last eight characters have eight
    characters or more. *)
Lemma shared_last8_long (b1 b2 : string) :
  b1 ≠ b2 → sliceLast b1 8 = sliceLast b2 8 →
  (8 ≤ String.length b1)%nat ∧ (8 ≤ String.length b2)%nat.
Proof.
  intros Hne Heq. pose proof (f_equal String.length Heq) as Hlen.
  unfold sliceLast in *. rewrite !length_dropS in Hlen.
  destruct (Nat.le_gt_cases 8 (String.length b1)) as [H1 | H1],
    (Nat.le_gt_cases 8 (String.length b2)) as [H2 | H2]; [done | lia | lia |].
  replace (String.length b1 - 8)%nat with 0%nat in Heq by lia.
  replace (String.length b2 - 8)%nat with 0%nat in Heq by lia.
  by destruct b1, b2.
Qed.

Lemma last8_fold_candidate md idx item :
  item ∈ md → itemName item ≠ "" →
  (8 ≤ String.length (itemBarcode item))%nat →
  ∃ bk, last8 (fold_left indexItem md idx) !! sliceLast (itemBarcode item) 8
          = Some bk ∧
        Candidate (itemBarcode item) (itemName item) ∈ bk.
Proof.
  intros Hin Hn Hlen. revert idx.
  induction md as [|x md IH]; intros idx; [by apply elem_of_nil in Hin |].
  cbn [fold_left]. apply elem_of_cons in Hin as [<- | Hin]; [| by apply IH].
  apply last8_fold_mono. rewrite last8_indexItem.
  apply truthy_ne in Hn. rewrite Hn, (length_truthy _ Hlen).
  cbn [negb andb orb]. by apply last8_storeBarcode_new.
Qed.

(** A bucket with two different candidates is not a singleton. *)
Lemma two_candidates_not_single {A} (bk : list A) (x y : A) :
  x ∈ bk → y ∈ bk → x ≠ y → ∀ z, bk ≠ [z].
Proof.
  intros Hx Hy Hne z ->.
  apply list_elem_of_singleton in Hx. apply list_elem_of_singleton in Hy.
  congruence.
Qed.

Lemma tryExactLoop_type idx codes r :
  tryExactLoop idx codes = Some r → m_type r = EXACT.
Proof.
  induction codes as [|code rest IH]; cbn [tryExactLoop]; [done |].
  destruct (exact idx !! code); [by intros [= <-] |].
  destruct (if (5 <=? String.length (stripLeadingZeros code))%nat
            then exact idx !! stripLeadingZeros code else None);
    [by intros [= <-] | done].
Qed.

Lemma tryRms_type idx rawCode r :
  tryRms idx rawCode = Some r → m_type r = RMS.
Proof.
  unfold tryRms. destruct rawCode as [raw|]; [| done].
  destruct (truthy raw); [| done].
  destruct (rmsMap idx !! raw); [by intros [= <-] | done].
Qed.

Lemma tryLast8_single idx gtin14 r :
  tryLast8 idx gtin14 = Some r →
  ∃ c, last8 idx !! sliceLast gtin14 8 = Some [c] ∧ r = Matched (c_name c) LAST8.
Proof.
  unfold tryLast8. destruct (truthy gtin14); [| done].
  destruct (last8 idx !! sliceLast gtin14 8) as [[|c [|d bk]]|]; try done.
  intros [= <-]. by exists c.
Qed.

Lemma tryLast8_ambiguous idx gtin14 bk :
  last8 idx !! sliceLast gtin14 8 = Some bk → (∀ z, bk ≠ [z]) →
  tryLast8 idx gtin14 = None.
Proof.
  intros Hbk Hns. unfold tryLast8. destruct (truthy gtin14); [| done].
  rewrite Hbk. destruct bk as [|c [|d bk]]; try done.
  by destruct (Hns c).
Qed.

(** The [LAST8] answer comes from a bucket of exactly one candidate. *)
Lemma matchProduct_LAST8 st gtin14 gtin13 rawCode :
  m_type (matchProduct st gtin14 gtin13 rawCode) = LAST8 →
  ∃ c, last8 (masterIndex st) !! sliceLast gtin14 8 = Some [c] ∧
       m_name (matchProduct st gtin14 gtin13 rawCode) = c_name c.
Proof.
  unfold matchProduct.
  destruct (tryExactLoop _ _) as [r|] eqn:E1.
  { apply tryExactLoop_type in E1. congruence. }
  destruct (tryRms _ _) as [r|] eqn:E2.
  { apply tryRms_type in E2. congruence. }
  destruct (tryLast8 _ _) as [r|] eqn:E3; [| done].
  apply tryLast8_single in E3 as (c & Hc & ->). intros _. by exists c.
Qed.

Lemma matchProduct_ambiguous st gtin14 gtin13 rawCode bk :
  last8 (masterIndex st) !! sliceLast gtin14 8 = Some bk → (∀ z, bk ≠ [z]) →
  m_type (matchProduct st gtin14 gtin13 rawCode) ≠ LAST8 ∧
  (tryExactLoop (masterIndex st) (tryExact gtin14 gtin13 rawCode) = None →
   tryRms (masterIndex st) rawCode = None →
   matchProduct st gtin14 gtin13 rawCode = Matched "" NONE).
Proof.
  intros Hbk Hns. split.
  - intros H. apply matchProduct_LAST8 in H as (c & Hc & _).
    rewrite Hbk in Hc. injection Hc as ->. by destruct (Hns c).
  - intros E1 E2. unfold matchProduct.
    by rewrite E1, E2, (tryLast8_ambiguous _ _ _ Hbk Hns).
Qed.

End TrackerLast8Facts.

(** ** The master index of the Oasis tracker *)
Section OasisIndexFacts.
Import JS Oasis.

Lemma oasis_exact_addItem st it :
  exact (masterIndex (addItem st it)) !! padStart (gtin it) 14 "0" = Some it.
Proof. cbn [addItem masterIndex exact]. apply lookup_insert_eq. Qed.

Lemma oasis_last8_addItem_new st it :
  ∃ bk, last8 (masterIndex (addItem st it))
          !! sliceLast (padStart (gtin it) 14 "0") 8 = Some bk ∧ it ∈ bk.
Proof.
  cbn [addItem masterIndex last8]. rewrite lookup_insert_eq.
  eexists. split; [done |]. apply elem_of_app. right.
  by apply list_elem_of_singleton.
Qed.

Lemma oasis_last8_addItem_mono st x s it :
  (∃ bk, last8 (masterIndex st) !! s = Some bk ∧ it ∈ bk) →
  ∃ bk, last8 (masterIndex (addItem st x)) !! s = Some bk ∧ it ∈ bk.
Proof.
  intros (bk & Hbk & Hin). cbn [addItem masterIndex last8].
  destruct (decide (sliceLast (padStart (gtin x) 14 "0") 8 = s)) as [->|Hne].
  - rewrite lookup_insert_eq, Hbk. eexists. split; [done |].
    cbn [default]. apply elem_of_app. by left.
  - rewrite lookup_insert_ne by done. by exists bk.
Qed.

Lemma oasis_last8_fold_mono data st s it :
  (∃ bk, last8 (masterIndex st) !! s = Some bk ∧ it ∈ bk) →
  ∃ bk, last8 (masterIndex (fold_left addItem data st)) !! s = Some bk ∧ it ∈ bk.
Proof.
  revert st. induction data as [|x data IH]; intros st H; [done |].
  cbn [fold_left]. by apply IH, oasis_last8_addItem_mono.
Qed.

(** Every record of the store is a candidate of the bucket of the last
    eight digits of its padded code. *)
Lemma oasis_last8_candidate data st it :
  it ∈ data →
  ∃ bk, last8 (masterIndex (loadMasterData (Some data) st))
          !! sliceLast (padStart (gtin it) 14 "0") 8 = Some bk ∧ it ∈ bk.
Proof.
  intros Hin. cbn [loadMasterData].
  generalize ({| masterData := clear (masterData st);
                 masterIndex := {| exact := clear (exact (masterIndex st));
                                   last8 := clear (last8 (masterIndex st)) |} |}).
  induction data as [|x data IH]; intros st'; [by apply elem_of_nil in Hin |].
  cbn [fold_left]. apply elem_of_cons in Hin as [<- | Hin]; [| by apply IH].
  apply oasis_last8_fold_mono, oasis_last8_addItem_new.
Qed.

Lemma oasis_matchProduct_Last8 st gtin14 :
  matchType (matchProduct st gtin14) = Last8 →
  ∃ it, last8 (masterIndex st) !! sliceLast gtin14 8 = Some [it] ∧
        product (matchProduct st gtin14) = Some it.
Proof.
  unfold matchProduct.
  destruct (exact (masterIndex st) !! gtin14); [done |].
  destruct (last8 (masterIndex st) !! sliceLast gtin14 8)
    as [[|it [|x bk]]|]; try done.
  intros _. by exists it.
Qed.

Lemma oasis_matchProduct_ambiguous st gtin14 bk :
  last8 (masterIndex st) !! sliceLast gtin14 8 = Some bk → (∀ z, bk ≠ [z]) →
  matchType (matchProduct st gtin14) ≠ Last8 ∧
  (exact (masterIndex st) !! gtin14 = None →
   matchProduct st gtin14 = Matched None NoMatch).
Proof.
  intros Hbk Hns. split.
  - intros H. apply oasis_matchProduct_Last8 in H as (it & Hit & _).
    rewrite Hbk in Hit. injection Hit as ->. by destruct (Hns it).
  - intros E. unfold matchProduct. rewrite E, Hbk.
    destruct bk as [|it [|x bk]]; try done. by destruct (Hns it).
Qed.

(** The index that [loadMasterData] builds does not depend on the state it
    starts from. *)
Lemma oasis_load_independent data st1 st2 :
  loadMasterData (Some data) st1 = loadMasterData (Some data) st2.
Proof. done. Qed.

End OasisIndexFacts.

(** C2.  In the index built from a catalog, when the bucket of the last
    eight digits of [gtin14] holds two different product codes (as it does
    when the catalog has two records with such codes that the index takes
    in: for [buildMasterIndex], two records with a name), the last-eight
    tier does not answer: the match is never [LAST8], and it is the
    no-match answer once the earlier tiers have missed.  A [LAST8] answer
    comes from a bucket of exactly one candidate, and names that candidate.
    The same holds of the two-tier matcher of the Oasis tracker, which takes
    in every record. *)
Theorem C2_last8_ambiguity (md : list product) (st0 : Tracker.state)
    (data : list Oasis.item) (ost0 : Oasis.state)
    (gtin14 gtin13 : string) (rawCode : option string) :
  let st := Tracker.refreshMasterStats md st0 in
  let idx := Tracker.masterIndex st in
  let r := Tracker.matchProduct st gtin14 gtin13 rawCode in
  let ost := Oasis.loadMasterData (Some data) ost0 in
  let oidx := Oasis.masterIndex ost in
  let r' := Oasis.matchProduct ost gtin14 in
  let key := JS.sliceLast gtin14 8 in
  let pad g := JS.padStart g 14 "0" in
  let none :=
    Tracker.m_type r ≠ Tracker.LAST8 ∧
    (Tracker.tryExactLoop idx (Tracker.tryExact gtin14 gtin13 rawCode) = None →
     Tracker.tryRms idx rawCode = None →
     r = Tracker.Matched "" Tracker.NONE) in
  let none' :=
    Oasis.matchType r' ≠ Oasis.Last8 ∧
    (Oasis.exact oidx !! gtin14 = None → r' = Oasis.Matched None Oasis.NoMatch) in
  (∀ bk c1 c2,
     Tracker.last8 idx !! key = Some bk → c1 ∈ bk → c2 ∈ bk →
     Tracker.c_barcode c1 ≠ Tracker.c_barcode c2 → none) ∧
  (∀ it1 it2,
     it1 ∈ md → it2 ∈ md →
     Tracker.itemName it1 ≠ "" → Tracker.itemName it2 ≠ "" →
     Tracker.itemBarcode it1 ≠ Tracker.itemBarcode it2 →
     JS.sliceLast (Tracker.itemBarcode it1) 8 = key →
     JS.sliceLast (Tracker.itemBarcode it2) 8 = key → none) ∧
  (Tracker.m_type r = Tracker.LAST8 →
   ∃ c, Tracker.last8 idx !! key = Some [c] ∧
        Tracker.m_name r = Tracker.c_name c) ∧
  (∀ bk i1 i2,
     Oasis.last8 oidx !! key = Some bk → i1 ∈ bk → i2 ∈ bk →
     Oasis.gtin i1 ≠ Oasis.gtin i2 → none') ∧
  (∀ i1 i2,
     i1 ∈ data → i2 ∈ data → Oasis.gtin i1 ≠ Oasis.gtin i2 →
     JS.sliceLast (pad (Oasis.gtin i1)) 8 = key →
     JS.sliceLast (pad (Oasis.gtin i2)) 8 = key → none') ∧
  (Oasis.matchType r' = Oasis.Last8 →
   ∃ it, Oasis.last8 oidx !! key = Some [it] ∧ Oasis.product r' = Some it).
Proof.
  intros st idx r ost oidx r' key pad none none'.
  assert (∀ bk c1 c2,
            Tracker.last8 idx !! key = Some bk → c1 ∈ bk → c2 ∈ bk →
            Tracker.c_barcode c1 ≠ Tracker.c_barcode c2 → none) as Hidx.
  { intros bk c1 c2 Hbk H1 H2 Hne.
    apply (matchProduct_ambiguous st gtin14 gtin13 rawCode bk Hbk).
    apply (two_candidates_not_single bk c1 c2 H1 H2). congruence. }
  assert (∀ bk i1 i2,
            Oasis.last8 oidx !! key = Some bk → i1 ∈ bk → i2 ∈ bk →
            Oasis.gtin i1 ≠ Oasis.gtin i2 → none') as Hoidx.
  { intros bk i1 i2 Hbk H1 H2 Hne.
    apply (oasis_matchProduct_ambiguous ost gtin14 bk Hbk).
    apply (two_candidates_not_single bk i1 i2 H1 H2). congruence. }
  split; [exact Hidx |]. split; [| split; [| split; [exact Hoidx | split]]].
  - intros it1 it2 Hi1 Hi2 Hn1 Hn2 Hne Hk1 Hk2.
    destruct (shared_last8_long _ _ Hne) as [Hl1 Hl2]; [by rewrite Hk1, Hk2 |].
    destruct (last8_fold_candidate md Tracker.emptyIndex it1 Hi1 Hn1 Hl1)
      as (bk & Hbk & Hc1).
    destruct (last8_fold_candidate md Tracker.emptyIndex it2 Hi2 Hn2 Hl2)
      as (bk2 & Hbk2 & Hc2).
    rewrite Hk1 in Hbk. rewrite Hk2, Hbk in Hbk2. injection Hbk2 as <-.
    by apply (Hidx bk _ _ Hbk Hc1 Hc2).
  - apply matchProduct_LAST8.
  - intros i1 i2 Hi1 Hi2 Hne Hk1 Hk2. unfold pad in Hk1, Hk2.
    destruct (oasis_last8_candidate data ost0 i1 Hi1) as (bk & Hbk & Hc1).
    destruct (oasis_last8_candidate data ost0 i2 Hi2) as (bk2 & Hbk2 & Hc2).
    rewrite Hk1 in Hbk. rewrite Hk2, Hbk in Hbk2. injection Hbk2 as <-.
    by apply (Hoidx bk _ _ Hbk Hc1 Hc2).
  - apply oasis_matchProduct_Last8.
Qed.

Lemma C2_last8_ambiguity_witness :
  let md := [Product (Some "1234567890123") (Some "ALPHA") None;
             Product (Some "9934567890123") (Some "BETA") None] in
  Tracker.matchProduct (Tracker.refreshMasterStats md (Tracker.State Tracker.emptyIndex))
    "00034567890123" "0034567890123" (Some "34567890123")
  = Tracker.Matched "" Tracker.NONE.
Proof.
  intros md.
  destruct (C2_last8_ambiguity md (Tracker.State Tracker.emptyIndex) []
              (Oasis.State ∅ (Oasis.Index ∅ ∅))
              "00034567890123" "0034567890123" (Some "34567890123"))
    as (_ & H & _).
  apply (H (Product (Some "1234567890123") (Some "ALPHA") None)
           (Product (Some "9934567890123") (Some "BETA") None));
    try (vm_compute; first [reflexivity | discriminate | lia]).
  - apply list_elem_of_In. simpl. auto.
  - apply list_elem_of_In. simpl. auto.
Defined.

(** C2, as first stated, fails when one of the two records has no name:
    [buildMasterIndex] skips that record, the bucket holds the other one
    alone, and scanning the code of the nameless record is answered
    [LAST8] with the name of the other record. *)
Lemma C2_nameless_record_counterexample :
  ¬ ∀ (md : list product) (it1 it2 : product) (gtin14 gtin13 : string)
      (rawCode : option string),
      let st := Tracker.refreshMasterStats md (Tracker.State Tracker.emptyIndex) in
      it1 ∈ md → it2 ∈ md →
      Tracker.itemBarcode it1 ≠ Tracker.itemBarcode it2 →
      JS.sliceLast (Tracker.itemBarcode it1) 8 = JS.sliceLast gtin14 8 →
      JS.sliceLast (Tracker.itemBarcode it2) 8 = JS.sliceLast gtin14 8 →
      Tracker.tryExactLoop (Tracker.masterIndex st)
        (Tracker.tryExact gtin14 gtin13 rawCode) = None →
      Tracker.tryRms (Tracker.masterIndex st) rawCode = None →
      Tracker.matchProduct st gtin14 gtin13 rawCode =
        Tracker.Matched "" Tracker.NONE.
Proof.
  intros H.
  specialize (H [Product (Some "1234567890123") (Some "ALPHA") None;
                 Product (Some "9934567890123") None None]
                (Product (Some "1234567890123") (Some "ALPHA") None)
                (Product (Some "9934567890123") None None)
                (Tracker.gtin14 (Tracker.parseGS1 0 "9934567890123"))
                (Tracker.gtin13 (Tracker.parseGS1 0 "9934567890123"))
                (Some "9934567890123")).
  cbv zeta in H.
  assert (Tracker.matchProduct
            (Tracker.refreshMasterStats
               [Product (Some "1234567890123") (Some "ALPHA") None;
                Product (Some "9934567890123") None None]
               (Tracker.State Tracker.emptyIndex))
            (Tracker.gtin14 (Tracker.parseGS1 0 "9934567890123"))
            (Tracker.gtin13 (Tracker.parseGS1 0 "9934567890123"))
            (Some "9934567890123")
          = Tracker.Matched "ALPHA" Tracker.LAST8) as Hrun
    by (vm_compute; reflexivity).
  rewrite Hrun in H. discriminate H.
  - apply list_elem_of_In. simpl. auto.
  - apply list_elem_of_In. simpl. auto.
  - vm_compute. discriminate.
  - vm_compute. reflexivity.
  - vm_compute. reflexivity.
  - vm_compute. reflexivity.
  - vm_compute. reflexivity.
Qed.

(** C8.  The index a rebuild installs is a function of the catalog alone:
    rebuilding from the same catalog, whatever index was installed before
    and however often, installs the same index, so every query gets the
    same answer.  This holds of [refreshMasterStats] with [matchProduct]
    in the Backwall Tracker and of [loadMasterData] with [matchProduct]
    in the Oasis tracker. *)
Theorem C8_rebuild_deterministic (md : list product)
    (st1 st2 : Tracker.state) (data : list Oasis.item)
    (ost1 ost2 : Oasis.state) :
  let rebuild := Tracker.refreshMasterStats md in
  let reload := Oasis.loadMasterData (Some data) in
  rebuild st1 = rebuild st2 ∧
  rebuild (rebuild st1) = rebuild st1 ∧
  (∀ gtin14 gtin13 rawCode,
     Tracker.matchProduct (rebuild (rebuild st1)) gtin14 gtin13 rawCode =
     Tracker.matchProduct (rebuild st2) gtin14 gtin13 rawCode) ∧
  reload ost1 = reload ost2 ∧
  reload (reload ost1) = reload ost1 ∧
  (∀ gtin14,
     Oasis.matchProduct (reload (reload ost1)) gtin14 =
     Oasis.matchProduct (reload ost2) gtin14).
Proof. intros rebuild reload. repeat split. Qed.

(** ** Expiry dates *)
Section DateFacts.
Import JS JSDate Aux.

Lemma TimeClip_small t : Z.abs t ≤ 8640000000000000 → TimeClip t = Some t.
Proof. intros H. unfold TimeClip. by replace (Z.abs t <=? _) with true by lia. Qed.

(** [new Date(y, m, d)] is the local midnight of day [MakeDay y m d]. *)
Lemma newDate_value tz y m d :
  100 ≤ y → Z.abs (MakeDay y m d) ≤ 100000 → Z.abs tz ≤ 1440 →
  newDate tz (Some y) (Some m) (Some d) =
    Some (MakeDay y m d * msPerDay - tz * 60000).
Proof.
  intros Hy HD Htz. unfold newDate, LocalTZA. cbn [mbind option_bind].
  replace ((0 <=? y) && (y <=? 99)) with false by lia.
  apply TimeClip_small. unfold msPerDay. lia.
Qed.

Lemma localCivil_midnight tz D :
  localCivil tz (D * msPerDay - tz * 60000) = civilFromDays D.
Proof.
  unfold localCivil, LocalTZA.
  replace (D * msPerDay - tz * 60000 + tz * 60000) with (D * msPerDay) by lia.
  by rewrite Z.div_mul.
Qed.

(** The day of the month does not depend on the zone. *)
Lemma getDate_newDate tz y m d :
  100 ≤ y → Z.abs (MakeDay y m d) ≤ 100000 → Z.abs tz ≤ 1440 →
  getDate tz (newDate tz (Some y) (Some m) (Some d)) =
    Some (civilFromDays (MakeDay y m d)).2.
Proof.
  intros Hy HD Htz. rewrite newDate_value by done.
  unfold getDate. cbn [mbind option_bind]. by rewrite localCivil_midnight.
Qed.

Lemma civilRange_value : Z.of_nat civilRange = 40177.
Proof. vm_compute. reflexivity. Qed.

Lemma all_civil_checks :
  forallFrom (λ day, dateOfDay day (civilFromDays day)) (-7305) civilRange
  = true.
Proof. vm_compute. reflexivity. Qed.

Lemma forallFrom_spec (f : Z → bool) n m x :
  forallFrom f m n = true → m ≤ x < m + Z.of_nat n → f x = true.
Proof.
  revert m. induction n as [|n IH]; intros m H Hx; [lia |].
  cbn [forallFrom] in H. apply andb_true_iff in H as [H0 H].
  destruct (decide (x = m)) as [->|Hne]; [done |].
  apply (IH (m + 1)); [done | lia].
Qed.

Lemma dateOfDay_spec day y m d :
  dateOfDay day (y, m, d) = true →
  MakeDay y (m - 1) d = day ∧ 1 ≤ m ≤ 12 ∧ 1 ≤ d ≤ daysInMonth y m.
Proof.
  cbn [dateOfDay]. intros H.
  apply andb_true_iff in H as [H H5].
  apply andb_true_iff in H as [H H4].
  apply andb_true_iff in H as [H H3].
  apply andb_true_iff in H as [H1 H2].
  apply Z.eqb_eq in H1. apply Z.leb_le in H2, H3, H4, H5.
  repeat split; assumption.
Qed.

(** From 1950 to 2059 [civilFromDays] inverts [MakeDay]. *)
Lemma civilFromDays_MakeDay day :
  -7305 ≤ day < 32872 →
  let '(y, m, d) := civilFromDays day in
  MakeDay y (m - 1) d = day ∧ 1 ≤ m ≤ 12 ∧ 1 ≤ d ≤ daysInMonth y m.
Proof.
  intros Hday.
  pose proof (forallFrom_spec _ civilRange (-7305) day all_civil_checks) as H.
  cbv beta in H. rewrite civilRange_value in H. specialize (H ltac:(lia)).
  destruct (civilFromDays day) as [[y m] d]. by apply dateOfDay_spec.
Qed.

Lemma all_checks_tracker : allDayZeroChecks 0 trackerYear = true.
Proof. vm_compute. reflexivity. Qed.

Lemma all_checks_oasis : allDayZeroChecks 10 oasisYear = true.
Proof. vm_compute. reflexivity. Qed.

Lemma forallb2_seqZ (f : Z → Z → bool) a n b m x y :
  forallb (λ x, forallb (f x) (seqZ b m)) (seqZ a n) = true →
  a ≤ x < a + n → b ≤ y < b + m → f x y = true.
Proof.
  intros H Hx Hy. rewrite forallb_forall in H.
  specialize (H x ltac:(apply list_elem_of_In, elem_of_seqZ; lia)).
  rewrite forallb_forall in H.
  apply H, list_elem_of_In, elem_of_seqZ. lia.
Qed.

Lemma dayZeroChecks_in radix yearOf yy mm :
  allDayZeroChecks radix yearOf = true →
  0 ≤ yy ≤ 99 → 1 ≤ mm ≤ 12 →
  dayZeroChecks radix yearOf yy mm = true.
Proof.
  intros Hall Hyy Hmm. unfold allDayZeroChecks in Hall.
  rewrite forallb_forall in Hall.
  specialize (Hall yy). rewrite forallb_forall in Hall.
  apply Hall; apply list_elem_of_In, elem_of_seqZ; lia.
Qed.

Lemma dayZeroChecks_spec radix yearOf yy mm :
  dayZeroChecks radix yearOf yy mm = true →
  let s := expiryField yy mm 0 in
  let year := yearOf yy in
  let dim := daysInMonth year mm in
  parseInt (substring s 0 2) radix = Some yy ∧
  parseInt (substring s 2 4) radix = Some mm ∧
  parseInt (substring s 4 6) radix = Some 0 ∧
  100 ≤ year ∧
  Z.abs (MakeDay year mm 0) ≤ 100000 ∧
  Z.abs (MakeDay year (mm - 1) dim) ≤ 100000 ∧
  (civilFromDays (MakeDay year mm 0)).2 = dim ∧
  civilFromDays (MakeDay year (mm - 1) dim) = (year, mm, dim).
Proof.
  unfold dayZeroChecks. cbv zeta. rewrite !andb_true_iff.
  rewrite !bool_decide_eq_true, !Z.leb_le. tauto.
Qed.

(** The date part of [toISOString]. *)
Lemma takeWhile_app_stop f a c rest :
  allChars f a = true → f c = false →
  takeWhile f (a +:+ String c rest) = a.
Proof.
  intros Ha Hc. induction a as [|x a IH].
  - change (takeWhile f (String c rest) = ""). cbn [takeWhile]. by rewrite Hc.
  - change (takeWhile f (String x (a +:+ String c rest)) = String x a).
    cbn [allChars] in Ha. apply andb_true_iff in Ha as [Hx Ha].
    cbn [takeWhile]. by rewrite Hx, IH.
Qed.

Lemma append_assoc (a b c : string) : (a +:+ b) +:+ c = a +:+ (b +:+ c).
Proof.
  induction a as [|x a IH]; [done |].
  change (String x ((a +:+ b) +:+ c) = String x (a +:+ (b +:+ c))).
  by rewrite IH.
Qed.

Lemma iso_date_part t y m d :
  civilFromDays (t / msPerDay) = (y, m, d) →
  allChars notT (isoYear y +:+ "-" +:+ pad2 m +:+ "-" +:+ pad2 d) = true →
  takeWhile notT (toISOString t) =
    isoYear y +:+ "-" +:+ pad2 m +:+ "-" +:+ pad2 d.
Proof.
  intros Hc Ha. unfold toISOString. rewrite Hc.
  set (rest := pad2 (t mod msPerDay / 3600000) +:+ ":" +:+
               pad2 (t mod msPerDay / 60000 mod 60) +:+ ":" +:+
               pad2 (t mod msPerDay / 1000 mod 60) +:+ "." +:+
               pad3 (t mod msPerDay mod 1000) +:+ "Z").
  transitivity
    (takeWhile notT
       ((isoYear y +:+ "-" +:+ pad2 m +:+ "-" +:+ pad2 d) +:+ String "T" rest)).
  - f_equal. by rewrite !append_assoc.
  - by apply takeWhile_app_stop.
Qed.

End DateFacts.

Section ExpiryFacts.
Import JS JSDate Aux.

(** The Backwall Tracker on a field whose day is [00]. *)
Lemma tracker_day_zero tz yy mm :
  Z.abs tz ≤ 1440 → 0 ≤ yy ≤ 99 → 1 ≤ mm ≤ 12 →
  let year := trackerYear yy in
  let dim := daysInMonth year mm in
  Tracker.parseExpiryDate tz (expiryField yy mm 0) =
    {| Tracker.iso := pretty year +:+ "-" +:+ pad2 mm +:+ "-" +:+ pad2 dim;
       Tracker.ddmmyy := pad2 dim +:+ pad2 mm +:+ pad2 yy;
       Tracker.display := pad2 dim +:+ "/" +:+ pad2 mm +:+ "/" +:+ pretty year |}.
Proof.
  intros Htz Hyy Hmm year dim.
  pose proof (dayZeroChecks_spec 0 trackerYear yy mm
                (dayZeroChecks_in _ _ _ _ all_checks_tracker Hyy Hmm))
    as (P1 & P2 & P3 & Hy & HD & _ & Hdim & _).
  unfold Tracker.parseExpiryDate. rewrite P1, P2, P3.
  cbn [mbind option_bind]. fold (trackerYear yy).
  rewrite getDate_newDate by done. rewrite Hdim. done.
Qed.

(** The Oasis tracker on a field whose day is [00]: the [Date] it builds
    is the local midnight of the last day of the month. *)
Lemma oasis_day_zero tz yy mm :
  Z.abs tz ≤ 1440 → 0 ≤ yy ≤ 99 → 1 ≤ mm ≤ 12 →
  let year := oasisYear yy in
  let dim := daysInMonth year mm in
  ∃ p, Oasis.parseExpiryDate tz (expiryField yy mm 0) = inr p ∧
       localCivil tz (Oasis.date p) = (year, mm, dim) ∧
       Oasis.formatted p = pad2 dim +:+ "/" +:+ pad2 mm +:+ "/" +:+ pretty year.
Proof.
  intros Htz Hyy Hmm year dim.
  pose proof (dayZeroChecks_spec 10 oasisYear yy mm
                (dayZeroChecks_in _ _ _ _ all_checks_oasis Hyy Hmm))
    as (P1 & P2 & P3 & Hy & HD & HD' & Hdim & Hciv).
  unfold Oasis.parseExpiryDate. rewrite P1, P2, P3.
  cbn [mbind option_bind]. fold (oasisYear yy).
  rewrite getDate_newDate by done. rewrite Hdim.
  rewrite newDate_value by done.
  eexists. split; [done |]. cbn [Oasis.date Oasis.formatted].
  by rewrite localCivil_midnight, Hciv.
Qed.

(** The Oasis tracker on "250131": the [Date] is the local midnight of
    31 January 2025, that is day 20119 less the zone offset. *)
Lemma oasis_250131 tz :
  Z.abs tz ≤ 1440 →
  Oasis.parseExpiryDate tz "250131" =
    inr {| Oasis.date := 20119 * msPerDay - tz * 60000;
           Oasis.iso := takeWhile notT (toISOString (20119 * msPerDay - tz * 60000));
           Oasis.formatted := "31/01/2025" |}.
Proof.
  intros Htz. unfold Oasis.parseExpiryDate.
  change (parseInt (substring "250131" 0 2) 10) with (Some 25).
  change (parseInt (substring "250131" 2 4) 10) with (Some 1).
  change (parseInt (substring "250131" 4 6) 10) with (Some 31).
  cbn [mbind option_bind].
  change (if 50 <=? 25 then 1900 + 25 else 2000 + 25) with 2025.
  change (1 - 1) with 0.
  rewrite newDate_value; [done | lia | by vm_compute | done].
Qed.

(** East of Greenwich the local midnight falls on the previous UTC day. *)
Lemma oasis_250131_east tz :
  0 < tz ≤ 1440 →
  ∃ t, Oasis.parseExpiryDate tz "250131" =
         inr {| Oasis.date := t; Oasis.iso := "2025-01-30";
                Oasis.formatted := "31/01/2025" |}.
Proof.
  intros Htz. rewrite oasis_250131 by lia. eexists. do 2 f_equal.
  apply (iso_date_part _ 2025 1 30); [| done].
  replace ((20119 * msPerDay - tz * 60000) / msPerDay) with 20118; [done |].
  unfold msPerDay. apply Z.div_unique with (r := 86400000 - tz * 60000); lia.
Qed.

Lemma oasis_250131_west tz :
  -1440 < tz ≤ 0 →
  ∃ t, Oasis.parseExpiryDate tz "250131" =
         inr {| Oasis.date := t; Oasis.iso := "2025-01-31";
                Oasis.formatted := "31/01/2025" |}.
Proof.
  intros Htz. rewrite oasis_250131 by lia. eexists. do 2 f_equal.
  apply (iso_date_part _ 2025 1 31); [| done].
  replace ((20119 * msPerDay - tz * 60000) / msPerDay) with 20119; [done |].
  unfold msPerDay. apply Z.div_unique with (r := - tz * 60000); lia.
Qed.

Lemma all_iso_checks :
  forallb (λ yy, forallb (isoChecks yy) (seqZ 1 12)) (seqZ 0 100) = true.
Proof. vm_compute. reflexivity. Qed.

Lemma isoChecks_spec yy mm :
  isoChecks yy mm = true →
  let year := oasisYear yy in
  let dim := daysInMonth year mm in
  civilFromDays (MakeDay year (mm - 1) dim - 1) = (year, mm, dim - 1) ∧
  isoYear year = pretty year ∧
  allChars notT (pretty year +:+ "-" +:+ pad2 mm +:+ "-" +:+ pad2 dim) = true ∧
  allChars notT (pretty year +:+ "-" +:+ pad2 mm +:+ "-" +:+ pad2 (dim - 1)) = true.
Proof.
  unfold isoChecks. cbv zeta. rewrite !andb_true_iff.
  rewrite bool_decide_eq_true, String.eqb_eq. tauto.
Qed.

(** The Oasis tracker on a field whose day is [00]: the [Date] is the local
    midnight of the last day of the month, which [formatted] shows; the
    [iso] string, printed in UTC, shows that day at or west of UTC and the
    day before it east of UTC. *)
Lemma oasis_day_zero_iso tz yy mm :
  Z.abs tz ≤ 1440 → 0 ≤ yy ≤ 99 → 1 ≤ mm ≤ 12 →
  let year := oasisYear yy in
  let dim := daysInMonth year mm in
  ∃ p, Oasis.parseExpiryDate tz (expiryField yy mm 0) = inr p ∧
       localCivil tz (Oasis.date p) = (year, mm, dim) ∧
       Oasis.formatted p = pad2 dim +:+ "/" +:+ pad2 mm +:+ "/" +:+ pretty year ∧
       (-1440 < tz ≤ 0 →
        Oasis.iso p = pretty year +:+ "-" +:+ pad2 mm +:+ "-" +:+ pad2 dim) ∧
       (0 < tz →
        Oasis.iso p = pretty year +:+ "-" +:+ pad2 mm +:+ "-" +:+ pad2 (dim - 1)).
Proof.
  intros Htz Hyy Hmm year dim.
  pose proof (dayZeroChecks_spec 10 oasisYear yy mm
                (dayZeroChecks_in _ _ _ _ all_checks_oasis Hyy Hmm))
    as (P1 & P2 & P3 & Hy & HD & HD' & Hdim & Hciv).
  pose proof (isoChecks_spec yy mm
                (forallb2_seqZ isoChecks 0 100 1 12 yy mm all_iso_checks
                   ltac:(lia) ltac:(lia)))
    as (Hprev & Hyear & Ha & Ha').
  unfold Oasis.parseExpiryDate. rewrite P1, P2, P3.
  cbn [mbind option_bind]. fold (oasisYear yy).
  rewrite getDate_newDate by done. rewrite Hdim.
  rewrite newDate_value by done.
  eexists. split; [reflexivity |]. cbn [Oasis.date Oasis.formatted Oasis.iso].
  split; [by rewrite localCivil_midnight, Hciv |]. split; [reflexivity |].
  change (takeWhile (λ c, negb (Ascii.eqb c "T")))
    with (takeWhile notT).
  subst year dim.
  set (year := oasisYear yy) in *. set (dim := daysInMonth year mm) in *.
  set (D := MakeDay year (mm - 1) dim) in *.
  rewrite <- Hyear in Ha, Ha' |- *.
  split; intros Ht.
  - apply iso_date_part; [| exact Ha].
    replace ((D * msPerDay - tz * 60000) / msPerDay) with D; [exact Hciv |].
    unfold msPerDay. apply Z.div_unique with (r := - tz * 60000); lia.
  - apply iso_date_part; [| exact Ha'].
    replace ((D * msPerDay - tz * 60000) / msPerDay) with (D - 1); [exact Hprev |].
    unfold msPerDay. apply Z.div_unique with (r := 86400000 - tz * 60000); lia.
Qed.

End ExpiryFacts.

(** C5.  The Backwall Tracker parses the expiry field "250131" to the ISO
    date "2025-01-31" in every zone.  The Oasis tracker builds the local
    midnight of 31 January 2025 and prints it in UTC: it yields
    "2025-01-31" at UTC, and "2025-01-30" four hours east of it, next to
    the formatted date "31/01/2025". *)
Theorem C5_expiry_250131 :
  (∀ tz, Tracker.parseExpiryDate tz "250131" =
           {| Tracker.iso := "2025-01-31"; Tracker.ddmmyy := "310125";
              Tracker.display := "31/01/2025" |}) ∧
  Oasis.parseExpiryDate 0 "250131" =
    inr {| Oasis.date := 1738281600000; Oasis.iso := "2025-01-31";
           Oasis.formatted := "31/01/2025" |} ∧
  Oasis.parseExpiryDate 240 "250131" =
    inr {| Oasis.date := 1738267200000; Oasis.iso := "2025-01-30";
           Oasis.formatted := "31/01/2025" |}.
Proof.
  split; [| split].
  - intros tz. reflexivity.
  - vm_compute. reflexivity.
  - vm_compute. reflexivity.
Qed.

(** C6.  A field whose day is "00" resolves to the last day of its month,
    as the calendar gives it (28, 29, 30 or 31), for every year [yy] and
    month: the Backwall Tracker prints that day in its three strings, and
    the [Date] of the Oasis tracker is the local midnight of that day, which
    its formatted string shows.  The [iso] string of the Oasis tracker,
    printed in UTC, shows that day at or west of UTC and the day before it
    east of UTC.  In particular "250200" resolves to 28 February 2025,
    except in the [iso] string of the Oasis tracker east of UTC, which is
    "2025-02-27". *)
Theorem C6_day_zero_is_month_end (tz yy mm : Z) :
  Z.abs tz ≤ 1440 → 0 ≤ yy ≤ 99 → 1 ≤ mm ≤ 12 →
  let s := Aux.expiryField yy mm 0 in
  let ty := Aux.trackerYear yy in
  let oy := Aux.oasisYear yy in
  let pad2 := JSDate.pad2 in
  Tracker.parseExpiryDate tz s =
    {| Tracker.iso :=
         pretty ty +:+ "-" +:+ pad2 mm +:+ "-" +:+ pad2 (Aux.daysInMonth ty mm);
       Tracker.ddmmyy := pad2 (Aux.daysInMonth ty mm) +:+ pad2 mm +:+ pad2 yy;
       Tracker.display :=
         pad2 (Aux.daysInMonth ty mm) +:+ "/" +:+ pad2 mm +:+ "/" +:+ pretty ty |} ∧
  (∃ p, Oasis.parseExpiryDate tz s = inr p ∧
        JSDate.localCivil tz (Oasis.date p) = (oy, mm, Aux.daysInMonth oy mm) ∧
        Oasis.formatted p =
          pad2 (Aux.daysInMonth oy mm) +:+ "/" +:+ pad2 mm +:+ "/" +:+ pretty oy ∧
        (-1440 < tz ≤ 0 →
         Oasis.iso p =
           pretty oy +:+ "-" +:+ pad2 mm +:+ "-" +:+ pad2 (Aux.daysInMonth oy mm)) ∧
        (0 < tz →
         Oasis.iso p =
           pretty oy +:+ "-" +:+ pad2 mm +:+ "-" +:+
           pad2 (Aux.daysInMonth oy mm - 1))) ∧
  Tracker.iso (Tracker.parseExpiryDate tz "250200") = "2025-02-28" ∧
  (∃ p, Oasis.parseExpiryDate tz "250200" = inr p ∧
        JSDate.localCivil tz (Oasis.date p) = (2025, 2, 28) ∧
        Oasis.formatted p = "28/02/2025" ∧
        (-1440 < tz ≤ 0 → Oasis.iso p = "2025-02-28") ∧
        (0 < tz → Oasis.iso p = "2025-02-27")).
Proof.
  intros Htz Hyy Hmm s ty oy pad2.
  split; [by apply tracker_day_zero |].
  split; [by apply oasis_day_zero_iso |].
  split.
  - change "250200" with (Aux.expiryField 25 2 0).
    rewrite tracker_day_zero by (done || lia). vm_compute. reflexivity.
  - change "250200" with (Aux.expiryField 25 2 0).
    destruct (oasis_day_zero_iso tz 25 2) as (p & Hp & Hc & Hf & Hw & He);
      [done | lia | lia |].
    exists p. split; [exact Hp |]. split; [exact Hc |].
    split; [rewrite Hf; vm_compute; reflexivity |].
    split; intros Ht.
    + rewrite (Hw Ht). vm_compute. reflexivity.
    + rewrite (He Ht). vm_compute. reflexivity.
Qed.

Lemma C6_day_zero_is_month_end_witness :
  Tracker.iso (Tracker.parseExpiryDate 240 "250200") = "2025-02-28" ∧
  ∃ p, Oasis.parseExpiryDate 240 "250200" = inr p ∧
       Oasis.formatted p = "28/02/2025" ∧
       Oasis.iso p = "2025-02-27".
Proof.
  destruct (C6_day_zero_is_month_end 240 25 2) as (_ & _ & Ht & p & Hp & _ & Hf & _ & He);
    [lia | lia | lia |].
  split; [exact Ht |].
  exists p. split; [exact Hp |]. split; [exact Hf |]. apply He. lia.
Defined.

(** ** The loop of [convertToParenthesized] *)
Section ConvertFacts.
Import JS Oasis.

Lemma indexOfFrom0_ge s p i j : indexOfFrom0 s p i = Some j → (i ≤ j)%nat.
Proof.
  revert i. induction s as [|c s IH]; intros i; cbn [indexOfFrom0].
  - destruct (String.prefix p ""); [intros [= <-]; lia | done].
  - destruct (String.prefix p (String c s)); [intros [= <-]; lia |].
    intros H. apply IH in H. lia.
Qed.

Lemma indexOf_ge s p from j :
  indexOf s p from = Some j → (Nat.min from (String.length s) ≤ j)%nat.
Proof. unfold indexOf. apply indexOfFrom0_ge. Qed.

(** Every iteration advances [pos]: fuel beyond the characters that
    remain is never used. *)
Lemma convertLoop_fuel code fuel1 fuel2 pos result :
  (String.length code - pos ≤ fuel1)%nat →
  (String.length code - pos ≤ fuel2)%nat →
  convertLoop code fuel1 pos result = convertLoop code fuel2 pos result.
Proof.
  revert fuel2 pos result.
  induction fuel1 as [|f1 IH]; intros fuel2 pos result H1 H2.
  - destruct fuel2 as [|f2]; [done |]. cbn [convertLoop].
    by replace (pos <? String.length code)%nat with false
      by (symmetry; apply Nat.ltb_ge; lia).
  - destruct fuel2 as [|f2].
    + cbn [convertLoop].
      by replace (pos <? String.length code)%nat with false
        by (symmetry; apply Nat.ltb_ge; lia).
    + cbn [convertLoop].
      destruct (pos <? String.length code)%nat eqn:Hpos; [| done].
      apply Nat.ltb_lt in Hpos.
      destruct (List.find _ aiLengths) as [[ai [n|]]|] eqn:Hfind.
      * apply find_some in Hfind as [Hin _]. cbn [aiLengths In] in Hin.
        assert (1 ≤ n)%nat as Hn.
        { repeat (destruct Hin as [Hin | Hin];
                  [first [discriminate Hin | injection Hin as <- <-; lia] |]).
          done. }
        apply IH; lia.
      * destruct (indexOf code "|" (pos + String.length ai)) as [sep|] eqn:Hsep.
        -- apply indexOf_ge in Hsep. apply IH; lia.
        -- apply IH; lia.
      * apply IH; lia.
Qed.

(** [convertToParenthesized] with any fuel that covers the string. *)
Lemma convertToParenthesized_fuel code fuel :
  (String.length code ≤ fuel)%nat →
  convertToParenthesized code =
    let result := convertLoop code fuel 0 "" in
    if truthy result then result else code.
Proof.
  intros H. unfold convertToParenthesized.
  by rewrite (convertLoop_fuel code (String.length code) fuel 0 "") by lia.
Qed.

End ConvertFacts.

(** ** More about the matcher *)
Section MatcherIndexFacts.
Import JS Matcher Aux.

Lemma last_filter_cons {A} (f : A → bool) x l :
  last (List.filter f (x :: l)) =
    match last (List.filter f l) with
    | Some y => Some y
    | None => if f x then Some x else None
    end.
Proof.
  cbn [List.filter]. destruct (f x); [| by destruct (last _)].
  destruct (List.filter f l) as [|y l'] eqn:E; [done |].
  rewrite last_cons. by destruct (last (y :: l')).
Qed.

Lemma lookup_indexProduct m p k :
  indexProduct m p !! k = if hasCode k p then Some p else m !! k.
Proof.
  unfold indexProduct, hasCode. destruct (hasBarcode p); [| done].
  cbn [andb]. destruct (String.eqb_spec (trim (orEmpty (barcode p))) k) as [->|Hne].
  - apply lookup_insert_eq.
  - by apply lookup_insert_ne.
Qed.

Lemma lookup_fold_indexProduct ps m k :
  fold_left indexProduct ps m !! k =
    match last (List.filter (hasCode k) ps) with
    | Some p => Some p
    | None => m !! k
    end.
Proof.
  revert m. induction ps as [|p ps IH]; intros m; [done |].
  cbn [fold_left]. rewrite IH, last_filter_cons.
  destruct (last (List.filter (hasCode k) ps)); [done |].
  rewrite lookup_indexProduct. by destruct (hasCode k p).
Qed.

Lemma last_filter_Some {A} (f : A → bool) l x :
  last (List.filter f l) = Some x → x ∈ l ∧ f x = true.
Proof.
  intros H. apply last_Some_elem_of in H.
  by apply elem_of_filter_bool in H.
Qed.

Lemma last_filter_is_Some {A} (f : A → bool) l x :
  x ∈ l → f x = true → is_Some (last (List.filter f l)).
Proof.
  intros Hin Hf.
  assert (x ∈ List.filter f l) as H by (by apply elem_of_filter_bool).
  destruct (List.filter f l) as [|y l'] eqn:E; [by apply elem_of_nil in H |].
  apply last_is_Some. done.
Qed.

End MatcherIndexFacts.

(** X1.  After [init], [matchExact] returns the last product of the
    catalog whose trimmed barcode is the trimmed code, and [null] when
    there is none: a later product shadows an earlier one with the same
    barcode, a product without a barcode is never returned, and every
    product with a barcode is answered for by its own barcode. *)
Theorem X1_matchExact_last_wins (ps : list product) (m0 : Matcher.matcher)
    (code : string) :
  let m := Matcher.init (Some ps) m0 in
  Matcher.matchExact m code =
    inr (last (List.filter (Aux.hasCode (JS.trim code)) ps)) ∧
  (∀ p, Matcher.matchExact m code = inr (Some p) →
        p ∈ ps ∧ Matcher.hasBarcode p = true ∧
        JS.trim (JS.orEmpty (barcode p)) = JS.trim code) ∧
  (∀ p, p ∈ ps → Matcher.hasBarcode p = true →
        ∃ p', Matcher.matchExact m (JS.orEmpty (barcode p)) = inr (Some p') ∧
              JS.trim (JS.orEmpty (barcode p')) = JS.trim (JS.orEmpty (barcode p))).
Proof.
  intros m.
  assert (∀ c, Matcher.matchExact m c =
               inr (last (List.filter (Aux.hasCode (JS.trim c)) ps))) as Heq.
  { intros c. rewrite (ready_matchExact m c (ready_init ps m0)).
    cbn [m Matcher.init Matcher._barcodeMap].
    rewrite lookup_fold_indexProduct.
    by destruct (last _). }
  split; [apply Heq |]. split.
  - intros p. rewrite Heq. intros [= H].
    apply last_filter_Some in H as [Hin Hc].
    unfold Aux.hasCode in Hc. apply andb_true_iff in Hc as [Hb Hc].
    by apply String.eqb_eq in Hc.
  - intros p Hin Hb. rewrite Heq.
    destruct (last_filter_is_Some
                (Aux.hasCode (JS.trim (JS.orEmpty (barcode p)))) ps p Hin)
      as [p' Hp'].
    { unfold Aux.hasCode. rewrite Hb. apply String.eqb_refl. }
    exists p'. split; [by rewrite Hp' |].
    apply last_filter_Some in Hp' as [_ Hc].
    unfold Aux.hasCode in Hc. apply andb_true_iff in Hc as [_ Hc].
    by apply String.eqb_eq in Hc.
Qed.

Section NameSearchFacts.
Import JS Matcher Aux.

Lemma sliceTo_take {A} (a : list A) n : ∃ k, sliceTo a n = take k a.
Proof. unfold sliceTo. destruct (n <? 0); by eexists. Qed.

Lemma length_sliceTo {A} (a : list A) n :
  0 ≤ n → length (sliceTo a n) = Nat.min (Z.to_nat n) (length a).
Proof.
  intros H. unfold sliceTo. replace (n <? 0) with false by lia.
  apply length_take.
Qed.

Lemma StronglySorted_take {A} (R : A → A → Prop) k l :
  StronglySorted R l → StronglySorted R (take k l).
Proof.
  intros H. revert k. induction H as [|x l Hl IH Hx]; intros [|k];
    cbn [take]; try constructor; [apply IH |].
  apply Forall_take. done.
Qed.

Lemma nameScore_range q words p :
  0 ≤ nameScore q words p ≤ 3.
Proof.
  unfold nameScore.
  destruct (String.eqb _ _); [lia |].
  destruct (includes _ _); [lia |].
  destruct (forallb _ _); lia.
Qed.

Lemma scoreOf_Some q words p s :
  scoreOf q words p = Some s →
  item s = p ∧ _score s = nameScore q words p ∧ 1 ≤ _score s ≤ 3.
Proof.
  unfold scoreOf. pose proof (nameScore_range q words p).
  destruct (0 <? nameScore q words p) eqn:E; [| done].
  apply Z.ltb_lt in E. intros [= <-]. cbn [item _score].
  split; [done |]. split; [done | lia].
Qed.

Lemma elem_of_omap_scoreOf q words (ps : list product) s :
  s ∈ omap (scoreOf q words) ps →
  item s ∈ ps ∧ _score s = nameScore q words (item s) ∧ 1 ≤ _score s ≤ 3.
Proof.
  intros H. apply list_elem_of_omap in H as (p & Hp & Hs).
  apply scoreOf_Some in Hs as (<- & Hs & Hr). done.
Qed.

End NameSearchFacts.

(** X2.  The results of [matchByName] are products of the catalog with
    their scores under the rule, each score being 1, 2 or 3; they are in
    descending order of score; there are at most [limit] of them.  They
    are the first elements of the list [full] of all the products with a
    positive score, put in descending order of score, those of equal
    score in the order of the catalog: a product left out by the limit
    never has a higher score than one returned.  They are all of them when
    [limit] is large enough. *)
Theorem X2_matchByName_ranked (m : Matcher.matcher) (query : string)
    (limit : Z) (out : list Matcher.scored) :
  Matcher.matchByName m query limit = inr out →
  let q := JS.toUpperCase (JS.trim query) in
  let words := List.filter JS.truthy (JS.splitWs q) in
  let hits := omap (Aux.scoreOf q words) (Matcher.products m) in
  Forall (λ s, Matcher.item s ∈ Matcher.products m ∧
               Matcher._score s = Matcher.nameScore q words (Matcher.item s) ∧
               1 ≤ Matcher._score s ≤ 3) out ∧
  StronglySorted Aux.byScore out ∧
  (0 ≤ limit → (length out ≤ Z.to_nat limit)%nat) ∧
  (∃ full, out = JS.sliceTo full limit ∧ full ≡ₚ hits ∧
           StronglySorted Aux.byScore full ∧
           ∀ k, List.filter (Aux.scoreIs k) full = List.filter (Aux.scoreIs k) hits) ∧
  ((length hits ≤ Z.to_nat limit)%nat → out ≡ₚ hits).
Proof.
  intros H q words hits.
  assert (Matcher._ready m = true) as Hr.
  { unfold Matcher.matchByName, Matcher._checkReady in H.
    by destruct (Matcher._ready m). }
  rewrite (ready_matchByName m query limit Hr) in H. injection H as <-.
  fold q words. rewrite nameLoop_omap. cbn [app]. fold hits.
  set (full := JS.sortDesc Matcher._score hits).
  pose proof (sortDesc_Permutation Matcher._score hits) as Hperm. fold full in Hperm.
  pose proof (sortDesc_sorted Matcher._score hits) as Hsort. fold full in Hsort.
  destruct (sliceTo_take full limit) as [k Hk].
  split; [| split; [| split; [| split]]].
  - rewrite Hk. apply Forall_take. rewrite Hperm.
    apply Forall_forall. intros s Hs. by apply elem_of_omap_scoreOf.
  - rewrite Hk. by apply StronglySorted_take.
  - intros Hl. rewrite length_sliceTo by done. lia.
  - exists full. split; [done |]. split; [done |]. split; [done |].
    intros k'. apply sortDesc_stable.
  - intros Hl. unfold JS.sliceTo.
    destruct (limit <? 0) eqn:E.
    + apply Z.ltb_lt in E. assert (hits = []) as ->.
      { destruct hits; [done |]. cbn [length] in Hl. lia. }
      done.
    + rewrite take_ge; [done |]. by rewrite Hperm.
Qed.

Lemma X2_matchByName_ranked_witness :
  let m := Matcher.init (Some [Aux.panadolExtra None None;
                               Product None (Some "Panadol") None]) Matcher.new in
  Matcher.matchByName m "panadol" 1 =
    inr [Matcher.Scored (Product None (Some "Panadol") None) 3] ∧
  ∃ full,
    [Matcher.Scored (Product None (Some "Panadol") None) 3] = JS.sliceTo full 1 ∧
    full ≡ₚ [Matcher.Scored (Aux.panadolExtra None None) 2;
             Matcher.Scored (Product None (Some "Panadol") None) 3] ∧
    StronglySorted Aux.byScore full.
Proof.
  intros m. split; [reflexivity |].
  destruct (X2_matchByName_ranked m "panadol" 1
              [Matcher.Scored (Product None (Some "Panadol") None) 3] eq_refl)
    as (_ & _ & _ & (full & Hout & Hperm & Hsort & _) & _).
  exists full. split; [exact Hout |]. split; [exact Hperm | exact Hsort].
Defined.

Section BlankQueryFacts.
Import JS Matcher Aux.

Lemma prefix_empty s : String.prefix "" s = true.
Proof. by destruct s. Qed.

Lemma includes_empty s : includes s "" = true.
Proof. destruct s; cbn [includes]; by rewrite prefix_empty. Qed.

Lemma nameScore_blank p : 2 ≤ nameScore "" [] p.
Proof.
  unfold nameScore. destruct (String.eqb _ _); [lia |].
  rewrite includes_empty. lia.
Qed.

Lemma omap_scoreOf_blank (ps : list product) :
  omap (scoreOf "" []) ps = map (λ p, Scored p (nameScore "" [] p)) ps.
Proof.
  induction ps as [|p ps IH]; [done |].
  cbn [omap list_omap map]. unfold scoreOf at 1.
  pose proof (nameScore_blank p).
  replace (0 <? nameScore "" [] p) with true by lia.
  by rewrite <- IH.
Qed.

End BlankQueryFacts.

(** X3.  A query that is empty or blank matches every product: each one
    scores 2 (3 when it has no name), so [matchByName] returns
    [min(limit, n)] of the [n] products, and [smartMatch] answers [name]
    unless the catalog is empty or [limit] is zero. *)
Theorem X3_blank_query_matches_all (m : Matcher.matcher) (query : string)
    (limit : Z) :
  Matcher._ready m = true →
  JS.trim query = "" →
  0 ≤ limit →
  ∃ out,
    Matcher.matchByName m query limit = inr out ∧
    Forall (λ s, 2 ≤ Matcher._score s) out ∧
    length out = Nat.min (Z.to_nat limit) (length (Matcher.products m)) ∧
    Matcher.smartMatch m query limit =
      inr (match out with
           | [] => Matcher.SmartResult Matcher.no_match []
           | _ => Matcher.SmartResult Matcher.by_name (Matcher.WithScore <$> out)
           end).
Proof.
  intros Hr Hq Hl.
  pose proof (ready_matchByName m query limit Hr) as Hn.
  rewrite Hq in Hn.
  change (JS.toUpperCase "") with "" in Hn.
  change (List.filter JS.truthy (JS.splitWs "")) with (@nil string) in Hn.
  rewrite nameLoop_omap in Hn. cbn [app] in Hn.
  rewrite omap_scoreOf_blank in Hn.
  eexists. split; [exact Hn |].
  pose proof (sortDesc_Permutation Matcher._score
                (map (λ p, Matcher.Scored p (Matcher.nameScore "" [] p))
                   (Matcher.products m))) as Hperm.
  split; [| split].
  - destruct (sliceTo_take
                (JS.sortDesc Matcher._score
                   (map (λ p, Matcher.Scored p (Matcher.nameScore "" [] p))
                      (Matcher.products m))) limit) as [k ->].
    apply Forall_take. rewrite Hperm. apply Forall_map, Forall_forall.
    intros p _. apply nameScore_blank.
  - rewrite length_sliceTo by done. by rewrite Hperm, length_map.
  - rewrite (ready_smartMatch m query limit _ _ _
               (ready_matchExact m query Hr) (ready_matchSeries m query limit Hr) Hn).
    rewrite Hq. done.
Qed.

Lemma X3_blank_query_matches_all_witness :
  Matcher.matchByName Aux.exampleMatcher "   " 1 =
    inr [Matcher.Scored Aux.panadol 2].
Proof.
  destruct (X3_blank_query_matches_all Aux.exampleMatcher "   " 1)
    as (out & H & _); [reflexivity | reflexivity | lia |].
  rewrite H. vm_compute in H. injection H as <-. reflexivity.
Defined.

(** X4.  What [smartMatch] returns determines which search answered: the
    results are empty exactly when the type is [no_match]; [exact_barcode]
    carries the one product of [matchExact]; [series_barcode] carries the
    products of [matchSeries], at least one, and only for a query of
    digits; [name] carries the scored products of [matchByName]. *)
Theorem X4_smartMatch_shape (m : Matcher.matcher) (query : string)
    (limit : Z) (r : Matcher.smartResult) :
  Matcher.smartMatch m query limit = inr r →
  (Matcher.results r = [] ↔ Matcher.type r = Matcher.no_match) ∧
  (Matcher.type r = Matcher.exact_barcode →
   JS.isDigits1 (JS.trim query) = true ∧
   ∃ p, Matcher.matchExact m query = inr (Some p) ∧
        Matcher.results r = [Matcher.Plain p]) ∧
  (Matcher.type r = Matcher.series_barcode →
   JS.isDigits1 (JS.trim query) = true ∧
   Matcher.matchExact m query = inr None ∧
   ∃ series, Matcher.matchSeries m query limit = inr series ∧ series ≠ [] ∧
             Matcher.results r = Matcher.Plain <$> series) ∧
  (Matcher.type r = Matcher.by_name →
   ∃ byName, Matcher.matchByName m query limit = inr byName ∧ byName ≠ [] ∧
             Matcher.results r = Matcher.WithScore <$> byName).
Proof.
  intros H.
  assert (Matcher._ready m = true) as Hr.
  { unfold Matcher.smartMatch, Matcher._checkReady in H.
    by destruct (Matcher._ready m). }
  pose proof (ready_matchExact m query Hr) as He.
  pose proof (ready_matchSeries m query limit Hr) as Hs.
  pose proof (ready_matchByName m query limit Hr) as Hn.
  rewrite (ready_smartMatch m query limit _ _ _ He Hs Hn) in H.
  injection H as <-. rewrite He, Hs, Hn. unfold Aux.dispatch.
  destruct (JS.isDigits1 (JS.trim query));
    [destruct (Matcher._barcodeMap m !! JS.trim query) as [p|];
     [| destruct (Matcher.seriesLoop _ _ _ _) as [|s0 series]] |];
    try destruct (JS.sliceTo _ _) as [|b0 byName];
    cbn [Matcher.results Matcher.type];
    (split; [split; intros; discriminate || done |]);
    (split; [intros; discriminate || (split; [done |]; eexists; split; done) |]);
    (split; [intros; discriminate ||
               (split; [done |]; split; [done |]; eexists; split; [done |]; split; done) |]);
    intros; discriminate || (eexists; split; [done |]; split; done).
Qed.

Lemma X4_smartMatch_shape_witness :
  Matcher.matchExact Aux.exampleMatcher "062911091201" = inr None.
Proof.
  destruct (X4_smartMatch_shape Aux.exampleMatcher "062911091201" 10
              (Matcher.SmartResult Matcher.series_barcode [Matcher.Plain Aux.panadol]))
    as (_ & _ & H & _); [reflexivity |].
  apply H. reflexivity.
Defined.

(** ** The content of the master index of the Backwall Tracker *)
Section TrackerContentFacts.
Import JS Tracker Aux.

Lemma lookup_setIf {V} c (m : gmap string V) k' v k :
  setIf c k' v m !! k = if c && String.eqb k' k then Some v else m !! k.
Proof.
  unfold setIf. destruct c; [| done]. cbn [andb].
  destruct (String.eqb_spec k' k) as [->|Hne].
  - apply lookup_insert_eq.
  - by apply lookup_insert_ne.
Qed.

Lemma lookup_insert_eqb {V} (m : gmap string V) k' v k :
  <[k' := v]> m !! k = if String.eqb k' k then Some v else m !! k.
Proof. apply (lookup_setIf true). Qed.

(** One record: its aliases take its name, the other keys keep theirs. *)
Lemma exact_indexItem_lookup idx item k :
  exact (indexItem idx item) !! k =
    if isAlias k item then Some (itemName item) else exact idx !! k.
Proof.
  unfold indexItem, isAlias, indexed.
  destruct (truthy (itemBarcode item)) eqn:Hb,
    (truthy (itemRms item)) eqn:Hr, (truthy (itemName item)) eqn:Hn;
    cbn [negb andb orb pushAll storeRms storeBarcode exact];
    rewrite ?lookup_insert_eqb, ?lookup_setIf, ?lookup_insert_eqb;
    rewrite ?orb_false_r, ?andb_false_r; try done.
  - destruct (String.eqb (itemRms item) k); [by rewrite orb_true_r |].
    rewrite orb_false_r.
    destruct ((5 <=? String.length (stripLeadingZeros (itemBarcode item)))%nat
              && String.eqb (stripLeadingZeros (itemBarcode item)) k);
      [by rewrite orb_true_r |].
    rewrite orb_false_r.
    destruct (startsWith (padStart (itemBarcode item) 14 "0") "0"
              && String.eqb (substringFrom (padStart (itemBarcode item) 14 "0") 1) k);
      [by rewrite orb_true_r |].
    rewrite orb_false_r.
    destruct (String.eqb (padStart (itemBarcode item) 14 "0") k);
      [by rewrite orb_true_r |].
    rewrite orb_false_r. done.
  - destruct ((5 <=? String.length (stripLeadingZeros (itemBarcode item)))%nat
              && String.eqb (stripLeadingZeros (itemBarcode item)) k);
      [by rewrite orb_true_r |].
    rewrite orb_false_r.
    destruct (startsWith (padStart (itemBarcode item) 14 "0") "0"
              && String.eqb (substringFrom (padStart (itemBarcode item) 14 "0") 1) k);
      [by rewrite orb_true_r |].
    rewrite orb_false_r.
    destruct (String.eqb (padStart (itemBarcode item) 14 "0") k);
      [by rewrite orb_true_r |].
    rewrite orb_false_r. done.
Qed.

Lemma exact_fold_lookup md idx k :
  exact (fold_left indexItem md idx) !! k =
    match last (List.filter (isAlias k) md) with
    | Some item => Some (itemName item)
    | None => exact idx !! k
    end.
Proof.
  revert idx. induction md as [|item md IH]; intros idx; [done |].
  cbn [fold_left]. rewrite IH, last_filter_cons.
  destruct (last (List.filter (isAlias k) md)); [done |].
  rewrite exact_indexItem_lookup. by destruct (isAlias k item).
Qed.

Lemma isAlias_indexed k item : isAlias k item = true → indexed item = true.
Proof. unfold isAlias. intros H. by apply andb_true_iff in H as [H _]. Qed.

Lemma indexed_name item : indexed item = true → itemName item ≠ "".
Proof.
  unfold indexed. intros H. apply andb_true_iff in H as [_ H].
  by apply truthy_ne.
Qed.

End TrackerContentFacts.

(** X5.  In the index built from a catalog, [exact] holds under a key the
    name of the last record of the catalog that has the key among its
    aliases, and nothing when no record has: an entry is never empty,
    always names a record of the catalog, and a later record overwrites an
    earlier one that shares a key. *)
Theorem X5_exact_last_alias_wins (md : list product) (k : string) :
  let e := Tracker.exact (Tracker.buildMasterIndex md) in
  e !! k = Tracker.itemName <$> last (List.filter (Aux.isAlias k) md) ∧
  (∀ n, e !! k = Some n →
        n ≠ "" ∧ ∃ item, item ∈ md ∧ Aux.isAlias k item = true ∧
                         Tracker.itemName item = n) ∧
  (∀ pre item, md = pre ++ [item] → Aux.isAlias k item = true →
               e !! k = Some (Tracker.itemName item)).
Proof.
  intros e.
  assert (e !! k = Tracker.itemName <$> last (List.filter (Aux.isAlias k) md))
    as Heq.
  { unfold e, Tracker.buildMasterIndex. rewrite exact_fold_lookup.
    cbn [Tracker.emptyIndex Tracker.exact]. rewrite lookup_empty.
    by destruct (last _). }
  split; [done |]. split.
  - intros n. rewrite Heq.
    destruct (last (List.filter (Aux.isAlias k) md)) as [item|] eqn:E; [| done].
    intros [= <-]. apply last_filter_Some in E as [Hin Ha].
    split; [by apply indexed_name, (isAlias_indexed k) |]. by exists item.
  - intros pre item -> Ha. rewrite Heq, List.filter_app. cbn [List.filter].
    rewrite Ha, last_snoc. done.
Qed.

Section TrackerBucketFacts.
Import JS Tracker Aux.

Lemma last8Candidate_indexed s item c :
  last8Candidate s item = Some c →
  indexed item = true ∧ (8 ≤ String.length (itemBarcode item))%nat ∧
  sliceLast (itemBarcode item) 8 = s ∧
  c = Candidate (itemBarcode item) (itemName item).
Proof.
  unfold last8Candidate.
  destruct (indexed item) eqn:Hi; [| done]. cbn [andb].
  destruct (8 <=? String.length (itemBarcode item))%nat eqn:Hl; [| done].
  cbn [andb].
  destruct (String.eqb_spec (sliceLast (itemBarcode item) 8) s) as [Hs|]; [| done].
  intros [= <-]. apply Nat.leb_le in Hl. done.
Qed.

(** One record: it joins the bucket of its last eight digits, at the end. *)
Lemma last8_indexItem_lookup idx item s :
  last8 (indexItem idx item) !! s =
    match last8Candidate s item with
    | Some c => Some (default [] (last8 idx !! s) ++ [c])
    | None => last8 idx !! s
    end.
Proof.
  rewrite last8_indexItem. unfold last8Candidate, indexed.
  destruct (truthy (itemBarcode item)) eqn:Hb,
    (truthy (itemRms item)) eqn:Hr, (truthy (itemName item)) eqn:Hn;
    cbn [negb andb orb]; try done.
  - cbn [storeBarcode last8].
    destruct (8 <=? String.length (itemBarcode item))%nat; [| done].
    cbn [andb]. rewrite lookup_insert_eqb.
    by destruct (String.eqb_spec (sliceLast (itemBarcode item) 8) s) as [->|].
  - cbn [storeBarcode last8].
    destruct (8 <=? String.length (itemBarcode item))%nat; [| done].
    cbn [andb]. rewrite lookup_insert_eqb.
    by destruct (String.eqb_spec (sliceLast (itemBarcode item) 8) s) as [->|].
  - apply truthy_false in Hb. rewrite Hb. done.
Qed.

Lemma last8_fold_lookup md idx s :
  last8 (fold_left indexItem md idx) !! s =
    match omap (last8Candidate s) md with
    | [] => last8 idx !! s
    | cs => Some (default [] (last8 idx !! s) ++ cs)
    end.
Proof.
  revert idx. induction md as [|item md IH]; intros idx; [done |].
  cbn [fold_left omap list_omap]. rewrite IH, last8_indexItem_lookup.
  destruct (last8Candidate s item) as [c|]; [| done].
  destruct (omap (last8Candidate s) md) as [|c' cs]; [done |].
  change (default [] (Some (default [] (last8 idx !! s) ++ [c])))
    with (default [] (last8 idx !! s) ++ [c]).
  by rewrite <- app_assoc.
Qed.

Lemma last8_build_lookup md s :
  last8 (buildMasterIndex md) !! s =
    match omap (last8Candidate s) md with
    | [] => None
    | cs => Some cs
    end.
Proof.
  unfold buildMasterIndex. rewrite last8_fold_lookup.
  cbn [emptyIndex last8]. rewrite lookup_empty. done.
Qed.

End TrackerBucketFacts.

(** X6.  In the index built from a catalog, the bucket of [last8] under
    eight digits [s] is the list, in catalog order, of the barcode and name
    of every record taken into the index whose barcode has eight digits or
    more and ends in [s]; there is no bucket when there is no such record.
    Nothing is overwritten: a barcode listed twice is twice in its
    bucket. *)
Theorem X6_last8_bucket_content (md : list product) (s : string) :
  let idx := Tracker.buildMasterIndex md in
  Tracker.last8 idx !! s =
    match omap (Aux.last8Candidate s) md with
    | [] => None
    | cs => Some cs
    end ∧
  (∀ bk, Tracker.last8 idx !! s = Some bk →
         bk ≠ [] ∧
         Forall (λ c, (8 ≤ String.length (Tracker.c_barcode c))%nat ∧
                      JS.sliceLast (Tracker.c_barcode c) 8 = s ∧
                      Tracker.c_name c ≠ "") bk) ∧
  (∀ item, Aux.indexed item = true →
           (8 ≤ String.length (Tracker.itemBarcode item))%nat →
           JS.sliceLast (Tracker.itemBarcode item) 8 = s →
           Tracker.last8 (Tracker.buildMasterIndex (md ++ [item])) !! s =
             Some (default [] (Tracker.last8 idx !! s) ++
                   [Tracker.Candidate (Tracker.itemBarcode item)
                      (Tracker.itemName item)])).
Proof.
  intros idx. split; [apply last8_build_lookup |]. split.
  - intros bk. unfold idx. rewrite last8_build_lookup.
    destruct (omap (Aux.last8Candidate s) md) as [|c cs] eqn:E; [done |].
    intros [= <-]. split; [done |]. rewrite <- E.
    apply Forall_forall. intros c' Hc'.
    apply list_elem_of_omap in Hc' as (item & _ & Hc').
    apply last8Candidate_indexed in Hc' as (Hi & Hl & Hs & ->).
    cbn [Tracker.c_barcode Tracker.c_name].
    split; [done |]. split; [done |]. by apply indexed_name.
  - intros item Hi Hl Hs.
    unfold idx, Tracker.buildMasterIndex.
    rewrite fold_left_app. cbn [fold_left].
    rewrite last8_indexItem_lookup. unfold Aux.last8Candidate.
    rewrite Hi, Hs, String.eqb_refl.
    replace (8 <=? String.length (Tracker.itemBarcode item))%nat with true
      by (symmetry; by apply Nat.leb_le).
    done.
Qed.

Section TrackerTierFacts.
Import JS Tracker Aux.

Lemma rmsMap_indexItem_lookup idx item k :
  rmsMap (indexItem idx item) !! k =
    if indexed item && truthy (itemRms item) && String.eqb (itemRms item) k
    then Some (itemName item) else rmsMap idx !! k.
Proof.
  unfold indexItem, indexed.
  destruct (truthy (itemBarcode item)) eqn:Hb,
    (truthy (itemRms item)) eqn:Hr, (truthy (itemName item)) eqn:Hn;
    cbn [negb andb orb pushAll storeRms storeBarcode rmsMap];
    rewrite ?lookup_insert_eqb; done.
Qed.

(** Every key of [rms] is a key of [exact]. *)
Lemma rms_in_exact_fold md idx :
  (∀ k, is_Some (rmsMap idx !! k) → is_Some (exact idx !! k)) →
  ∀ k, is_Some (rmsMap (fold_left indexItem md idx) !! k) →
       is_Some (exact (fold_left indexItem md idx) !! k).
Proof.
  revert idx. induction md as [|item md IH]; intros idx Hinv; [done |].
  cbn [fold_left]. apply IH. intros k.
  rewrite rmsMap_indexItem_lookup, exact_indexItem_lookup.
  unfold isAlias.
  destruct (indexed item); cbn [andb]; [| apply Hinv].
  destruct (truthy (itemRms item)); cbn [andb];
    [| rewrite orb_false_r; destruct (_ && _); [by eexists | apply Hinv]].
  destruct (String.eqb (itemRms item) k);
    [rewrite orb_true_r; by eexists |].
  rewrite orb_false_r. destruct (_ && _); [by eexists | apply Hinv].
Qed.

Lemma rms_in_exact_build md k :
  is_Some (rmsMap (buildMasterIndex md) !! k) →
  is_Some (exact (buildMasterIndex md) !! k).
Proof.
  apply rms_in_exact_fold. intros k'. cbn [emptyIndex rmsMap].
  rewrite lookup_empty. by intros [? ?].
Qed.

Lemma tryExactLoop_None idx codes :
  tryExactLoop idx codes = None → ∀ c, c ∈ codes → exact idx !! c = None.
Proof.
  induction codes as [|code rest IH]; cbn [tryExactLoop];
    [intros _ c Hc; by apply elem_of_nil in Hc |].
  destruct (exact idx !! code) eqn:E; [done |].
  destruct (if (5 <=? String.length (stripLeadingZeros code))%nat
            then exact idx !! stripLeadingZeros code else None); [done |].
  intros H c Hc. apply elem_of_cons in Hc as [-> | Hc]; [done | by apply IH].
Qed.

Lemma tryExactLoop_Some idx codes r :
  tryExactLoop idx codes = Some r →
  m_type r = EXACT ∧ ∃ k, exact idx !! k = Some (m_name r).
Proof.
  induction codes as [|code rest IH]; cbn [tryExactLoop]; [done |].
  destruct (exact idx !! code) as [n|] eqn:E.
  { intros [= <-]. split; [done |]. by exists code. }
  destruct (5 <=? String.length (stripLeadingZeros code))%nat; [| apply IH].
  destruct (exact idx !! stripLeadingZeros code) as [n|] eqn:E'; [| apply IH].
  intros [= <-]. split; [done |]. by exists (stripLeadingZeros code).
Qed.

(** On a built index the [rms] tier has nothing left to find. *)
Lemma tryRms_after_exact md gtin14 gtin13 rawCode :
  tryExactLoop (buildMasterIndex md) (tryExact gtin14 gtin13 rawCode) = None →
  tryRms (buildMasterIndex md) rawCode = None.
Proof.
  intros H. unfold tryRms. destruct rawCode as [raw|]; [| done].
  destruct (truthy raw) eqn:Ht; [| done].
  destruct (rmsMap (buildMasterIndex md) !! raw) as [n|] eqn:E; [| done].
  assert (is_Some (exact (buildMasterIndex md) !! raw)) as [n' Hn']
    by (apply rms_in_exact_build; by eexists).
  rewrite (tryExactLoop_None _ _ H raw) in Hn'; [done |].
  unfold tryExact. apply elem_of_filter_bool. split; [| done].
  cbn [orEmpty default]. apply list_elem_of_In. cbn [In]. auto.
Qed.

Lemma exact_build_Some md k n :
  exact (buildMasterIndex md) !! k = Some n →
  n ≠ "" ∧ ∃ item, item ∈ md ∧ isAlias k item = true ∧ itemName item = n.
Proof.
  unfold buildMasterIndex. rewrite exact_fold_lookup.
  cbn [emptyIndex exact]. rewrite lookup_empty.
  destruct (last (List.filter (isAlias k) md)) as [item|] eqn:E; [| done].
  intros [= <-]. apply last_filter_Some in E as [Hin Ha].
  split; [by apply indexed_name, (isAlias_indexed k) |]. by exists item.
Qed.

(** Once the exact tier has missed, the bucket decides. *)
Lemma matchProduct_after_exact md st0 gtin14 gtin13 rawCode :
  tryExactLoop (buildMasterIndex md) (tryExact gtin14 gtin13 rawCode) = None →
  matchProduct (refreshMasterStats md st0) gtin14 gtin13 rawCode =
    match (if truthy gtin14
           then omap (last8Candidate (sliceLast gtin14 8)) md
           else []) with
    | [c] => Matched (c_name c) LAST8
    | _ => Matched "" NONE
    end.
Proof.
  intros H. unfold matchProduct.
  cbn [refreshMasterStats masterIndex]. rewrite H.
  rewrite (tryRms_after_exact md gtin14 gtin13 rawCode H).
  unfold tryLast8. destruct (truthy gtin14); [| done].
  rewrite last8_build_lookup.
  by destruct (omap _ md) as [|c [|c' cs]].
Qed.

End TrackerTierFacts.

(** X7.  On the index built from a catalog, once the exact tier has
    missed, [matchProduct] is decided by the records whose barcode ends in
    the last eight digits of [gtin14]: [LAST8] with the record's name when
    there is exactly one, and the no-match answer when there is none, when
    there are several, or when [gtin14] is empty. *)
Theorem X7_last8_tier_decides (md : list product) (st0 : Tracker.state)
    (gtin14 gtin13 : string) (rawCode : option string) :
  let st := Tracker.refreshMasterStats md st0 in
  Tracker.tryExactLoop (Tracker.masterIndex st)
    (Tracker.tryExact gtin14 gtin13 rawCode) = None →
  Tracker.matchProduct st gtin14 gtin13 rawCode =
    match (if JS.truthy gtin14
           then omap (Aux.last8Candidate (JS.sliceLast gtin14 8)) md
           else []) with
    | [c] => Tracker.Matched (Tracker.c_name c) Tracker.LAST8
    | _ => Tracker.Matched "" Tracker.NONE
    end.
Proof. intros st. apply matchProduct_after_exact. Qed.

Lemma X7_last8_tier_decides_witness :
  Tracker.matchProduct
    (Tracker.refreshMasterStats
       [Product (Some "1234567890123") (Some "ALPHA") None]
       (Tracker.State Tracker.emptyIndex))
    "00034567890123" "0034567890123" (Some "34567890123")
  = Tracker.Matched "ALPHA" Tracker.LAST8.
Proof.
  rewrite X7_last8_tier_decides; reflexivity.
Defined.

(** X8.  On the index built from a catalog [matchProduct] never answers
    [RMS]: every rms code is also a key of [exact], which is tried first
    with the raw code.  Its answer is [EXACT], [LAST8] or [NONE], and the
    name is empty exactly when the answer is [NONE]. *)
Theorem X8_rms_tier_unreachable (md : list product) (st0 : Tracker.state)
    (gtin14 gtin13 : string) (rawCode : option string) :
  let r := Tracker.matchProduct (Tracker.refreshMasterStats md st0)
             gtin14 gtin13 rawCode in
  Tracker.m_type r ≠ Tracker.RMS ∧
  (Tracker.m_name r = "" ↔ Tracker.m_type r = Tracker.NONE).
Proof.
  intros r. unfold r.
  destruct (Tracker.tryExactLoop (Tracker.buildMasterIndex md)
              (Tracker.tryExact gtin14 gtin13 rawCode)) as [m|] eqn:E.
  - unfold Tracker.matchProduct.
    cbn [Tracker.refreshMasterStats Tracker.masterIndex]. rewrite E.
    apply tryExactLoop_Some in E as [Ht [k Hk]].
    apply exact_build_Some in Hk as [Hne _].
    rewrite Ht. split; [done |]. split; [done | discriminate].
  - rewrite (matchProduct_after_exact md st0 gtin14 gtin13 rawCode E).
    destruct (JS.truthy gtin14); [| done].
    destruct (omap _ md) as [|c [|c' cs]] eqn:E'; [done | | done].
    cbn [Tracker.m_type Tracker.m_name].
    assert (c ∈ omap (Aux.last8Candidate (JS.sliceLast gtin14 8)) md) as Hc
      by (rewrite E'; apply list_elem_of_here).
    apply list_elem_of_omap in Hc as (item & _ & Hc).
    apply last8Candidate_indexed in Hc as (Hi & _ & _ & ->).
    cbn [Tracker.c_name]. apply indexed_name in Hi.
    split; [done |]. split; [done | discriminate].
Qed.

Section TrackerScanFacts.
Import JS Tracker Aux.

Lemma itemBarcode_digits item : allChars isDigit (itemBarcode item) = true.
Proof.
  unfold itemBarcode.
  rewrite (trim_digits _ (allChars_stripNonDigits _)).
  apply allChars_stripNonDigits.
Qed.

(** The decoder on five to fourteen digits. *)
Lemma Tracker_parseGS1_digits tz d :
  allChars isDigit d = true → (5 ≤ String.length d ≤ 14)%nat →
  gtin14 (parseGS1 tz d) = padStart d 14 "0" ∧
  padStart (gtin13 (parseGS1 tz d)) 14 "0" = padStart d 14 "0" ∧
  isGS1 (parseGS1 tz d) = false.
Proof.
  intros Hd [Hlo Hhi]. unfold parseGS1.
  rewrite truthy_length by lia. cbn [negb].
  rewrite (trim_digits _ Hd), (remove_newlines_digits _ Hd).
  rewrite (includes_digits d "(" Hd) by done.
  rewrite (not_raw_gs1_short d) by lia.
  rewrite (stripNonDigits_digits _ Hd).
  replace ((String.length d <=? 14)%nat) with true
    by (symmetry; apply Nat.leb_le; lia).
  replace ((5 <=? String.length d)%nat) with true
    by (symmetry; apply Nat.leb_le; lia).
  destruct (8 <=? String.length d)%nat; cbn [andb gtin14 gtin13 isGS1];
    [| done].
  split; [done |]. split; [| done].
  unfold stripOneZero.
  destruct (startsWith (padStart d 14 "0") "0") eqn:E;
    [| apply padStart_long; rewrite length_padStart; lia].
  unfold startsWith in E.
  destruct (padStart d 14 "0") as [|c s] eqn:E'; [done |].
  cbn [String.prefix] in E. destruct (ascii_dec "0" c) as [<-|]; [| done].
  cbn [substringFrom dropS].
  assert (String.length (String "0" s) = 14%nat) as Hl
    by (rewrite <- E'; apply length_padStart; lia).
  cbn [String.length] in Hl. unfold padStart.
  replace (14 - String.length s)%nat with 1%nat by lia. done.
Qed.

Lemma isAlias_padded item :
  indexed item = true → itemBarcode item ≠ "" →
  isAlias (padStart (itemBarcode item) 14 "0") item = true.
Proof.
  intros Hi Hb. apply truthy_ne in Hb. unfold isAlias.
  rewrite Hi, Hb, String.eqb_refl. cbn [andb orb]. by rewrite orb_true_r.
Qed.

(** A key that some record has as an alias is a key of [exact]. *)
Lemma exact_build_alias md k item :
  item ∈ md → isAlias k item = true →
  ∃ item', item' ∈ md ∧ isAlias k item' = true ∧
           exact (buildMasterIndex md) !! k = Some (itemName item') ∧
           (∀ pre, md = pre ++ [item] → item' = item).
Proof.
  intros Hin Ha. unfold buildMasterIndex. rewrite exact_fold_lookup.
  destruct (last_filter_is_Some (isAlias k) md item Hin Ha) as [item' E].
  rewrite E. exists item'.
  destruct (last_filter_Some _ _ _ E) as [Hin' Ha'].
  split; [done |]. split; [done |]. split; [done |].
  intros pre ->. rewrite List.filter_app in E. cbn [List.filter] in E.
  rewrite Ha, last_snoc in E. by injection E.
Qed.

End TrackerScanFacts.

(** X9.  Scanning the barcode of a catalog record finds it: for a record
    taken into the index whose barcode has five to fourteen digits,
    decoding those digits and matching the result answers [EXACT], with the
    name of a record of the catalog that has the padded barcode among its
    aliases: the record itself when it is the last of the catalog. *)
Theorem X9_scan_finds_catalog_record (tz : Z) (md : list product)
    (st0 : Tracker.state) (item : product) :
  item ∈ md →
  Aux.indexed item = true →
  (5 ≤ String.length (Tracker.itemBarcode item) ≤ 14)%nat →
  let code := Tracker.itemBarcode item in
  let p := Tracker.parseGS1 tz code in
  let r := Tracker.matchProduct (Tracker.refreshMasterStats md st0)
             (Tracker.gtin14 p) (Tracker.gtin13 p) (Some code) in
  Tracker.m_type r = Tracker.EXACT ∧
  ∃ item', item' ∈ md ∧ Aux.isAlias (Tracker.gtin14 p) item' = true ∧
           Tracker.m_name r = Tracker.itemName item' ∧
           (∀ pre, md = pre ++ [item] → item' = item).
Proof.
  intros Hin Hi Hlen code p r.
  destruct (Tracker_parseGS1_digits tz code (itemBarcode_digits item) Hlen)
    as (Hg & _ & _). fold p in Hg.
  assert (code ≠ "") as Hne by (intros E; unfold code in E; rewrite E in Hlen;
                                cbn in Hlen; lia).
  destruct (exact_build_alias md (JS.padStart code 14 "0") item Hin
              (isAlias_padded item Hi Hne)) as (item' & Hin' & Ha & He & Hlast).
  assert (r = Tracker.Matched (Tracker.itemName item') Tracker.EXACT) as ->.
  { unfold r, Tracker.matchProduct, Tracker.tryExact.
    rewrite Hg. cbn [List.filter].
    rewrite (truthy_length (JS.padStart code 14 "0"))
      by (unfold code; rewrite length_padStart; lia).
    cbn [Tracker.tryExactLoop Tracker.refreshMasterStats Tracker.masterIndex].
    by rewrite He. }
  split; [done |]. exists item'. rewrite Hg. done.
Qed.

Lemma X9_scan_finds_catalog_record_witness :
  let md := [Product (Some "629-1109120100") (Some "Panadol") None] in
  let p := Tracker.parseGS1 0 "6291109120100" in
  Tracker.m_type
    (Tracker.matchProduct
       (Tracker.refreshMasterStats md (Tracker.State Tracker.emptyIndex))
       (Tracker.gtin14 p) (Tracker.gtin13 p) (Some "6291109120100"))
  = Tracker.EXACT.
Proof.
  intros md p.
  apply (X9_scan_finds_catalog_record 0 md (Tracker.State Tracker.emptyIndex)
           (Product (Some "629-1109120100") (Some "Panadol") None)).
  - apply list_elem_of_In. simpl. auto.
  - reflexivity.
  - vm_compute. lia.
Defined.

(** ** The content of the master index of the Oasis tracker *)
Section OasisContentFacts.
Import JS Oasis Aux.

Lemma oasis_exact_fold data st k :
  exact (masterIndex (fold_left addItem data st)) !! k =
    match last (List.filter (hasPadded k) data) with
    | Some it => Some it
    | None => exact (masterIndex st) !! k
    end.
Proof.
  revert st. induction data as [|it data IH]; intros st; [done |].
  cbn [fold_left]. rewrite IH, last_filter_cons.
  destruct (last (List.filter (hasPadded k) data)); [done |].
  cbn [addItem masterIndex exact]. rewrite lookup_insert_eqb.
  unfold hasPadded. by destruct (String.eqb _ k).
Qed.

Lemma oasis_masterData_fold data st g :
  masterData (fold_left addItem data st) !! g =
    match last (List.filter (hasGtin g) data) with
    | Some it => Some it
    | None => masterData st !! g
    end.
Proof.
  revert st. induction data as [|it data IH]; intros st; [done |].
  cbn [fold_left]. rewrite IH, last_filter_cons.
  destruct (last (List.filter (hasGtin g) data)); [done |].
  cbn [addItem masterData]. rewrite lookup_insert_eqb.
  unfold hasGtin. by destruct (String.eqb _ g).
Qed.

Lemma oasis_last8_fold data st s :
  last8 (masterIndex (fold_left addItem data st)) !! s =
    match List.filter (endsIn s) data with
    | [] => last8 (masterIndex st) !! s
    | its => Some (default [] (last8 (masterIndex st) !! s) ++ its)
    end.
Proof.
  revert st. induction data as [|it data IH]; intros st; [done |].
  cbn [fold_left List.filter]. rewrite IH.
  cbn [addItem masterIndex last8]. rewrite lookup_insert_eqb.
  change (String.eqb (sliceLast (padStart (gtin it) 14 "0") 8) s)
    with (endsIn s it).
  destruct (endsIn s it) eqn:E; [| reflexivity].
  unfold endsIn in E. apply String.eqb_eq in E. rewrite E.
  destruct (List.filter (endsIn s) data) as [|x its]; [done |].
  change (default [] (Some (default [] (last8 (masterIndex st) !! s) ++ [it])))
    with (default [] (last8 (masterIndex st) !! s) ++ [it]).
  by rewrite <- app_assoc.
Qed.

Lemma oasis_load_exact data st0 k :
  exact (masterIndex (loadMasterData (Some data) st0)) !! k =
    last (List.filter (hasPadded k) data).
Proof.
  cbn [loadMasterData]. rewrite oasis_exact_fold.
  cbn [masterIndex exact]. unfold clear. rewrite lookup_empty.
  by destruct (last _).
Qed.

Lemma oasis_load_last8 data st0 s :
  last8 (masterIndex (loadMasterData (Some data) st0)) !! s =
    match List.filter (endsIn s) data with
    | [] => None
    | its => Some its
    end.
Proof.
  cbn [loadMasterData]. rewrite oasis_last8_fold.
  cbn [masterIndex last8]. unfold clear. rewrite lookup_empty. done.
Qed.

Lemma oasis_load_masterData data st0 g :
  masterData (loadMasterData (Some data) st0) !! g =
    last (List.filter (hasGtin g) data).
Proof.
  cbn [loadMasterData]. rewrite oasis_masterData_fold.
  cbn [masterData]. unfold clear. rewrite lookup_empty.
  by destruct (last _).
Qed.

(** What [matchProduct] answers, read off the store. *)
Lemma oasis_matchProduct_load data st0 gtin14 :
  matchProduct (loadMasterData (Some data) st0) gtin14 =
    match last (List.filter (hasPadded gtin14) data) with
    | Some it => Matched (Some it) Exact
    | None =>
        match List.filter (endsIn (sliceLast gtin14 8)) data with
        | [it] => Matched (Some it) Last8
        | _ => Matched None NoMatch
        end
    end.
Proof.
  unfold matchProduct. rewrite oasis_load_exact, oasis_load_last8.
  destruct (last _); [done |].
  by destruct (List.filter _ data) as [|it [|x its]].
Qed.

End OasisContentFacts.

(** X10.  After [loadMasterData] has read the records [data], whatever
    the state was before: [masterData] holds under a code the last record
    with that code; [exact] holds under a key the last record whose code
    padded to 14 characters is the key; the bucket of [last8] under [s]
    is the list, in the order read, of all the records whose padded code
    ends in [s], and is absent when there is none. *)
Theorem X10_oasis_index_content (data : list Oasis.item) (st0 : Oasis.state)
    (k : string) :
  let st := Oasis.loadMasterData (Some data) st0 in
  Oasis.masterData st !! k = last (List.filter (Aux.hasGtin k) data) ∧
  Oasis.exact (Oasis.masterIndex st) !! k =
    last (List.filter (Aux.hasPadded k) data) ∧
  Oasis.last8 (Oasis.masterIndex st) !! k =
    match List.filter (Aux.endsIn k) data with
    | [] => None
    | its => Some its
    end.
Proof.
  intros st. split; [apply oasis_load_masterData |].
  split; [apply oasis_load_exact | apply oasis_load_last8].
Qed.

(** X11.  The answer of [matchProduct] of the Oasis tracker, read off the
    records of the store: [exact] with the last record whose padded code is
    [gtin14]; failing that, [last8] with the one record whose padded code
    ends in the last eight characters of [gtin14] when there is exactly
    one; otherwise no product and [none]. *)
Theorem X11_oasis_match_decision (data : list Oasis.item)
    (st0 : Oasis.state) (gtin14 : string) :
  Oasis.matchProduct (Oasis.loadMasterData (Some data) st0) gtin14 =
    match last (List.filter (Aux.hasPadded gtin14) data) with
    | Some it => Oasis.Matched (Some it) Oasis.Exact
    | None =>
        match List.filter (Aux.endsIn (JS.sliceLast gtin14 8)) data with
        | [it] => Oasis.Matched (Some it) Oasis.Last8
        | _ => Oasis.Matched None Oasis.NoMatch
        end
    end.
Proof. apply oasis_matchProduct_load. Qed.

(** X12.  Scanning the code of a record of the store finds it: when the
    code has eight to fourteen digits, [parseGS1] accepts it and
    [matchProduct] on the decoded [gtin14] answers [exact] with a record of
    the store that has the same padded code (the last such record). *)
Theorem X12_oasis_scan_finds_record (tz now : Z) (data : list Oasis.item)
    (st0 : Oasis.state) (it : Oasis.item) :
  it ∈ data →
  JS.allChars JS.isDigit (Oasis.gtin it) = true →
  (8 ≤ String.length (Oasis.gtin it) ≤ 14)%nat →
  ∃ p it',
    Oasis.parseGS1 tz now (Oasis.gtin it) = inr p ∧
    Oasis.valid p = true ∧
    Oasis.matchProduct (Oasis.loadMasterData (Some data) st0) (Oasis.gtin14 p)
      = Oasis.Matched (Some it') Oasis.Exact ∧
    it' ∈ data ∧
    JS.padStart (Oasis.gtin it') 14 "0" = JS.padStart (Oasis.gtin it) 14 "0".
Proof.
  intros Hin Hd Hlen.
  destruct (last_filter_is_Some
              (Aux.hasPadded (JS.padStart (Oasis.gtin it) 14 "0")) data it Hin)
    as [it' E]; [apply String.eqb_refl |].
  eexists. exists it'.
  split; [apply (Oasis_parseGS1_plain tz now _ Hd Hlen) |].
  cbn [Oasis.valid Oasis.gtin14]. split; [done |].
  rewrite oasis_matchProduct_load, E. split; [done |].
  apply last_filter_Some in E as [Hin' Hp]. split; [done |].
  by apply String.eqb_eq in Hp.
Qed.

Lemma X12_oasis_scan_finds_record_witness :
  ∃ p,
    Oasis.parseGS1 240 0 "6291109120100" = inr p ∧
    Oasis.matchProduct
      (Oasis.loadMasterData (Some [Oasis.Item "6291109120100" "Panadol"])
         (Oasis.State ∅ (Oasis.Index ∅ ∅)))
      (Oasis.gtin14 p) =
    Oasis.Matched (Some (Oasis.Item "6291109120100" "Panadol")) Oasis.Exact.
Proof.
  destruct (X12_oasis_scan_finds_record 240 0
              [Oasis.Item "6291109120100" "Panadol"]
              (Oasis.State ∅ (Oasis.Index ∅ ∅))
              (Oasis.Item "6291109120100" "Panadol"))
    as (p & it' & Hp & _ & Hm & Hin & _).
  - apply list_elem_of_In. simpl. auto.
  - reflexivity.
  - vm_compute. lia.
  - exists p. split; [exact Hp |]. rewrite Hm.
    apply list_elem_of_singleton in Hin. by rewrite Hin.
Defined.

(** ** The decoder of the Oasis tracker on every input *)
Section CaptureFacts.
Import JS.

Lemma allChars_takeWhile f s : allChars f (takeWhile f s) = true.
Proof.
  induction s as [|c s IH]; [done |]. cbn [takeWhile].
  destruct (f c) eqn:E; [| done]. cbn [allChars]. by rewrite E.
Qed.

Lemma allChars_takeS f n s : allChars f s = true → allChars f (takeS n s) = true.
Proof.
  revert s. induction n as [|n IH]; intros [|c s]; cbn [takeS allChars]; try done.
  intros H. apply andb_true_iff in H as [-> H]. by apply IH.
Qed.

Lemma allChars_append f s t :
  allChars f (s +:+ t) = allChars f s && allChars f t.
Proof.
  induction s as [|c s IH]; [done |].
  change (allChars f (String c (s +:+ t)) = allChars f (String c s) && allChars f t).
  cbn [allChars]. by rewrite IH, andb_assoc.
Qed.

Lemma allChars_repeatChar f c n : f c = true → allChars f (repeatChar c n) = true.
Proof. intros H. induction n as [|n IH]; cbn [repeatChar allChars]; [done | by rewrite H]. Qed.

Lemma allChars_padStart s n :
  allChars isDigit s = true → allChars isDigit (padStart s n "0") = true.
Proof.
  intros H. unfold padStart. rewrite allChars_append, H.
  by rewrite allChars_repeatChar.
Qed.

(** A capture is a run of the class, within the bounds of the quantifier. *)
Lemma captureHere_spec tag cls lo hi s g :
  captureHere tag cls lo hi s = Some g →
  allChars cls g = true ∧
  match hi with
  | Some h => (Nat.min lo h ≤ String.length g ≤ h)%nat
  | None => (lo ≤ String.length g)%nat
  end.
Proof.
  unfold captureHere. destruct (String.prefix tag s); [| done].
  destruct (lo <=? _)%nat eqn:E; [| done]. apply Nat.leb_le in E.
  intros [= <-]. destruct hi as [h|].
  - split; [apply allChars_takeS, allChars_takeWhile |].
    rewrite length_takeS. lia.
  - split; [apply allChars_takeWhile | done].
Qed.

Lemma captureAfter_spec tag cls lo hi s g :
  captureAfter tag cls lo hi s = Some g →
  allChars cls g = true ∧
  match hi with
  | Some h => (Nat.min lo h ≤ String.length g ≤ h)%nat
  | None => (lo ≤ String.length g)%nat
  end.
Proof.
  induction s as [|c s IH]; cbn [captureAfter].
  - destruct (captureHere tag cls lo hi "") eqn:E; [| done].
    intros [= <-]. by apply captureHere_spec in E.
  - destruct (captureHere tag cls lo hi (String c s)) eqn:E; [| apply IH].
    intros [= <-]. by apply captureHere_spec in E.
Qed.

Lemma isDigit_digitChars c : isDigit c = true → c ∈ Aux.digitChars.
Proof.
  intros H. apply list_elem_of_In.
  destruct c as [[] [] [] [] [] [] [] []]; try discriminate H;
    cbn [Aux.digitChars In]; auto 12.
Qed.

Lemma all_two_digits_10 : Aux.allTwoDigits 10 = true.
Proof. vm_compute. reflexivity. Qed.

Lemma all_two_digits_0 : Aux.allTwoDigits 0 = true.
Proof. vm_compute. reflexivity. Qed.

(** Two digits parse to the number they write, which prints back to them. *)
Lemma two_digits radix c1 c2 :
  Aux.allTwoDigits radix = true →
  isDigit c1 = true → isDigit c2 = true →
  ∃ v, parseInt (String c1 (String c2 "")) radix = Some v ∧ 0 ≤ v ≤ 99 ∧
       JSDate.pad2 v = String c1 (String c2 "").
Proof.
  intros Hall H1 H2. unfold Aux.allTwoDigits in Hall.
  rewrite forallb_forall in Hall.
  specialize (Hall c1 (proj1 (list_elem_of_In _ _) (isDigit_digitChars c1 H1))).
  rewrite forallb_forall in Hall.
  specialize (Hall c2 (proj1 (list_elem_of_In _ _) (isDigit_digitChars c2 H2))).
  unfold Aux.twoDigitsCheck in Hall.
  destruct (parseInt _ radix) as [v|]; [| done].
  apply andb_true_iff in Hall as [Hall Hp].
  apply andb_true_iff in Hall as [Hlo Hhi].
  exists v. apply String.eqb_eq in Hp. split; [done |]. split; [lia | done].
Qed.

(** The three pairs of a field of six digits. *)
Lemma six_digits e :
  allChars isDigit e = true → String.length e = 6%nat →
  ∃ a1 a2 b1 b2 c1 c2,
    e = String a1 (String a2 (String b1 (String b2 (String c1 (String c2 ""))))) ∧
    isDigit a1 = true ∧ isDigit a2 = true ∧ isDigit b1 = true ∧
    isDigit b2 = true ∧ isDigit c1 = true ∧ isDigit c2 = true.
Proof.
  intros Hd Hl.
  destruct e as [|a1 [|a2 [|b1 [|b2 [|c1 [|c2 [|x e]]]]]]]; try discriminate Hl.
  cbn [allChars] in Hd. rewrite !andb_true_iff in Hd.
  exists a1, a2, b1, b2, c1, c2. tauto.
Qed.

End CaptureFacts.

Section OasisTotalFacts.
Import JS JSDate Oasis Aux.

Lemma all_expiry_bounds :
  forallb (λ yy, forallb (expiryBoundsAt yy) (seqZ 0 100)) (seqZ 0 100) = true.
Proof. vm_compute. reflexivity. Qed.

Lemma expiryBounds_spec year d0 d1 dim :
  expiryBounds year d0 d1 dim = true →
  100 ≤ year ∧ Z.abs d0 ≤ 90000 ∧ Z.abs d1 ≤ 90000 ∧ 1 ≤ dim ≤ 31.
Proof.
  unfold expiryBounds. intros H.
  apply andb_true_iff in H as [H H5].
  apply andb_true_iff in H as [H H4].
  apply andb_true_iff in H as [H H3].
  apply andb_true_iff in H as [H1 H2].
  apply Z.leb_le in H1, H2, H3, H4, H5. done.
Qed.

Lemma expiryBounds_in yy mm :
  0 ≤ yy ≤ 99 → 0 ≤ mm ≤ 99 →
  100 ≤ oasisYear yy ∧ Z.abs (MakeDay (oasisYear yy) mm 0) ≤ 90000 ∧
  Z.abs (MakeDay (oasisYear yy) (mm - 1) 0) ≤ 90000 ∧
  1 ≤ (civilFromDays (MakeDay (oasisYear yy) mm 0)).2 ≤ 31.
Proof.
  intros Hyy Hmm.
  pose proof (forallb2_seqZ expiryBoundsAt 0 100 0 100 yy mm all_expiry_bounds
                ltac:(lia) ltac:(lia)) as H.
  unfold expiryBoundsAt in H. by apply expiryBounds_spec in H.
Qed.

Lemma MakeDay_date y m d : MakeDay y m d = MakeDay y m 0 + d.
Proof. unfold MakeDay. lia. Qed.

(** [parseExpiryDate] returns on every field of six digits. *)
Lemma oasis_parseExpiryDate_total tz e :
  Z.abs tz ≤ 1440 → allChars isDigit e = true → String.length e = 6%nat →
  ∃ p, parseExpiryDate tz e = inr p.
Proof.
  intros Htz Hd Hl.
  destruct (six_digits e Hd Hl)
    as (a1 & a2 & b1 & b2 & c1 & c2 & -> & Ha1 & Ha2 & Hb1 & Hb2 & Hc1 & Hc2).
  destruct (two_digits 10 a1 a2 all_two_digits_10 Ha1 Ha2) as (yy & Py & Hyy & _).
  destruct (two_digits 10 b1 b2 all_two_digits_10 Hb1 Hb2) as (mm & Pm & Hmm & _).
  destruct (two_digits 10 c1 c2 all_two_digits_10 Hc1 Hc2) as (dd & Pd & Hdd & _).
  unfold parseExpiryDate.
  change (substring (String a1 (String a2 (String b1 (String b2
            (String c1 (String c2 "")))))) 0 2) with (String a1 (String a2 "")).
  change (substring (String a1 (String a2 (String b1 (String b2
            (String c1 (String c2 "")))))) 2 4) with (String b1 (String b2 "")).
  change (substring (String a1 (String a2 (String b1 (String b2
            (String c1 (String c2 "")))))) 4 6) with (String c1 (String c2 "")).
  rewrite Py, Pm, Pd. cbn [mbind option_bind]. fold (oasisYear yy).
  destruct (expiryBounds_in yy mm Hyy Hmm) as (Hy & HD & HD' & Hdim).
  assert (∀ d, 0 ≤ d ≤ 99 →
               ∃ t, newDate tz (Some (oasisYear yy)) (Some (mm - 1)) (Some d)
                    = Some t) as Hnew.
  { intros d Hd'. eexists. apply newDate_value; [done | | done].
    rewrite MakeDay_date. lia. }
  destruct (decide (dd = 0)) as [->|Hne].
  - rewrite getDate_newDate by (done || lia).
    destruct (Hnew (civilFromDays (MakeDay (oasisYear yy) mm 0)).2) as [t Ht];
      [lia |].
    rewrite Ht. by eexists.
  - destruct (Hnew dd Hdd) as [t Ht].
    assert ((match Some dd with
             | Some 0 => getDate tz (newDate tz (Some (oasisYear yy)) (Some mm) (Some 0))
             | _ => Some dd
             end) = Some dd) as -> by (destruct dd; done).
    rewrite Ht. by eexists.
Qed.

End OasisTotalFacts.

(** X13.  [parseGS1] of the Oasis tracker never throws: the only call that
    can, [toISOString] on an invalid date, gets a date built from six
    digits, which is always valid.  A string it cannot decode comes back
    as a record that is not valid. *)
Theorem X13_oasis_parseGS1_total (tz now : Z) (raw : string) :
  Z.abs tz ≤ 1440 →
  ∃ p, Oasis.parseGS1 tz now raw = inr p.
Proof.
  intros Htz. unfold Oasis.parseGS1.
  destruct (negb (JS.truthy raw)); [by eexists |].
  destruct (_ && _); [by eexists |].
  destruct (JS.captureAfter "(17)" JS.isDigit 6 (Some 6%nat) _) as [e|] eqn:E;
    [| by eexists].
  apply captureAfter_spec in E as [Hd Hl].
  destruct (oasis_parseExpiryDate_total tz e Htz Hd) as [p Hp]; [lia |].
  rewrite Hp. by eexists.
Qed.

Lemma X13_oasis_parseGS1_total_witness :
  ∃ p, Oasis.parseGS1 240 0 "(01)06291109120100(17)259999" = inr p.
Proof. apply (X13_oasis_parseGS1_total 240 0). vm_compute. discriminate. Defined.

Section ShapeFacts.
Import JS.

Lemma pad_stripOneZero g :
  String.length g = 14%nat →
  padStart (if startsWith g "0" then substringFrom g 1 else g) 14 "0" = g.
Proof.
  intros Hl. destruct (startsWith g "0") eqn:E;
    [| apply padStart_long; lia].
  unfold startsWith in E. destruct g as [|c s]; [done |].
  cbn [String.prefix] in E. destruct (ascii_dec "0" c) as [<-|]; [| done].
  cbn [substringFrom dropS]. cbn [String.length] in Hl. unfold padStart.
  replace (14 - String.length s)%nat with 1%nat by lia. done.
Qed.

Lemma length_stripOneZero g :
  String.length g = 14%nat →
  (13 ≤ String.length (if startsWith g "0" then substringFrom g 1 else g) ≤ 14)%nat.
Proof.
  intros Hl. destruct (startsWith g "0"); [| lia].
  unfold substringFrom. rewrite length_dropS. lia.
Qed.

Lemma digitValue_nonneg c : 0 ≤ default 0 (digitValue c).
Proof.
  unfold digitValue. cbv zeta.
  set (n := Z.of_nat _).
  destruct (Z.leb_spec 48 n); cbn [andb];
    [destruct (n <=? 57); [simpl; lia |] |];
    (destruct (Z.leb_spec 97 n); cbn [andb];
     [destruct (n <=? 122); [simpl; lia |] |]);
    (destruct (Z.leb_spec 65 n); cbn [andb];
     [destruct (n <=? 90); [simpl; lia |] |]);
    reflexivity.
Qed.

Lemma digitsValue_nonneg R s acc : 0 ≤ R → 0 ≤ acc → 0 ≤ digitsValue R s acc.
Proof.
  intros HR. revert acc. induction s as [|c s IH]; intros acc Hacc; [done |].
  cbn [digitsValue]. apply IH. pose proof (digitValue_nonneg c). nia.
Qed.

(** A string of digits parses to a number that is not negative. *)
Lemma parseInt_digits_nonneg q radix v :
  radix = 0 ∨ radix = 10 →
  allChars isDigit q = true → parseInt q radix = Some v → 0 ≤ v.
Proof.
  intros HR Hd. unfold parseInt. rewrite (trimStart_digits _ Hd).
  destruct q as [|c1 q]; [by destruct HR as [-> | ->] |].
  cbn [allChars] in Hd. apply andb_true_iff in Hd as [H1 Hd].
  assert (String.prefix "-" (String c1 q) = false) as Hm.
  { cbn [String.prefix]. destruct (ascii_dec "-" c1) as [<-|]; done. }
  assert (String.prefix "+" (String c1 q) = false) as Hp.
  { cbn [String.prefix]. destruct (ascii_dec "+" c1) as [<-|]; done. }
  assert (String.prefix "0x" (String c1 q) = false) as Hx.
  { destruct q as [|c2 q]; cbn [String.prefix];
      destruct (ascii_dec "0" c1); try reflexivity.
    destruct (ascii_dec "x" c2) as [<-|]; [| reflexivity].
    cbn [allChars] in Hd. apply andb_true_iff in Hd as [H2 _].
    by vm_compute in H2. }
  assert (String.prefix "0X" (String c1 q) = false) as HX.
  { destruct q as [|c2 q]; cbn [String.prefix];
      destruct (ascii_dec "0" c1); try reflexivity.
    destruct (ascii_dec "X" c2) as [<-|]; [| reflexivity].
    cbn [allChars] in Hd. apply andb_true_iff in Hd as [H2 _].
    by vm_compute in H2. }
  cbv zeta. rewrite Hm, Hp. cbn [orb]. rewrite Hx, HX. cbn [orb].
  rewrite andb_false_r.
  destruct HR as [-> | ->]; cbn [Z.eqb negb andb orb];
    destruct (truthy _); try done; intros [= <-];
    by apply digitsValue_nonneg.
Qed.

Lemma orOne_pos n : (∀ v, n = Some v → 0 ≤ v) → 1 ≤ orOne n.
Proof.
  intros H. destruct n as [v|]; [| done].
  specialize (H v eq_refl). destruct v; cbn [orOne]; lia.
Qed.

Lemma isDigitsBetween_spec lo hi s :
  isDigitsBetween lo hi s = true →
  allChars isDigit s = true ∧ (lo ≤ String.length s ≤ hi)%nat.
Proof.
  unfold isDigitsBetween. rewrite !andb_true_iff, !Nat.leb_le. tauto.
Qed.

End ShapeFacts.

(** X14.  When [parseGS1] of the Oasis tracker returns a record, the
    record is valid exactly when it has a [gtin14]; a [gtin14] is 14
    digits, and [gtin13] is it without one leading zero, so that padding
    [gtin13] to 14 characters gives [gtin14] back; without a [gtin14] there
    is no [gtin13]; the quantity is at least 1 and [raw] is the input. *)
Theorem X14_oasis_parsed_shape (tz now : Z) (raw : string) (p : Oasis.parsed) :
  Oasis.parseGS1 tz now raw = inr p →
  (Oasis.valid p = true ↔ Oasis.gtin14 p ≠ "") ∧
  (Oasis.gtin14 p ≠ "" →
   String.length (Oasis.gtin14 p) = 14%nat ∧
   JS.allChars JS.isDigit (Oasis.gtin14 p) = true ∧
   Oasis.gtin13 p = Oasis.stripOneZero (Oasis.gtin14 p) ∧
   (13 ≤ String.length (Oasis.gtin13 p) ≤ 14)%nat ∧
   JS.padStart (Oasis.gtin13 p) 14 "0" = Oasis.gtin14 p) ∧
  (Oasis.gtin14 p = "" → Oasis.gtin13 p = "") ∧
  1 ≤ Oasis.qty p ∧
  Oasis.raw p = raw.
Proof.
  assert (∀ g, String.length g = 14%nat → JS.allChars JS.isDigit g = true →
               g ≠ "" ∧ String.length g = 14%nat ∧
               JS.allChars JS.isDigit g = true ∧
               (13 ≤ String.length (Oasis.stripOneZero g) ≤ 14)%nat ∧
               JS.padStart (Oasis.stripOneZero g) 14 "0" = g) as Hshape.
  { intros g Hl Hd. split; [by intros -> |]. split; [done |]. split; [done |].
    split; [by apply length_stripOneZero | by apply pad_stripOneZero]. }
  unfold Oasis.parseGS1.
  destruct (negb (JS.truthy raw)).
  { intros [= <-]. cbn. split; [split; done |]. done. }
  destruct (JS.isDigitsBetween 8 14 _ && _) eqn:Enum.
  { intros [= <-]. cbn [Oasis.valid Oasis.gtin14 Oasis.gtin13 Oasis.qty Oasis.raw].
    apply andb_true_iff in Enum as [Enum _].
    apply isDigitsBetween_spec in Enum as [Hd Hl].
    destruct (Hshape (JS.padStart (JS.replaceChar "029" "|" (JS.trim raw)) 14 "0"))
      as (Hne & H14 & Hdig & H13 & Hpad);
      [apply length_padStart; lia | by apply allChars_padStart |].
    split; [split; done |]. split; [done |]. split; [done |]. done. }
  cbv zeta.
  set (code := if negb (JS.includes _ "(") && JS.startsWithDigits 2 _
               then Oasis.convertToParenthesized _ else _).
  destruct (JS.captureAfter "(01)" JS.isDigit 12 (Some 14%nat) code) as [g|] eqn:Eg.
  - apply captureAfter_spec in Eg as [Hd Hl].
    destruct (Hshape (JS.padStart g 14 "0"))
      as (Hne & H14 & Hdig & H13 & Hpad);
      [apply length_padStart; lia | by apply allChars_padStart |].
    assert (1 ≤ match JS.captureAfter "(30)" JS.isDigit 1 None code with
                | Some q => JS.orOne (JS.parseInt q 10)
                | None => 1
                end) as Hq.
    { destruct (JS.captureAfter "(30)" _ _ _ _) as [q|] eqn:Eq; [| done].
      apply captureAfter_spec in Eq as [Hqd _]. apply orOne_pos.
      intros v. apply parseInt_digits_nonneg; [by right | done]. }
    destruct (JS.captureAfter "(17)" _ _ _ _) as [e|];
      [destruct (Oasis.parseExpiryDate tz e); [done |] |];
      intros [= <-];
      cbn [Oasis.valid Oasis.gtin14 Oasis.gtin13 Oasis.qty Oasis.raw];
      (split; [split; done |]); (split; [done |]); (split; [done |]); done.
  - assert (1 ≤ match JS.captureAfter "(30)" JS.isDigit 1 None code with
                | Some q => JS.orOne (JS.parseInt q 10)
                | None => 1
                end) as Hq.
    { destruct (JS.captureAfter "(30)" _ _ _ _) as [q|] eqn:Eq; [| done].
      apply captureAfter_spec in Eq as [Hqd _]. apply orOne_pos.
      intros v. apply parseInt_digits_nonneg; [by right | done]. }
    destruct (JS.captureAfter "(17)" _ _ _ _) as [e|];
      [destruct (Oasis.parseExpiryDate tz e); [done |] |];
      intros [= <-];
      cbn [Oasis.valid Oasis.gtin14 Oasis.gtin13 Oasis.qty Oasis.raw];
      (split; [split; done |]); (split; [done |]); (split; [done |]); done.
Qed.

Lemma X14_oasis_parsed_shape_witness :
  ∃ p, Oasis.parseGS1 0 0 "(01)629110912010(30)12" = inr p ∧
       Oasis.gtin14 p = "00629110912010" ∧ Oasis.qty p = 12 ∧
       Oasis.valid p = true.
Proof.
  eexists. split; [reflexivity |]. split; [reflexivity |]. split; [reflexivity |].
  eapply (X14_oasis_parsed_shape 0 0 "(01)629110912010(30)12");
    [reflexivity | vm_compute; discriminate].
Defined.

Section TrackerShapeFacts.
Import JS Tracker.

Lemma startsWithDigits_takeS n s :
  startsWithDigits n s = true →
  allChars isDigit (takeS n s) = true ∧ String.length (takeS n s) = n.
Proof.
  unfold startsWithDigits. revert s.
  induction n as [|n IH]; intros s H; [by destruct s |].
  destruct s as [|c s]; [done |]. cbn [takeWhile] in H.
  destruct (isDigit c) eqn:Ec; [| done]. cbn [String.length] in H.
  destruct (IH s H) as [Hd Hl]. cbn [takeS allChars String.length].
  by rewrite Ec, Hd, Hl.
Qed.

Lemma length_padStart_max s n c :
  String.length (padStart s n c) = Nat.max n (String.length s).
Proof. unfold padStart. rewrite length_append, length_repeatChar. lia. Qed.

Lemma qty_pos (m : option string) radix :
  radix = 0 ∨ radix = 10 →
  (∀ q, m = Some q → allChars isDigit q = true) →
  1 ≤ match m with
      | Some q => orOne (parseInt q radix)
      | None => 1
      end.
Proof.
  intros HR H. destruct m as [q|]; [| done]. apply orOne_pos.
  intros v. apply parseInt_digits_nonneg; [done | by apply H].
Qed.

End TrackerShapeFacts.

(** X15.  The record [parseGS1] of the expiry tracker returns, for any
    input: [raw] is the input and the quantity is at least 1; without a
    [gtin14] there is no [gtin13]; a [gtin14] consists of digits, at least
    14 of them and exactly 14 when the code was read as GS1, and padding
    [gtin13] to 14 characters gives [gtin14]. *)
Theorem X15_tracker_parsed_shape (tz : Z) (code : string) :
  Tracker.raw (Tracker.parseGS1 tz code) = code ∧
  1 ≤ Tracker.qty (Tracker.parseGS1 tz code) ∧
  (Tracker.gtin14 (Tracker.parseGS1 tz code) = "" →
   Tracker.gtin13 (Tracker.parseGS1 tz code) = "") ∧
  (Tracker.gtin14 (Tracker.parseGS1 tz code) ≠ "" →
   JS.allChars JS.isDigit (Tracker.gtin14 (Tracker.parseGS1 tz code)) = true ∧
   (14 ≤ String.length (Tracker.gtin14 (Tracker.parseGS1 tz code)))%nat ∧
   (Tracker.isGS1 (Tracker.parseGS1 tz code) = true →
    String.length (Tracker.gtin14 (Tracker.parseGS1 tz code)) = 14%nat) ∧
   JS.padStart (Tracker.gtin13 (Tracker.parseGS1 tz code)) 14 "0" =
     Tracker.gtin14 (Tracker.parseGS1 tz code)).
Proof.
  unfold Tracker.parseGS1. cbv zeta.
  destruct (negb (JS.truthy code)); [by cbn |].
  set (c := JS.filterChars _ (JS.trim code)).
  destruct (JS.includes c "(").
  { assert (1 ≤ match JS.captureAfter "(30)" JS.isDigit 1 None c with
                | Some q => JS.orOne (JS.parseInt q 0)
                | None => 1
                end) as Hq.
    { apply qty_pos; [by left |]. intros q Eq.
      by apply captureAfter_spec in Eq as [Hqd _]. }
    destruct (JS.captureAfter "(01)" JS.isDigit 14 (Some 14%nat) c) as [g|] eqn:Eg.
    - apply captureAfter_spec in Eg as [Hd Hl].
      assert (String.length g = 14%nat) as H14 by lia.
      change (default "" (Some g)) with g.
      destruct (JS.captureAfter "(17)" _ _ _ _);
        cbn [Tracker.withExpiry Tracker.raw Tracker.qty Tracker.gtin14
             Tracker.gtin13 Tracker.isGS1];
        (split; [done |]); (split; [done |]);
        (split; [by intros -> |]); intros _;
        (split; [done |]); (split; [lia |]); (split; [done |]);
        by apply pad_stripOneZero.
    - change (default "" (@None string)) with "".
      destruct (JS.captureAfter "(17)" _ _ _ _);
        cbn [Tracker.withExpiry Tracker.raw Tracker.qty Tracker.gtin14
             Tracker.gtin13 Tracker.isGS1];
        (split; [done |]); (split; [done |]); (split; [done |]); done. }
  destruct (String.prefix "01" c && JS.startsWithDigits 14 (JS.dropS 2 c)) eqn:Eraw.
  { apply andb_true_iff in Eraw as [_ Hds].
    apply startsWithDigits_takeS in Hds as [Hd Hl].
    change (JS.substring c 2 16) with (JS.takeS 14 (JS.dropS 2 c)).
    destruct (match JS.indexOf (JS.substringFrom c 16) "17" 0 with
              | Some exp17Idx => _
              | None => _
              end) as [expiry remaining].
    destruct expiry;
      cbn [Tracker.withExpiry Tracker.raw Tracker.qty Tracker.gtin14
           Tracker.gtin13 Tracker.isGS1];
      (split; [done |]); (split; [done |]);
      (split; [by intros E; rewrite E in Hl |]); intros _;
      (split; [done |]); (split; [lia |]); (split; [done |]);
      by apply pad_stripOneZero. }
  set (digits := JS.stripNonDigits c).
  assert (JS.allChars JS.isDigit digits = true) as Hd
    by apply allChars_stripNonDigits.
  destruct ((8 <=? String.length digits)%nat && (String.length digits <=? 14)%nat)
    eqn:E8.
  { apply andb_true_iff in E8 as [Hlo Hhi].
    apply Nat.leb_le in Hlo, Hhi.
    assert (String.length (JS.padStart digits 14 "0") = 14%nat) as H14
      by (apply length_padStart; lia).
    cbn [Tracker.raw Tracker.qty Tracker.gtin14 Tracker.gtin13 Tracker.isGS1].
    split; [done |]. split; [done |].
    split; [by intros E; rewrite E in H14 |]. intros _.
    split; [by apply allChars_padStart |]. split; [lia |]. split; [done |].
    by apply pad_stripOneZero. }
  destruct (5 <=? String.length digits)%nat eqn:E5;
    cbn [Tracker.raw Tracker.qty Tracker.gtin14 Tracker.gtin13 Tracker.isGS1];
    [| done].
  split; [done |]. split; [done |].
  assert (14 ≤ String.length (JS.padStart digits 14 "0"))%nat as H14
    by (rewrite length_padStart_max; lia).
  split; [intros E; rewrite E in H14; cbn in H14; lia |]. intros _.
  split; [by apply allChars_padStart |]. done.
Qed.

Section StatusFacts.
Import JS JSDate Oasis.

Lemma ceilDiv_mul k b : 0 < b → ceilDiv (k * b) b = k.
Proof.
  intros Hb. unfold ceilDiv.
  replace (- (k * b)) with ((- k) * b) by lia.
  rewrite Z.div_mul by lia. lia.
Qed.

(** The local midnight of a time value that is not in the first day of
    the range of [Date]. *)
Lemma setHours0_value tz t :
  Z.abs t ≤ 8639999913600000 →
  setHours0 tz (Some t) = Some ((t + LocalTZA tz) / msPerDay * msPerDay - LocalTZA tz).
Proof.
  intros Ht. unfold setHours0. cbn [mbind option_bind].
  apply TimeClip_small.
  pose proof (Z.mul_div_le (t + LocalTZA tz) msPerDay) as Hle.
  pose proof (Z.mod_pos_bound (t + LocalTZA tz) msPerDay) as Hmod.
  pose proof (Z.div_mod (t + LocalTZA tz) msPerDay) as Hdm.
  unfold msPerDay in *. lia.
Qed.

End StatusFacts.

(** X16.  [getExpiryStatus] of the Oasis tracker depends on the two time
    values through their local calendar days only: with [de] the day of
    the expiry date and [dn] the day of the current time, the status is
    'expired' when [de < dn], 'expiring' when [de] is at most 90 days
    after [dn] (the day itself included), and 'ok' otherwise. *)
Theorem X16_status_by_calendar_days (tz now date : Z) :
  Z.abs now ≤ 8639999913600000 → Z.abs date ≤ 8639999913600000 →
  Oasis.getExpiryStatus tz now date =
    if (date + JSDate.LocalTZA tz) / JSDate.msPerDay <?
       (now + JSDate.LocalTZA tz) / JSDate.msPerDay
    then Oasis.expired
    else if (date + JSDate.LocalTZA tz) / JSDate.msPerDay -
            (now + JSDate.LocalTZA tz) / JSDate.msPerDay <=? 90
         then Oasis.expiring
         else Oasis.ok.
Proof.
  intros Hn Hd. unfold Oasis.getExpiryStatus.
  rewrite (setHours0_value tz now Hn), (setHours0_value tz date Hd).
  cbn [mbind option_bind].
  set (de := (date + JSDate.LocalTZA tz) / JSDate.msPerDay).
  set (dn := (now + JSDate.LocalTZA tz) / JSDate.msPerDay).
  replace (de * JSDate.msPerDay - JSDate.LocalTZA tz -
           (dn * JSDate.msPerDay - JSDate.LocalTZA tz))
    with ((de - dn) * 86400000) by (unfold JSDate.msPerDay; lia).
  rewrite ceilDiv_mul by lia. unfold Oasis.EXPIRY_SOON_DAYS.
  destruct (Z.ltb_spec (de - dn) 0), (Z.ltb_spec de dn); try lia; reflexivity.
Qed.

Lemma X16_status_by_calendar_days_witness :
  Oasis.getExpiryStatus 240 1762128000000 1769817600000 = Oasis.expiring.
Proof.
  rewrite (X16_status_by_calendar_days 240 1762128000000 1769817600000);
    [reflexivity | vm_compute; discriminate | vm_compute; discriminate].
Defined.

Section EscapeFacts.
Import JS Aux.

Lemma append_cons c (s t : string) : String c s +:+ t = String c (s +:+ t).
Proof. reflexivity. Qed.

Lemma append_nil (t : string) : "" +:+ t = t.
Proof. reflexivity. Qed.

Lemma replaceCharBy_append c r (a b : string) :
  replaceCharBy c r (a +:+ b) = replaceCharBy c r a +:+ replaceCharBy c r b.
Proof.
  induction a as [|x a IH]; [done |].
  rewrite append_cons. cbn [replaceCharBy]. rewrite IH.
  destruct (Ascii.eqb x c); [by rewrite append_assoc | done].
Qed.

(** The three replacements in a row are one pass over the characters. *)
Lemma three_replaces s :
  replaceCharBy ">" "&gt;" (replaceCharBy "<" "&lt;" (replaceCharBy "&" "&amp;" s)) =
  escapeEach false s.
Proof.
  induction s as [|x t IH]; [done |].
  cbn [replaceCharBy escapeEach]. unfold entity.
  destruct (Ascii.eqb_spec x "&") as [-> | H1].
  { rewrite !replaceCharBy_append, IH. reflexivity. }
  cbn [replaceCharBy]. destruct (Ascii.eqb_spec x "<") as [-> | H2].
  { rewrite !replaceCharBy_append, IH. reflexivity. }
  cbn [replaceCharBy andb]. rewrite IH.
  destruct (Ascii.eqb_spec x ">") as [-> | H3]; reflexivity.
Qed.

Lemma four_replaces s :
  replaceCharBy "034" "&quot;"
    (replaceCharBy ">" "&gt;"
       (replaceCharBy "<" "&lt;" (replaceCharBy "&" "&amp;" s))) =
  escapeEach true s.
Proof.
  induction s as [|x t IH]; [done |].
  cbn [replaceCharBy escapeEach]. unfold entity.
  destruct (Ascii.eqb_spec x "&") as [-> | H1].
  { rewrite !replaceCharBy_append, IH. reflexivity. }
  cbn [replaceCharBy]. destruct (Ascii.eqb_spec x "<") as [-> | H2].
  { rewrite !replaceCharBy_append, IH. reflexivity. }
  cbn [replaceCharBy]. destruct (Ascii.eqb_spec x ">") as [-> | H3].
  { rewrite !replaceCharBy_append, IH. reflexivity. }
  cbn [replaceCharBy andb]. rewrite IH.
  destruct (Ascii.eqb_spec x "034") as [-> | H4]; reflexivity.
Qed.

Lemma entity_clean quot c :
  allChars (λ x, negb (isMarkup quot x)) (entity quot c) = true.
Proof.
  unfold entity.
  destruct (Ascii.eqb_spec c "&") as [-> | H1]; [by destruct quot |].
  destruct (Ascii.eqb_spec c "<") as [-> | H2]; [by destruct quot |].
  destruct (Ascii.eqb_spec c ">") as [-> | H3]; [by destruct quot |].
  destruct quot; cbn [andb].
  - destruct (Ascii.eqb_spec c "034") as [-> | H4]; [done |].
    cbn [allChars]. unfold isMarkup.
    destruct (Ascii.eqb_spec c "<"), (Ascii.eqb_spec c ">"),
      (Ascii.eqb_spec c "034"); done.
  - cbn [allChars]. unfold isMarkup.
    destruct (Ascii.eqb_spec c "<"), (Ascii.eqb_spec c ">"); done.
Qed.

Lemma escapeEach_clean quot s :
  allChars (λ x, negb (isMarkup quot x)) (escapeEach quot s) = true.
Proof.
  induction s as [|c t IH]; [done |].
  cbn [escapeEach]. by rewrite allChars_append, entity_clean, IH.
Qed.

(** The entities can be told apart at the head of a text. *)
Lemma entity_inj quot c c' (a b : string) :
  entity quot c +:+ a = entity quot c' +:+ b → c = c' ∧ a = b.
Proof.
  unfold entity. intros H.
  destruct (Ascii.eqb_spec c "&") as [-> | ?];
    [| destruct (Ascii.eqb_spec c "<") as [-> | ?];
       [| destruct (Ascii.eqb_spec c ">") as [-> | ?];
          [| destruct quot; cbn [andb] in H;
             [destruct (Ascii.eqb_spec c "034") as [-> | ?] |]]]];
    (destruct (Ascii.eqb_spec c' "&") as [-> | ?];
     [| destruct (Ascii.eqb_spec c' "<") as [-> | ?];
        [| destruct (Ascii.eqb_spec c' ">") as [-> | ?];
           [| try (destruct quot; cbn [andb] in H);
              try (destruct (Ascii.eqb_spec c' "034") as [-> | ?])]]]);
    rewrite ?append_cons, ?append_nil in H;
    try discriminate H; injection H; intros; subst; try done.
Qed.

Lemma entity_not_empty quot c (a : string) : entity quot c +:+ a ≠ "".
Proof.
  unfold entity.
  destruct (Ascii.eqb c "&"); [done |].
  destruct (Ascii.eqb c "<"); [done |].
  destruct (Ascii.eqb c ">"); [done |].
  destruct (quot && Ascii.eqb c "034"); done.
Qed.

Lemma escapeEach_inj quot s t :
  escapeEach quot s = escapeEach quot t → s = t.
Proof.
  revert t. induction s as [|c s IH]; intros [|c' t] H; cbn [escapeEach] in H.
  - done.
  - symmetry in H. by apply entity_not_empty in H.
  - by apply entity_not_empty in H.
  - apply entity_inj in H as [-> H]. by rewrite (IH t H).
Qed.

End EscapeFacts.

(** X17.  [escapeHtml] of the expiry tracker, three replacements in a row,
    is one pass that puts an entity for every ampersand and angle bracket
    and keeps the other characters: the ampersands of the entities are not
    escaped again.  The outcome has no angle bracket, and two texts with
    the same outcome are the same. *)
Theorem X17_tracker_escapeHtml (s : string) :
  Tracker.escapeHtml s = Aux.escapeEach false s ∧
  JS.allChars (λ c, negb (Aux.isMarkup false c)) (Tracker.escapeHtml s) = true ∧
  ∀ t, Tracker.escapeHtml s = Tracker.escapeHtml t → s = t.
Proof.
  unfold Tracker.escapeHtml. rewrite three_replaces.
  split; [done |]. split; [apply escapeEach_clean |].
  intros t. rewrite three_replaces. apply escapeEach_inj.
Qed.

(** X18.  [escapeHtml] of the Oasis tracker is one pass that puts an
    entity for every ampersand, angle bracket and double quote and keeps
    the other characters.  The outcome has no angle bracket and no double
    quote, and two texts with the same outcome are the same. *)
Theorem X18_oasis_escapeHtml (str : string) :
  Oasis.escapeHtml str = Aux.escapeEach true str ∧
  JS.allChars (λ c, negb (Aux.isMarkup true c)) (Oasis.escapeHtml str) = true ∧
  ∀ t, Oasis.escapeHtml str = Oasis.escapeHtml t → str = t.
Proof.
  assert (∀ s, Oasis.escapeHtml s = Aux.escapeEach true s) as Heq.
  { intros s. unfold Oasis.escapeHtml. rewrite four_replaces.
    destruct s; reflexivity. }
  rewrite Heq. split; [done |]. split; [apply escapeEach_clean |].
  intros t. rewrite Heq. apply escapeEach_inj.
Qed.

Section ImportFacts.
Import JS Oasis.

Lemma parseMasterRow_Some delim gtinCol nameCol line it :
  parseMasterRow delim gtinCol nameCol line = Some it →
  allChars isDigit (gtin it) = true ∧
  (14 ≤ String.length (gtin it))%nat ∧
  name it ≠ "".
Proof.
  unfold parseMasterRow. cbv zeta.
  destruct (truthy _ && truthy _) eqn:E; [| done]. intros [= <-].
  apply andb_true_iff in E as [_ Hn]. cbn [gtin name].
  split; [apply allChars_padStart, allChars_stripNonDigits |].
  split; [rewrite length_padStart_max; lia | by apply truthy_ne].
Qed.

End ImportFacts.

(** X19.  Every record [parseMasterCSV] returns has a [gtin] of digits
    only, at least 14 of them, and a [name] that is not empty; and when it
    returns a record it showed no message. *)
Theorem X19_parseMasterCSV_records (text : string) (it : Oasis.item) :
  it ∈ (Oasis.parseMasterCSV text).1 →
  JS.allChars JS.isDigit (Oasis.gtin it) = true ∧
  (14 ≤ String.length (Oasis.gtin it))%nat ∧
  Oasis.name it ≠ "" ∧
  (Oasis.parseMasterCSV text).2 = None.
Proof.
  unfold Oasis.parseMasterCSV. cbv zeta.
  destruct (_ <? 2)%nat; [by intros ?%elem_of_nil |].
  destruct (JS.findIndex _ _) as [gtinCol|]; [| by intros ?%elem_of_nil].
  destruct (JS.findIndex _ _) as [nameCol|]; [| by intros ?%elem_of_nil].
  cbn [fst snd]. intros (line & _ & Hrow)%list_elem_of_omap.
  apply parseMasterRow_Some in Hrow as (Hd & Hl & Hn). done.
Qed.

Lemma X19_parseMasterCSV_records_witness :
  Oasis.parseMasterCSV ("Barcode,Name" +:+ String "010" "6291109120100,Panadol") =
    ([Oasis.Item "06291109120100" "Panadol"], None) ∧
  Oasis.name (Oasis.Item "06291109120100" "Panadol") ≠ "".
Proof.
  split; [reflexivity |].
  eapply (X19_parseMasterCSV_records
            ("Barcode,Name" +:+ String "010" "6291109120100,Panadol")
            (Oasis.Item "06291109120100" "Panadol")).
  change (Oasis.Item "06291109120100" "Panadol" ∈
          [Oasis.Item "06291109120100" "Panadol"]).
  apply list_elem_of_here.
Defined.

Section GtinFacts.
Import JS.

Lemma append_nil_r (s : string) : s +:+ "" = s.
Proof. induction s as [|c s IH]; [done |]. by rewrite append_cons, IH. Qed.

Lemma prefix_append (tag y : string) : String.prefix tag (tag +:+ y) = true.
Proof.
  induction tag as [|c t IH]; [apply prefix_empty |].
  rewrite append_cons. cbn [String.prefix].
  by destruct (ascii_dec c c).
Qed.

Lemma dropS_append (tag y : string) : dropS (String.length tag) (tag +:+ y) = y.
Proof. induction tag as [|c t IH]; [done |]. by rewrite append_cons. Qed.

Lemma takeS_append (a b : string) : takeS (String.length a) (a +:+ b) = a.
Proof.
  induction a as [|c a IH]; [done |].
  rewrite append_cons. cbn [String.length takeS]. by rewrite IH.
Qed.

Lemma takeWhile_append f (a b : string) :
  allChars f a = true → takeWhile f (a +:+ b) = a +:+ takeWhile f b.
Proof.
  induction a as [|c a IH]; [done |]. cbn [allChars].
  intros [Hc Ha]%andb_true_iff.
  rewrite !append_cons. cbn [takeWhile]. by rewrite Hc, IH.
Qed.

Lemma filterChars_append f (a b : string) :
  filterChars f (a +:+ b) = filterChars f a +:+ filterChars f b.
Proof.
  induction a as [|c a IH]; [done |].
  rewrite append_cons. cbn [filterChars]. rewrite IH. by destruct (f c).
Qed.

Lemma mapChars_append f (a b : string) :
  mapChars f (a +:+ b) = mapChars f a +:+ mapChars f b.
Proof.
  induction a as [|c a IH]; [done |].
  rewrite append_cons. cbn [mapChars]. by rewrite IH.
Qed.

Lemma allChars_trimEnd f s : allChars f s = true → allChars f (trimEnd s) = true.
Proof.
  induction s as [|c s IH]; [done |]. cbn [allChars].
  intros [Hc Hs]%andb_true_iff. rewrite trimEnd_cons.
  specialize (IH Hs). destruct (trimEnd s) as [|d r].
  - destruct (isSpace c); [done |]. cbn [allChars]. by rewrite Hc.
  - cbn [allChars] in *. by rewrite Hc, IH.
Qed.

Lemma allChars_filterChars f g s :
  allChars f s = true → allChars f (filterChars g s) = true.
Proof.
  induction s as [|c s IH]; [done |]. cbn [allChars filterChars].
  intros [Hc Hs]%andb_true_iff.
  destruct (g c); [cbn [allChars]; by rewrite Hc, IH | by apply IH].
Qed.

Lemma allChars_mapChars f (h : ascii → ascii) s :
  (∀ c, f c = true → f (h c) = true) →
  allChars f s = true → allChars f (mapChars h s) = true.
Proof.
  intros Hh. induction s as [|c s IH]; [done |]. cbn [allChars mapChars].
  intros [Hc Hs]%andb_true_iff. by rewrite (Hh _ Hc), IH.
Qed.

(** [s.includes(c)] for one character. *)
Lemma includes_char (c : ascii) s :
  includes s (String c EmptyString) =
    negb (allChars (λ x, negb (Ascii.eqb x c)) s).
Proof.
  induction s as [|x s IH]; [done |].
  cbn [includes allChars String.prefix]. rewrite IH.
  destruct (ascii_dec c x) as [<- | Hne].
  - rewrite Ascii.eqb_refl. by rewrite prefix_empty.
  - apply not_eq_sym, Ascii.eqb_neq in Hne. by rewrite Hne.
Qed.

Lemma trimEnd_nonspace c s :
  isSpace c = false → trimEnd (String c s) = String c (trimEnd s).
Proof.
  intros Hc. rewrite trimEnd_cons. destruct (trimEnd s); [by rewrite Hc | done].
Qed.

Lemma trimEnd_append (d r : string) :
  allChars (λ c, negb (isSpace c)) d = true →
  trimEnd (d +:+ r) = d +:+ trimEnd r.
Proof.
  induction d as [|c d IH]; [done |]. cbn [allChars].
  intros [Hc Hd]%andb_true_iff. apply negb_true_iff in Hc.
  rewrite !append_cons, trimEnd_nonspace by done. by rewrite IH.
Qed.

(** Trimming keeps a prefix without white space. *)
Lemma trim_append (d r : string) :
  d ≠ "" → allChars (λ c, negb (isSpace c)) d = true →
  trim (d +:+ r) = d +:+ trimEnd r.
Proof.
  intros Hne Hd. unfold trim.
  destruct d as [|c d]; [done |].
  assert (trimStart (String c d +:+ r) = String c d +:+ r) as ->.
  { cbn [allChars] in Hd. apply andb_true_iff in Hd as [Hc _].
    apply negb_true_iff in Hc. rewrite append_cons. unfold trimStart.
    cbn [dropWhile]. by rewrite Hc. }
  by apply trimEnd_append.
Qed.

Lemma captureAfter_here tag cls lo hi s g :
  captureHere tag cls lo hi s = Some g → captureAfter tag cls lo hi s = Some g.
Proof. intros H. destruct s; cbn [captureAfter]; by rewrite H. Qed.

(** A tag followed by 14 digits: the capture is those digits. *)
Lemma capture_gtin (tag : string) lo (g x : string) :
  allChars isDigit g = true → String.length g = 14%nat → (lo ≤ 14)%nat →
  captureAfter tag isDigit lo (Some 14%nat) (tag +:+ g +:+ x) = Some g.
Proof.
  intros Hd Hl Hlo. apply captureAfter_here. unfold captureHere.
  rewrite prefix_append, dropS_append, takeWhile_append by done.
  replace (lo <=? _)%nat with true
    by (symmetry; apply Nat.leb_le; rewrite length_append; lia).
  rewrite <- Hl. by rewrite takeS_append.
Qed.

(** A tag of the code and the digits after it have no white space, no
    line break and no group separator. *)
Lemma tagged_digits (f : ascii → bool) (tag g : string) :
  allChars f tag = true → (∀ c, isDigit c = true → f c = true) →
  allChars isDigit g = true → allChars f (tag +:+ g) = true.
Proof.
  intros Ht Hf Hg. rewrite allChars_append, Ht.
  by rewrite (allChars_impl isDigit f g Hf Hg).
Qed.

Lemma digit_plain c :
  isDigit c = true →
  negb (isSpace c) = true ∧
  negb (Ascii.eqb c "013" || Ascii.eqb c "010") = true ∧
  (if Ascii.eqb c "029" then "|"%char else c) = c ∧
  negb (Ascii.eqb c "(") = true.
Proof.
  intros Hc. rewrite (digit_not_space c Hc).
  by rewrite (digit_neq c "013" Hc), (digit_neq c "010" Hc),
    (digit_neq c "029" Hc), (digit_neq c "(" Hc).
Qed.

End GtinFacts.

Section TrackerGtinFacts.
Import JS Tracker.

(** The code [parseGS1] of the expiry tracker works on, for a tag and
    digits followed by anything. *)
Lemma tracker_code (tag g rest : string) :
  tag ≠ "" →
  allChars (λ c, negb (isSpace c)) tag = true →
  allChars (λ c, negb (Ascii.eqb c "013" || Ascii.eqb c "010")) tag = true →
  allChars isDigit g = true →
  filterChars (λ c, negb (Ascii.eqb c "013" || Ascii.eqb c "010"))
    (trim (tag +:+ g +:+ rest)) =
  tag +:+ g +:+
    filterChars (λ c, negb (Ascii.eqb c "013" || Ascii.eqb c "010")) (trimEnd rest).
Proof.
  intros Hne Hs Hn Hg. rewrite <- (append_assoc tag g rest).
  rewrite trim_append.
  - rewrite filterChars_append, (filterChars_all _ (tag +:+ g)).
    + apply append_assoc.
    + apply tagged_digits; [done | | done]. intros c Hc. apply (digit_plain c Hc).
  - by destruct tag.
  - apply tagged_digits; [done | | done]. intros c Hc. apply (digit_plain c Hc).
Qed.

Lemma truthy_append_cons c (s t : string) : truthy (String c s +:+ t) = true.
Proof. done. Qed.

End TrackerGtinFacts.

(** X20.  [parseGS1] of the expiry tracker on a code that begins with the
    identifier 01 and 14 digits: in the format with parentheses, whatever
    follows, and in the raw format, when no parenthesis follows, those 14
    digits are the [gtin14], [gtin13] is them without one leading zero, and
    the code counts as GS1. *)
Theorem X20_tracker_reads_gtin (tz : Z) (g rest : string) :
  JS.allChars JS.isDigit g = true → String.length g = 14%nat →
  (Tracker.gtin14 (Tracker.parseGS1 tz ("(01)" +:+ g +:+ rest)) = g ∧
   Tracker.gtin13 (Tracker.parseGS1 tz ("(01)" +:+ g +:+ rest)) =
     Tracker.stripOneZero g ∧
   Tracker.isGS1 (Tracker.parseGS1 tz ("(01)" +:+ g +:+ rest)) = true) ∧
  (JS.includes rest "(" = false →
   Tracker.gtin14 (Tracker.parseGS1 tz ("01" +:+ g +:+ rest)) = g ∧
   Tracker.gtin13 (Tracker.parseGS1 tz ("01" +:+ g +:+ rest)) =
     Tracker.stripOneZero g ∧
   Tracker.isGS1 (Tracker.parseGS1 tz ("01" +:+ g +:+ rest)) = true).
Proof.
  intros Hd Hl. split.
  - unfold Tracker.parseGS1. cbv zeta.
    rewrite (truthy_append_cons "(" "01)" (g +:+ rest)). cbn [negb].
    rewrite (tracker_code "(01)" g rest) by done.
    set (r := JS.filterChars _ (JS.trimEnd rest)).
    replace (JS.includes ("(01)" +:+ g +:+ r) "(") with true by done.
    rewrite (capture_gtin "(01)" 14 g r Hd Hl) by lia.
    by destruct (JS.captureAfter "(17)" _ _ _ _).
  - intros Hrest. unfold Tracker.parseGS1. cbv zeta.
    rewrite (truthy_append_cons "0" "1" (g +:+ rest)). cbn [negb].
    rewrite (tracker_code "01" g rest) by done.
    set (r := JS.filterChars _ (JS.trimEnd rest)).
    assert (JS.includes ("01" +:+ g +:+ r) "(" = false) as ->.
    { rewrite includes_char in Hrest |- *. apply negb_false_iff in Hrest.
      apply negb_false_iff. rewrite !allChars_append.
      rewrite (allChars_impl JS.isDigit _ g (λ c Hc, proj2 (proj2 (proj2 (digit_plain c Hc)))) Hd).
      unfold r. by rewrite allChars_filterChars by by apply allChars_trimEnd. }
    rewrite prefix_append.
    change (JS.dropS 2 ("01" +:+ g +:+ r)) with (g +:+ r).
    assert (JS.startsWithDigits 14 (g +:+ r) = true) as ->.
    { unfold JS.startsWithDigits. apply Nat.leb_le.
      rewrite takeWhile_append, length_append by done. lia. }
    cbn [andb].
    change (JS.substring ("01" +:+ g +:+ r) 2 16) with (JS.takeS 14 (g +:+ r)).
    assert (JS.takeS 14 (g +:+ r) = g) as ->
      by (rewrite <- Hl; apply takeS_append).
    destruct (match JS.indexOf (JS.substringFrom ("01" +:+ g +:+ r) 16) "17" 0 with
              | Some exp17Idx => _
              | None => _
              end) as [expiry remaining].
    by destruct expiry.
Qed.

Lemma X20_tracker_reads_gtin_witness :
  Tracker.gtin14 (Tracker.parseGS1 0 "(01)06291109120100(17)250131(10)A1") =
    "06291109120100" ∧
  Tracker.gtin14 (Tracker.parseGS1 0 "010629110912010017250131") =
    "06291109120100".
Proof.
  split.
  - apply (X20_tracker_reads_gtin 0 "06291109120100" "(17)250131(10)A1");
      reflexivity.
  - apply (X20_tracker_reads_gtin 0 "06291109120100" "17250131"); reflexivity.
Defined.

Section OasisGtinFacts.
Import JS Oasis.

Lemma oasis_code (tag g rest : string) :
  tag ≠ "" →
  allChars (λ c, negb (isSpace c)) tag = true →
  replaceChar "029" "|" tag = tag →
  allChars isDigit g = true →
  replaceChar "029" "|" (trim (tag +:+ g +:+ rest)) =
  tag +:+ g +:+ replaceChar "029" "|" (trimEnd rest).
Proof.
  intros Hne Hs Ht Hg. rewrite <- (append_assoc tag g rest).
  rewrite trim_append.
  - unfold replaceChar in *. rewrite !mapChars_append, Ht.
    fold (replaceChar "029" "|" g). rewrite (replace_gs_digits g Hg).
    apply append_assoc.
  - by destruct tag.
  - apply tagged_digits; [done | | done]. intros c Hc. apply (digit_plain c Hc).
Qed.

(** The loop only adds to [result], and what it adds begins with a
    parenthesis. *)
Lemma convertLoop_prefix code fuel pos result :
  ∃ x, convertLoop code fuel pos result = result +:+ x ∧
       (x = "" ∨ String.prefix "(" x = true).
Proof.
  revert pos result. induction fuel as [|fuel IH]; intros pos result;
    cbn [convertLoop]; [exists ""; by rewrite append_nil_r; auto |].
  destruct (pos <? String.length code)%nat;
    [| exists ""; by rewrite append_nil_r; auto].
  destruct (List.find _ aiLengths) as [[ai [n|]]|]; [| | apply IH].
  - destruct (IH (pos + String.length ai + n)%nat
                (tagged result ai
                   (substring code (pos + String.length ai)
                      (pos + String.length ai + n)))) as [x [-> _]].
    unfold tagged. eexists. rewrite !append_assoc. split; [reflexivity |].
    right. apply prefix_append.
  - destruct (indexOf code "|" (pos + String.length ai)) as [sep|].
    + destruct (IH (sep + 1)%nat
                  (tagged result ai
                     (substring code (pos + String.length ai) sep))) as [x [-> _]].
      unfold tagged. eexists. rewrite !append_assoc. split; [reflexivity |].
      right. apply prefix_append.
    + destruct (IH (String.length code)
                  (tagged result ai
                     (substringFrom code (pos + String.length ai)))) as [x [-> _]].
      unfold tagged. eexists. rewrite !append_assoc. split; [reflexivity |].
      right. apply prefix_append.
Qed.

(** One iteration of the loop at an identifier of fixed length. *)
Lemma convertLoop_fixed code fuel pos result ai n :
  (pos < String.length code)%nat →
  List.find (λ e, startsWith (substringFrom code pos) (fst e)) aiLengths =
    Some (ai, Some n) →
  convertLoop code (S fuel) pos result =
    convertLoop code fuel (pos + String.length ai + n)
      (tagged result ai
         (substring code (pos + String.length ai) (pos + String.length ai + n))).
Proof.
  intros Hp Hf. cbn [convertLoop]. apply Nat.ltb_lt in Hp. by rewrite Hp, Hf.
Qed.

(** The conversion of a raw code that begins with 01 and 14 digits. *)
Lemma convert_01 (g y : string) :
  String.length g = 14%nat →
  ∃ x, convertToParenthesized ("01" +:+ g +:+ y) = "(01)" +:+ g +:+ x.
Proof.
  intros Hl. unfold convertToParenthesized.
  change ("01" +:+ g +:+ y) with (String "0" (String "1" (g +:+ y))).
  cbn [String.length].
  rewrite (convertLoop_fixed _ _ 0 "" "01" 14);
    [| cbn [String.length]; lia | generalize (g +:+ y); intros [|a z]; reflexivity].
  change (substring (String "0" (String "1" (g +:+ y))) (0 + String.length "01")
            (0 + String.length "01" + 14))
    with (takeS 14 (g +:+ y)).
  assert (takeS 14 (g +:+ y) = g) as ->
    by (rewrite <- Hl; apply takeS_append).
  destruct (convertLoop_prefix (String "0" (String "1" (g +:+ y)))
              (S (String.length (g +:+ y))) (0 + String.length "01" + 14)
              (tagged "" "01" g)) as [x [-> _]].
  exists x. change (tagged "" "01" g) with ("(01)" +:+ g).
  rewrite append_assoc. reflexivity.
Qed.

End OasisGtinFacts.

(** The end of [parseGS1] once the GTIN is captured: the expiry date, if
    there is one, is six digits and can be built. *)
Ltac oasis_parse_tail Htz :=
  rewrite (padStart_long _ 14 "0") by lia;
  let e := fresh "e" in
  let E := fresh "E" in
  destruct (JS.captureAfter "(17)" JS.isDigit 6 (Some 6%nat) _) as [e|] eqn:E;
    [| by eexists];
  apply captureAfter_spec in E as [? ?];
  let parts := fresh "parts" in
  destruct (oasis_parseExpiryDate_total _ e Htz) as [parts ->];
    [done | lia |];
  by eexists.

(** X21.  [parseGS1] of the Oasis tracker on a code that begins with the
    identifier 01 and 14 digits: in the format with parentheses, whatever
    follows, and in the raw format, which it first converts, when no
    parenthesis follows, it returns a valid record whose [gtin14] is those
    14 digits and whose [gtin13] is them without one leading zero. *)
Theorem X21_oasis_reads_gtin (tz now : Z) (g rest : string) :
  Z.abs tz ≤ 1440 →
  JS.allChars JS.isDigit g = true → String.length g = 14%nat →
  (∃ p, Oasis.parseGS1 tz now ("(01)" +:+ g +:+ rest) = inr p ∧
        Oasis.gtin14 p = g ∧ Oasis.gtin13 p = Oasis.stripOneZero g ∧
        Oasis.valid p = true) ∧
  (JS.includes rest "(" = false →
   ∃ p, Oasis.parseGS1 tz now ("01" +:+ g +:+ rest) = inr p ∧
        Oasis.gtin14 p = g ∧ Oasis.gtin13 p = Oasis.stripOneZero g ∧
        Oasis.valid p = true).
Proof.
  intros Htz Hd Hl. split.
  - unfold Oasis.parseGS1. cbv zeta.
    rewrite (truthy_append_cons "(" "01)" (g +:+ rest)). cbn [negb].
    rewrite (oasis_code "(01)" g rest) by done.
    set (r := JS.replaceChar "029" "|" (JS.trimEnd rest)).
    replace (JS.includes ("(01)" +:+ g +:+ r) "(") with true by done.
    cbn [negb andb]. rewrite andb_false_r.
    rewrite (capture_gtin "(01)" 12 g _ Hd Hl) by lia.
    oasis_parse_tail Htz.
  - intros Hrest. unfold Oasis.parseGS1. cbv zeta.
    rewrite (truthy_append_cons "0" "1" (g +:+ rest)). cbn [negb].
    rewrite (oasis_code "01" g rest) by done.
    set (r := JS.replaceChar "029" "|" (JS.trimEnd rest)).
    assert (JS.includes ("01" +:+ g +:+ r) "(" = false) as ->.
    { rewrite includes_char in Hrest |- *. apply negb_false_iff in Hrest.
      apply negb_false_iff. rewrite !allChars_append.
      rewrite (allChars_impl JS.isDigit _ g
                 (λ c Hc, proj2 (proj2 (proj2 (digit_plain c Hc)))) Hd).
      unfold r, JS.replaceChar. rewrite allChars_mapChars; [done | |].
      - intros c Hc. by destruct (Ascii.eqb c "029").
      - by apply allChars_trimEnd. }
    assert (JS.isDigitsBetween 8 14 ("01" +:+ g +:+ r) = false) as ->.
    { unfold JS.isDigitsBetween. apply andb_false_iff. right.
      apply andb_false_iff. right. apply Nat.leb_gt.
      rewrite !length_append. cbn [String.length]. lia. }
    assert (JS.startsWithDigits 2 ("01" +:+ g +:+ r) = true) as ->.
    { unfold JS.startsWithDigits. apply Nat.leb_le.
      change ("01" +:+ g +:+ r) with (String "0" (String "1" (g +:+ r))).
      cbn [JS.takeWhile]. change (JS.isDigit "0") with true.
      change (JS.isDigit "1") with true. cbn [String.length]. lia. }
    cbn [negb andb].
    destruct (convert_01 g r Hl) as [x ->].
    rewrite (capture_gtin "(01)" 12 g _ Hd Hl) by lia.
    oasis_parse_tail Htz.
Qed.

Lemma X21_oasis_reads_gtin_witness :
  (∃ p, Oasis.parseGS1 240 0 "(01)06291109120100(17)250131(10)A1" = inr p ∧
        Oasis.gtin14 p = "06291109120100" ∧
        Oasis.gtin13 p = Oasis.stripOneZero "06291109120100" ∧
        Oasis.valid p = true) ∧
  (∃ p, Oasis.parseGS1 240 0 "010629110912010017250131" = inr p ∧
        Oasis.gtin14 p = "06291109120100" ∧
        Oasis.gtin13 p = Oasis.stripOneZero "06291109120100" ∧
        Oasis.valid p = true).
Proof.
  split.
  - apply (X21_oasis_reads_gtin 240 0 "06291109120100" "(17)250131(10)A1");
      [vm_compute; discriminate | reflexivity | reflexivity].
  - apply (X21_oasis_reads_gtin 240 0 "06291109120100" "17250131");
      [vm_compute; discriminate | reflexivity | reflexivity | reflexivity].
Defined.

(** X22.  The loop of [convertToParenthesized] ends within as many
    iterations as the code has characters: a larger bound on the
    iterations gives the same text.  The function returns the code as it
    is, or a text that begins with a parenthesis. *)
Theorem X22_convert_ends (code : string) (fuel : nat) :
  (String.length code ≤ fuel)%nat →
  Oasis.convertLoop code fuel 0 "" =
    Oasis.convertLoop code (String.length code) 0 "" ∧
  (Oasis.convertToParenthesized code = code ∨
   JS.startsWith (Oasis.convertToParenthesized code) "(" = true).
Proof.
  intros Hf. split; [apply convertLoop_fuel; lia |].
  unfold Oasis.convertToParenthesized.
  destruct (convertLoop_prefix code (String.length code) 0 "") as [x [-> Hx]].
  rewrite append_nil. destruct Hx as [-> | Hx]; [by left |].
  destruct x as [|c x]; [by left |]. by right.
Qed.

Lemma X22_convert_ends_witness :
  Oasis.convertLoop "0106291109120100172501311012|2155" 40 0 "" =
    "(01)06291109120100(17)250131(10)12(21)55".
Proof.
  rewrite (proj1 (X22_convert_ends "0106291109120100172501311012|2155" 40
                    ltac:(cbn [String.length]; lia))).
  reflexivity.
Defined.

Section TrackerAllFacts.
Import JS Tracker.

Lemma all_indexItem idx item :
  all (indexItem idx item) =
    all idx ++
    (if Aux.indexed item
     then [Entry (itemBarcode item) (itemName item) (itemRms item)] else []).
Proof.
  unfold indexItem, Aux.indexed. cbv zeta.
  destruct (truthy (itemBarcode item)), (truthy (itemRms item)),
    (truthy (itemName item)); cbn [negb andb orb];
    by rewrite ?app_nil_r.
Qed.

Lemma all_fold md idx :
  all (fold_left indexItem md idx) =
    all idx ++
    map (λ item, Entry (itemBarcode item) (itemName item) (itemRms item))
      (List.filter Aux.indexed md).
Proof.
  revert idx. induction md as [|item md IH]; intros idx; cbn [fold_left].
  - by rewrite app_nil_r.
  - rewrite IH, all_indexItem. cbn [List.filter].
    destruct (Aux.indexed item); cbn [map]; [| by rewrite app_nil_r].
    by rewrite <- app_assoc.
Qed.

End TrackerAllFacts.

(** X23.  The list [all] of the index [buildMasterIndex] builds has one
    entry for every record of the master data that has a name and a barcode
    or an rms code, in the order of the master data, with the barcode
    reduced to its digits and the rms code trimmed; the other records leave
    no entry. *)
Theorem X23_index_all_entries (md : list product) :
  Tracker.all (Tracker.buildMasterIndex md) =
    map (λ item, Tracker.Entry (Tracker.itemBarcode item)
                   (Tracker.itemName item) (Tracker.itemRms item))
      (List.filter Aux.indexed md).
Proof. unfold Tracker.buildMasterIndex. by rewrite all_fold. Qed.

Section RearrangeFacts.
Import JS JSDate Tracker.

Lemma all_years_2000 :
  forallb (λ v, String.eqb (pretty (2000 + v)) ("20" +:+ pad2 v)) (seqZ 0 100) = true.
Proof. vm_compute. reflexivity. Qed.

(** The years 2000 to 2099 print as [20] and the two digits. *)
Lemma year_2000 v : 0 ≤ v ≤ 99 → pretty (2000 + v) = "20" +:+ pad2 v.
Proof.
  intros Hv. pose proof all_years_2000 as H.
  rewrite forallb_forall in H. apply String.eqb_eq, H.
  apply list_elem_of_In, elem_of_seqZ. lia.
Qed.

End RearrangeFacts.

(** X24.  [parseExpiryDate] of the expiry tracker on six digits whose day
    is not [00] checks nothing and computes no date: the three texts it
    returns are the digits of the field put in another order, behind the
    century [20], whatever the month and the day are. *)
Theorem X24_tracker_expiry_rearranges (tz : Z) (y1 y2 m1 m2 d1 d2 : ascii) :
  JS.isDigit y1 = true → JS.isDigit y2 = true →
  JS.isDigit m1 = true → JS.isDigit m2 = true →
  JS.isDigit d1 = true → JS.isDigit d2 = true →
  String d1 (String d2 "") ≠ "00" →
  Tracker.parseExpiryDate tz
    (String y1 (String y2 (String m1 (String m2 (String d1 (String d2 "")))))) =
  {| Tracker.iso :=
       String "2" (String "0" (String y1 (String y2 (String "-"
         (String m1 (String m2 (String "-" (String d1 (String d2 "")))))))));
     Tracker.ddmmyy :=
       String d1 (String d2 (String m1 (String m2 (String y1 (String y2 "")))));
     Tracker.display :=
       String d1 (String d2 (String "/" (String m1 (String m2 (String "/"
         (String "2" (String "0" (String y1 (String y2 ""))))))))) |}.
Proof.
  intros Hy1 Hy2 Hm1 Hm2 Hd1 Hd2 Hne.
  destruct (two_digits 0 y1 y2 all_two_digits_0 Hy1 Hy2) as (vy & Ey & Hy & Py).
  destruct (two_digits 0 m1 m2 all_two_digits_0 Hm1 Hm2) as (vm & Em & Hm & Pm).
  destruct (two_digits 0 d1 d2 all_two_digits_0 Hd1 Hd2) as (vd & Ed & Hd & Pd).
  unfold Tracker.parseExpiryDate. cbv zeta.
  change (JS.substring _ 0 2) with (String y1 (String y2 "")).
  change (JS.substring _ 2 4) with (String m1 (String m2 "")).
  change (JS.substring _ 4 6) with (String d1 (String d2 "")).
  rewrite Ey, Em, Ed. cbn [mbind option_bind mret option_ret].
  assert (vd ≠ 0) as Hvd by (intros ->; by rewrite <- Pd in Hne).
  destruct vd as [|vd|vd]; [done | |];
    cbn [JS.numToString]; rewrite (year_2000 vy Hy);
    fold (JSDate.pad2 vy); fold (JSDate.pad2 vm);
    [fold (JSDate.pad2 (Z.pos vd)) | fold (JSDate.pad2 (Z.neg vd))];
    rewrite Py, Pm, Pd; reflexivity.
Qed.

Lemma X24_tracker_expiry_rearranges_witness :
  Tracker.iso (Tracker.parseExpiryDate 0 "251345") = "2025-13-45".
Proof.
  rewrite (X24_tracker_expiry_rearranges 0 "2" "5" "1" "3" "4" "5");
    [reflexivity | reflexivity | reflexivity | reflexivity | reflexivity
    | reflexivity | reflexivity | discriminate].
Defined.

Section PivotFacts.
Import JS JSDate Oasis Aux.

(** The status is decided by the local days of the two time values. *)
Lemma getExpiryStatus_days tz now date :
  Z.abs now ≤ 8639999913600000 → Z.abs date ≤ 8639999913600000 →
  getExpiryStatus tz now date =
    if (date + LocalTZA tz) / msPerDay <? (now + LocalTZA tz) / msPerDay
    then expired
    else if (date + LocalTZA tz) / msPerDay - (now + LocalTZA tz) / msPerDay <=? 90
         then expiring
         else ok.
Proof.
  intros Hn Hd. unfold getExpiryStatus.
  rewrite (setHours0_value tz now Hn), (setHours0_value tz date Hd).
  cbn [mbind option_bind].
  set (de := (date + LocalTZA tz) / msPerDay).
  set (dn := (now + LocalTZA tz) / msPerDay).
  replace (de * msPerDay - LocalTZA tz - (dn * msPerDay - LocalTZA tz))
    with ((de - dn) * 86400000) by (unfold msPerDay; lia).
  rewrite ceilDiv_mul by lia. unfold EXPIRY_SOON_DAYS.
  destruct (Z.ltb_spec (de - dn) 0), (Z.ltb_spec de dn); try lia; reflexivity.
Qed.

Lemma all_pivot_bounds :
  forallb (λ yy, forallb (pivotBoundAt yy) (seqZ 0 100)) (seqZ 50 50) = true.
Proof. vm_compute. reflexivity. Qed.

Lemma pivot_bound yy mm :
  50 ≤ yy ≤ 99 → 0 ≤ mm ≤ 99 → MakeDay (1900 + yy) (mm - 1) 0 + 99 < 13879.
Proof.
  intros Hyy Hmm.
  pose proof (forallb2_seqZ pivotBoundAt 50 50 0 100 yy mm all_pivot_bounds
                ltac:(lia) ltac:(lia)) as H.
  unfold pivotBoundAt, pivotBound in H. by apply Z.ltb_lt in H.
Qed.

(** The date [parseExpiryDate] builds from six digits: the local midnight
    of a day counted from the year and the month of the field. *)
Lemma oasis_parseExpiryDate_date tz e :
  Z.abs tz ≤ 1440 → allChars isDigit e = true → String.length e = 6%nat →
  ∃ p yy mm d,
    parseExpiryDate tz e = inr p ∧
    parseInt (substring e 0 2) 10 = Some yy ∧ 0 ≤ yy ≤ 99 ∧
    parseInt (substring e 2 4) 10 = Some mm ∧ 0 ≤ mm ≤ 99 ∧
    1 ≤ d ≤ 99 ∧
    date p = MakeDay (oasisYear yy) (mm - 1) d * msPerDay - tz * 60000.
Proof.
  intros Htz Hd Hl.
  destruct (six_digits e Hd Hl)
    as (a1 & a2 & b1 & b2 & c1 & c2 & -> & Ha1 & Ha2 & Hb1 & Hb2 & Hc1 & Hc2).
  destruct (two_digits 10 a1 a2 all_two_digits_10 Ha1 Ha2) as (yy & Py & Hyy & _).
  destruct (two_digits 10 b1 b2 all_two_digits_10 Hb1 Hb2) as (mm & Pm & Hmm & _).
  destruct (two_digits 10 c1 c2 all_two_digits_10 Hc1 Hc2) as (dd & Pd & Hdd & _).
  unfold parseExpiryDate.
  change (substring (String a1 (String a2 (String b1 (String b2
            (String c1 (String c2 "")))))) 0 2) with (String a1 (String a2 "")).
  change (substring (String a1 (String a2 (String b1 (String b2
            (String c1 (String c2 "")))))) 2 4) with (String b1 (String b2 "")).
  change (substring (String a1 (String a2 (String b1 (String b2
            (String c1 (String c2 "")))))) 4 6) with (String c1 (String c2 "")).
  rewrite Py, Pm, Pd. cbn [mbind option_bind]. fold (oasisYear yy).
  destruct (expiryBounds_in yy mm Hyy Hmm) as (Hy & HD & HD' & Hdim).
  destruct (decide (dd = 0)) as [->|Hne].
  - rewrite getDate_newDate by (done || lia).
    rewrite newDate_value by (try done; rewrite MakeDay_date; lia).
    eexists _, yy, mm, (civilFromDays (MakeDay (oasisYear yy) mm 0)).2.
    repeat (split; [done || lia |]). reflexivity.
  - assert ((match Some dd with
             | Some 0 => getDate tz (newDate tz (Some (oasisYear yy)) (Some mm) (Some 0))
             | _ => Some dd
             end) = Some dd) as -> by (destruct dd; done).
    rewrite newDate_value by (try done; rewrite MakeDay_date; lia).
    eexists _, yy, mm, dd. repeat (split; [done || lia |]). reflexivity.
Qed.

End PivotFacts.

(** X25.  The Oasis tracker reads the two-digit years 50 to 99 as 1950 to
    1999: for an expiry field of six digits with such a year, whatever its
    month and day, [parseExpiryDate] returns a date that [getExpiryStatus]
    classes as expired at any current time from 2 January 2008 (UTC) on. *)
Theorem X25_pivot_years_expired (tz now : Z) (e : string) (yy : Z) :
  Z.abs tz ≤ 1440 →
  JS.allChars JS.isDigit e = true → String.length e = 6%nat →
  JS.parseInt (JS.substring e 0 2) 10 = Some yy → 50 ≤ yy →
  1199232000000 ≤ now ≤ 8639999913600000 →
  ∃ p, Oasis.parseExpiryDate tz e = inr p ∧
       Oasis.getExpiryStatus tz now (Oasis.date p) = Oasis.expired.
Proof.
  intros Htz Hd Hl Hy Hyy Hnow.
  destruct (oasis_parseExpiryDate_date tz e Htz Hd Hl)
    as (p & yy' & mm & d & Hp & Hy' & Hyy' & Hm & Hmm & Hdd & Hdate).
  assert (yy' = yy) as -> by congruence.
  exists p. split; [done |].
  pose proof (pivot_bound yy mm ltac:(lia) Hmm) as Hb.
  assert (Aux.oasisYear yy = 1900 + yy) as Hyear
    by (unfold Aux.oasisYear; destruct (Z.leb_spec 50 yy); lia).
  rewrite Hyear, MakeDay_date in Hdate.
  set (D := JSDate.MakeDay (1900 + yy) (mm - 1) 0 + d) in *.
  assert (-100000 ≤ D < 13879) as HD.
  { pose proof (expiryBounds_in yy mm Hyy' Hmm) as (_ & _ & H1 & _).
    rewrite Hyear in H1. unfold D. lia. }
  rewrite getExpiryStatus_days by (rewrite ?Hdate; unfold JSDate.msPerDay; lia).
  rewrite Hdate. unfold JSDate.LocalTZA.
  replace (D * JSDate.msPerDay - tz * 60000 + tz * 60000)
    with (D * JSDate.msPerDay) by lia.
  rewrite Z.div_mul by done.
  assert (13879 ≤ (now + tz * 60000) / JSDate.msPerDay) as Hn
    by (apply Z.div_le_lower_bound; unfold JSDate.msPerDay; lia).
  destruct (Z.ltb_spec D ((now + tz * 60000) / JSDate.msPerDay)); [done | lia].
Qed.

Lemma X25_pivot_years_expired_witness :
  ∃ p, Oasis.parseExpiryDate 240 "500101" = inr p ∧
       Oasis.getExpiryStatus 240 1762128000000 (Oasis.date p) = Oasis.expired.
Proof.
  apply (X25_pivot_years_expired 240 1762128000000 "500101" 50);
    [vm_compute; discriminate | reflexivity | reflexivity | reflexivity
    | lia | lia].
Defined.
